(** * tap-google-analytics: the report extraction engine

    A shallow embedding of [tap_google_analytics/client.py]
    (class [GoogleAnalyticsStream]) and the properties of its
    specification.  Python strings are modelled as [string], one character
    of the [str] per character of the [string]: the model covers the ASCII
    strings, as the field names of the reporting API are, and [Py.isascii]
    marks them where a property depends on it.  Dictionaries whose key order
    is observable are association lists, the reference catalogs finite
    maps. *)

From Stdlib Require Import ZArith Lia Ascii String List Bool.
From stdpp Require Import base option list strings pretty gmap.

Import ListNotations.
Set Warnings "-register-all".
Set Warnings "-notation-overridden".
Set Warnings "-notation-incompatible-prefix".
Set Warnings "-notation-for-abbreviation".
Local Open Scope string_scope.
Local Open Scope list_scope.

(** ** Python string built-ins *)

Module Py.

(** [s.isascii()]: every character is below U+0080. *)
Fixpoint isascii (s : string) : bool :=
  match s with
  | EmptyString => true
  | String c s' => (nat_of_ascii c <? 128)%nat && isascii s'
  end.

(** [c.isupper()] for an ASCII character [c]: the letters A to Z.  (Beyond
    ASCII, [str.isupper] follows the Unicode tables, which are not
    modelled.) *)
Definition isupper (c : ascii) : bool :=
  let n := nat_of_ascii c in (65 <=? n)%nat && (n <=? 90)%nat.

(** [c.lower()] for an ASCII character [c]. *)
Definition lower (c : ascii) : ascii :=
  if isupper c then ascii_of_nat (nat_of_ascii c + 32) else c.

(** [s.startswith(p)] *)
Fixpoint startswith (s p : string) : bool :=
  match p with
  | EmptyString => true
  | String a p' =>
      match s with
      | EmptyString => false
      | String b s' => Ascii.eqb a b && startswith s' p'
      end
  end.

(** [s.startswith((p1, p2, ...))] *)
Definition startswith_any (s : string) (ps : list string) : bool :=
  existsb (startswith s) ps.

(** [s[n:]] *)
Fixpoint drop (n : nat) (s : string) : string :=
  match n, s with
  | O, _ => s
  | S _, EmptyString => EmptyString
  | S k, String _ s' => drop k s'
  end.

(** [s.endswith(p)] *)
Definition endswith (s p : string) : bool :=
  (String.length p <=? String.length s)%nat
  && String.eqb (drop (String.length s - String.length p) s) p.

(** [s.endswith((p1, p2, ...))] *)
Definition endswith_any (s : string) (ps : list string) : bool :=
  existsb (endswith s) ps.

(** [p in s] for strings. *)
Fixpoint contains (s p : string) : bool :=
  startswith s p ||
  match s with
  | EmptyString => false
  | String _ s' => contains s' p
  end.

(** [s.replace(old, new)]: the occurrences of [old] are replaced from left
    to right, without overlap.  [skip] counts the characters of a matched
    occurrence that are still to be dropped. *)
Fixpoint replace_go (old new : string) (skip : nat) (s : string) : string :=
  match s with
  | EmptyString =>
      match old with EmptyString => new | _ => EmptyString end
  | String c rest =>
      match skip with
      | S k => replace_go old new k rest
      | O =>
          if startswith s old then
            match String.length old with
            | O => new +:+ String c (replace_go old new 0 rest)
            | S k => new +:+ replace_go old new k rest
            end
          else String c (replace_go old new 0 rest)
      end
  end.

Definition replace (s old new : string) : string := replace_go old new 0 s.

(** [s.lstrip(c)] for a one-character set. *)
Fixpoint lstrip (s : string) (c : ascii) : string :=
  match s with
  | EmptyString => EmptyString
  | String b s' => if Ascii.eqb b c then lstrip s' c else s
  end.

(** ["".join([f(c) for c in s])] *)
Fixpoint join_map (f : ascii -> string) (s : string) : string :=
  match s with
  | EmptyString => EmptyString
  | String c s' => f c +:+ join_map f s'
  end.

End Py.

(** ** Column renaming: [_normalize_colname] *)

(** ["_" + c.lower() if c.isupper() else c] *)
Definition camel (c : ascii) : string :=
  if Py.isupper c then "_" +:+ String (Py.lower c) "" else String c "".

Definition _normalize_colname (colname : string) : string :=
  let colname := Py.replace colname "ga:" "ga_" in
  Py.lstrip (Py.join_map camel colname) "_".

(** No character of the string is an upper-case letter. *)
Fixpoint no_upper (s : string) : bool :=
  match s with
  | EmptyString => true
  | String c s' => negb (Py.isupper c) && no_upper s'
  end.

(** ** Values, dictionaries and exceptions *)

(** JSON-like Python values.  A float is kept symbolic: [JFloat10 src] is
    the value of [round(float(src), 10)]. *)
Inductive json :=
| JNone
| JBool (b : bool)
| JInt (z : Z)
| JFloat10 (src : string)
| JStr (s : string)
| JList (l : list json)
| JDict (d : list (string * json)).

(** A Python [dict] with string keys: insertion order is kept, keys are
    unique. *)
Definition pydict (V : Type) := list (string * V).

Module Dict.
Section ops.
Context {V : Type}.

(** [d.get(k)] *)
Fixpoint get (k : string) (d : pydict V) : option V :=
  match d with
  | [] => None
  | (k', v) :: d' => if String.eqb k' k then Some v else get k d'
  end.

(** [k in d] *)
Definition mem (k : string) (d : pydict V) : bool :=
  match get k d with Some _ => true | None => false end.

(** [d[k] = v]: overwrite in place, or append a new key. *)
Fixpoint set (k : string) (v : V) (d : pydict V) : pydict V :=
  match d with
  | [] => [(k, v)]
  | (k', v') :: d' =>
      if String.eqb k' k then (k, v) :: d' else (k', v') :: set k v d'
  end.

(** [{**d1, **d2}]: the keys of [d2] are written over [d1] in order. *)
Definition merge (d1 d2 : pydict V) : pydict V :=
  fold_left (fun acc kv => set (fst kv) (snd kv) acc) d2 d1.

(** [d.keys()] *)
Definition keys (d : pydict V) : list string := map fst d.

(** Well-formed dictionaries have no repeated key. *)
Definition wf (d : pydict V) : Prop := NoDup (keys d).
End ops.
End Dict.

(** The exceptions the engine raises or lets through. *)
Inductive exn :=
| SystemExit (code : Z)
| IndexError
| KeyError (key : string)
| ValueError
| TypeError
| AttributeError
| OverflowError
| RuntimeError (msg : string)
| SocketTimeout
| HttpError (status : Z) (reason : string) (message : string)
| TapGaRateLimitError (message : string)
| TapGaQuotaExceededError (message : string)
| TapGaInvalidArgumentError (message : string)
| TapGaAuthenticationError (message : string)
| TapGaBackendServerError (message : string)
| TapGaUnknownError (message : string).

(** A call either returns or raises. *)
Inductive res (A : Type) :=
| Ok (a : A)
| Raise (e : exn).
Arguments Ok {A} a.
Arguments Raise {A} e.

Definition res_bind {A B} (m : res A) (k : A -> res B) : res B :=
  match m with Ok a => k a | Raise e => Raise e end.

(** ** The world of one stream extraction *)

Inductive level := INFO | WARNING | ERROR | CRITICAL.

(** What the engine has done so far: its log lines, the request bodies
    handed to the API client (one group per invocation of [_query_api], one
    entry per attempt), the nominal back-off delays, and the records
    yielded to the sink. *)
Record world := World {
  w_log : list (level * string);
  w_sent : list (list json);
  w_slept : list Z;
  w_yield : list (pydict json)
}.

Definition world0 : world := World [] [] [] [].

(** Effectful code threads the world and may raise. *)
Definition M (A : Type) := world -> world * res A.

Definition ret {A} (a : A) : M A := fun w => (w, Ok a).
Definition raise {A} (e : exn) : M A := fun w => (w, Raise e).
Definition bind {A B} (m : M A) (k : A -> M B) : M B :=
  fun w => match m w with
           | (w', Ok a) => k a w'
           | (w', Raise e) => (w', Raise e)
           end.
Definition lift {A} (r : res A) : M A := fun w => (w, r).

Notation "'let*' x ':=' m 'in' k" := (bind m (fun x => k))
  (at level 10, x name, m at level 100, k at level 200).

(** [self.logger.<level>(msg)] *)
Definition logger (l : level) (msg : string) : M unit :=
  fun w => (World (w_log w ++ [(l, msg)]) (w_sent w) (w_slept w) (w_yield w), Ok tt).

(** [yield record] *)
Definition yield (r : pydict json) : M unit :=
  fun w => (World (w_log w) (w_sent w) (w_slept w) (w_yield w ++ [r]), Ok tt).

(** [sys.exit(code)] *)
Definition sys_exit {A} (code : Z) : M A := raise (SystemExit code).

(** ** Type inference *)

(** [_parse_other_attrb_type] *)
Definition _parse_other_attrb_type (attr_type : string) : string :=
  if String.eqb attr_type "INTEGER" then "integer"
  else if String.eqb attr_type "FLOAT" || String.eqb attr_type "PERCENT"
          || String.eqb attr_type "TIME" then "number"
  else "string".

(** [_parse_dimension_type]; [{type}] in the message is Python's built-in
    [type] there. *)
Definition _parse_dimension_type (attribute : string)
    (dimensions_ref : gmap string string) : M string :=
  if String.eqb attribute "ga:segment" then ret "string"
  else if Py.startswith_any attribute
            ["ga:dimension"; "ga:customVarName"; "ga:customVarValue"]
  then ret "string"
  else match dimensions_ref !! attribute with
       | Some t => ret (_parse_other_attrb_type t)
       | None =>
           let* _ := logger CRITICAL "Unsuported GA type: <class 'type'>" in
           sys_exit 1
       end.

(** [_parse_metric_type] *)
Definition _parse_metric_type (attribute : string)
    (metrics_ref : gmap string string) : M string :=
  if Py.startswith attribute "ga:goal"
     && Py.endswith_any attribute
          ["Starts"; "Completions"; "Value"; "ConversionRate"; "Abandons";
           "AbandonRate"]
  then ret "string"
  else if Py.startswith attribute "ga:searchGoal"
          && Py.endswith attribute "ConversionRate"
  then ret "string"
  else if Py.startswith_any attribute ["ga:metric"; "ga:calcMetric"]
  then ret "string"
  else match metrics_ref !! attribute with
       | Some t => ret (_parse_other_attrb_type t)
       | None =>
           let* _ := logger CRITICAL "Unsuported GA type: <class 'type'>" in
           sys_exit 1
       end.

(** [_lookup_data_type] *)
Definition _lookup_data_type (type attribute : string)
    (dimensions_ref metrics_ref : gmap string string) : M string :=
  if String.eqb type "dimension" then
    _parse_dimension_type attribute dimensions_ref
  else if String.eqb type "metric" then
    _parse_metric_type attribute metrics_ref
  else
    let* _ := logger CRITICAL ("Unsuported GA type: " +:+ type) in
    sys_exit 1.

(** ** Report definition builder *)

(** The report specification of one stream ([report_def_raw]).  An optional
    key that is not in the dictionary is [None]. *)
Record report_spec := {
  r_dimensions : list string;
  r_metrics : list string;
  r_segments : option (list json);
  r_samplingLevel : option json;
  r_dimensionFilterClauses : option (pydict (pydict json));
  r_metricFilterClauses : option (pydict (pydict json));
  r_orderBys : option (pydict json);
  r_page_size : option Z;
  r_max_records : option Z
}.

(** [report_def_raw[f"{key}FilterClauses"]], when the key is there. *)
Definition raw_filter_clauses (key : string) (report_def_raw : report_spec)
  : option (pydict (pydict json)) :=
  if String.eqb key "dimension" then r_dimensionFilterClauses report_def_raw
  else if String.eqb key "metric" then r_metricFilterClauses report_def_raw
  else None.

(** One pass of the loop [for key in ["dimension", "metric"]]. *)
Definition add_filter_clauses (report_def_raw : report_spec)
    (report_definition : pydict json) (key : string) : pydict json :=
  match raw_filter_clauses key report_def_raw with
  | None => report_definition
  | Some clauses =>
      let filters :=
        map (fun clause =>
               JDict [("filters",
                       JDict (Dict.merge [(key +:+ "Name", JStr clause)]
                                (default [] (Dict.get clause clauses))))])
            (Dict.keys clauses) in
      Dict.set (key +:+ "FilterClauses") (JList filters) report_definition
  end.

Definition opt_set {V} (k : string) (v : option V) (f : V -> json)
    (d : pydict json) : pydict json :=
  match v with
  | Some x => Dict.set k (f x) d
  | None => d
  end.

(** [_generate_report_definition] *)
Definition _generate_report_definition (report_def_raw : report_spec)
  : pydict json :=
  let report_definition :=
    [("metrics",
      JList (map (fun metric =>
                    JDict [("expression", JStr (Py.replace metric "ga_" "ga:"))])
               (r_metrics report_def_raw)));
     ("dimensions",
      JList (map (fun dimension =>
                    JDict [("name", JStr (Py.replace dimension "ga_" "ga:"))])
               (r_dimensions report_def_raw)))] in
  let report_definition :=
    opt_set "segments" (r_segments report_def_raw)
      (fun ids => JList (map (fun segment_id => JDict [("segmentId", segment_id)]) ids))
      report_definition in
  let report_definition :=
    opt_set "samplingLevel" (r_samplingLevel report_def_raw) id
      report_definition in
  let report_definition :=
    fold_left (add_filter_clauses report_def_raw) ["dimension"; "metric"]
      report_definition in
  let report_definition :=
    opt_set "orderBys" (r_orderBys report_def_raw)
      (fun order =>
         JList (map (fun '(clause, sort_order) =>
                       JDict [("fieldName", JStr (Py.replace clause "ga_" "ga:"));
                              ("sortOrder", sort_order)])
                  order))
      report_definition in
  let report_definition :=
    opt_set "page_size" (r_page_size report_def_raw) JInt report_definition in
  opt_set "max_records" (r_max_records report_def_raw) JInt report_definition.

(** ** Dates: [datetime.strptime], [strftime], [timedelta(days=1)] *)

Module Date.

Record datetime := Datetime { year : Z; month : Z; day : Z }.

Definition is_leap (y : Z) : bool :=
  ((y mod 4 =? 0) && negb (y mod 100 =? 0) || (y mod 400 =? 0))%Z.

Definition days_in_month (y m : Z) : Z :=
  (if m =? 2 then (if is_leap y then 29 else 28)
   else if (m =? 4) || (m =? 6) || (m =? 9) || (m =? 11) then 30
   else 31)%Z.

(** The dates [datetime(y, m, d)] accepts. *)
Definition valid (y m d : Z) : bool :=
  ((1 <=? y) && (y <=? 9999) && (1 <=? m) && (m <=? 12)
   && (1 <=? d) && (d <=? days_in_month y m))%Z.

(** The value of a decimal digit, [\d] on an ASCII string. *)
Definition digit (c : ascii) : option Z :=
  let n := nat_of_ascii c in
  if (48 <=? n)%nat && (n <=? 57)%nat then Some (Z.of_nat (n - 48)) else None.

(** The directives of the formats in use. *)
Inductive directive := DY | Dm | Dd | Lit (c : ascii).

(** One alternative of a directive's regular expression: the value it
    reads and the rest of the input. *)
Definition alt := string -> option (Z * string).

(** Two digits, each constrained: [3[0-1]], [1[0-2]], [0[1-9]], ... *)
Definition two (p1 p2 : Z -> bool) : alt := fun s =>
  match s with
  | String c1 (String c2 rest) =>
      match digit c1, digit c2 with
      | Some a, Some b =>
          if p1 a && p2 b then Some (10 * a + b, rest)%Z else None
      | _, _ => None
      end
  | _ => None
  end.

(** One digit in [1-9]. *)
Definition one19 : alt := fun s =>
  match s with
  | String c rest =>
      match digit c with
      | Some a => if (1 <=? a)%Z then Some (a, rest) else None
      | None => None
      end
  | EmptyString => None
  end.

(** A blank, then one digit in [1-9]. *)
Definition blank19 : alt := fun s =>
  match s with
  | String c rest => if Ascii.eqb c " " then one19 rest else None
  | EmptyString => None
  end.

(** Four digits. *)
Definition four : alt := fun s =>
  match s with
  | String c1 (String c2 (String c3 (String c4 rest))) =>
      match digit c1, digit c2, digit c3, digit c4 with
      | Some a, Some b, Some c, Some d =>
          Some (((a * 10 + b) * 10 + c) * 10 + d, rest)%Z
      | _, _, _, _ => None
      end
  | _ => None
  end.

(** A literal character of the format. *)
Definition literal (c : ascii) : alt := fun s =>
  match s with
  | String b rest => if Ascii.eqb b c then Some (0%Z, rest) else None
  | EmptyString => None
  end.

Definition any_digit (_ : Z) : bool := true.
Definition between (lo hi a : Z) : bool := ((lo <=? a) && (a <=? hi))%Z.

(** The alternatives of a directive, in the order the regular expression
    tries them. *)
Definition alts (d : directive) : list alt :=
  match d with
  | DY => [four]
  | Dm => [two (Z.eqb 1) (between 0 2); two (Z.eqb 0) (between 1 9); one19]
  | Dd => [two (Z.eqb 3) (between 0 1); two (between 1 2) any_digit;
           two (Z.eqb 0) (between 1 9); one19; blank19]
  | Lit c => [literal c]
  end.

(** The fields read so far; [strptime] starts from 1900-01-01. *)
Definition store (d : directive) (v : Z) (t : datetime) : datetime :=
  match d with
  | DY => Datetime v (month t) (day t)
  | Dm => Datetime (year t) v (day t)
  | Dd => Datetime (year t) (month t) v
  | Lit _ => t
  end.

(** All the ways the format's regular expression matches a prefix of the
    input, in the order a backtracking matcher finds them. *)
Fixpoint matches (fmt : list directive) (t : datetime) (s : string)
  : list (datetime * string) :=
  match fmt with
  | [] => [(t, s)]
  | d :: fmt' =>
      flat_map (fun a : alt =>
                  match a s with
                  | Some (v, rest) => matches fmt' (store d v t) rest
                  | None => []
                  end)
               (alts d)
  end.

(** [datetime.strptime(s, fmt)]: the first match must use up the whole
    input and denote a date. *)
Definition strptime (s : string) (fmt : list directive) : res datetime :=
  match matches fmt (Datetime 1900 1 1) s with
  | [] => Raise ValueError
  | (t, rest) :: _ =>
      match rest with
      | EmptyString =>
          if valid (year t) (month t) (day t) then Ok t else Raise ValueError
      | _ => Raise ValueError
      end
  end.

(** The formats [%Y%m%d], [%Y-%m-%d] and [%Y%m]. *)
Definition fmt_compact : list directive := [DY; Dm; Dd].
Definition fmt_dashed : list directive := [DY; Lit "-"; Dm; Lit "-"; Dd].
Definition fmt_year_month : list directive := [DY; Dm].

Definition digit_char (n : Z) : ascii := ascii_of_nat (48 + Z.to_nat n).

(** Zero-padded decimals of width two and four. *)
Definition pad2 (n : Z) : string :=
  String (digit_char (n / 10)) (String (digit_char (n mod 10)) "").
Definition pad4 (n : Z) : string :=
  String (digit_char (n / 1000))
    (String (digit_char (n / 100 mod 10))
       (String (digit_char (n / 10 mod 10))
          (String (digit_char (n mod 10)) ""))).

(** [%Y] of [strftime] for a year from 1 to 9999: its decimal numeral,
    which the C library does not pad (year 999 is printed ["999"]); from
    year 1000 on it has four digits. *)
Definition year_digits (y : Z) : string :=
  if (y <? 10)%Z then String (digit_char y) ""
  else if (y <? 100)%Z then pad2 y
  else if (y <? 1000)%Z then String (digit_char (y / 100)) (pad2 (y mod 100))
  else pad4 y.

(** [t.strftime("%Y-%m-%d")] *)
Definition strftime_dashed (t : datetime) : string :=
  year_digits (year t) +:+ "-" +:+ pad2 (month t) +:+ "-" +:+ pad2 (day t).

(** [t.strftime("%Y%m01")] *)
Definition strftime_month01 (t : datetime) : string :=
  year_digits (year t) +:+ pad2 (month t) +:+ "01".

(** [t.strftime("%Y%m%d")], the compact form of a date. *)
Definition strftime_compact (t : datetime) : string :=
  year_digits (year t) +:+ pad2 (month t) +:+ pad2 (day t).

(** [t.toordinal()]: the days from 0001-01-01, which is day 1. *)
Definition days_before_year (y : Z) : Z :=
  ((y - 1) * 365 + (y - 1) / 4 - (y - 1) / 100 + (y - 1) / 400)%Z.
Definition days_before_month (y m : Z) : Z :=
  (nth (Z.to_nat m) [0; 0; 31; 59; 90; 120; 151; 181; 212; 243; 273; 304; 334] 0
   + (if (2 <? m) && is_leap y then 1 else 0))%Z.
Definition toordinal (t : datetime) : Z :=
  (days_before_year (year t) + days_before_month (year t) (month t) + day t)%Z.

(** [t - timedelta(days=1)]: the date whose ordinal is one less. *)
Definition minus_one_day (t : datetime) : res datetime :=
  if (1 <? day t)%Z then Ok (Datetime (year t) (month t) (day t - 1))
  else if (1 <? month t)%Z then
    Ok (Datetime (year t) (month t - 1) (days_in_month (year t) (month t - 1)))
  else if (1 <? year t)%Z then Ok (Datetime (year t - 1) 12 31)
  else Raise OverflowError.

End Date.

(** ** Configuration, stream object and API responses *)

(** The tap configuration ([self.config]); [None] is a key that is not set. *)
Record config := {
  cfg_view_id : string;
  cfg_start_date : option string;
  cfg_end_date : option string;
  cfg_page_size : option Z;
  cfg_max_records : option Z;
  cfg_quota_user : option string
}.

(** [_get_end_date]; [utcnow] is the clock, read when no end date is
    configured. *)
Definition _get_end_date (cfg : config) (utcnow : Date.datetime) : res string :=
  let end_date := default (Date.strftime_dashed utcnow) (cfg_end_date cfg) in
  res_bind (Date.strptime end_date Date.fmt_dashed) (fun parsed =>
  res_bind (Date.minus_one_day parsed) (fun end_date_offset =>
  Ok (Date.strftime_dashed end_date_offset))).

(** The attributes of a [GoogleAnalyticsStream] ([self]). *)
Record stream := {
  name : string;
  tap_stream_id : string;
  cfg : config;
  report : report_spec;
  dimensions_ref : gmap string string;
  metrics_ref : gmap string string;
  quota_user : option string;
  end_date : string;
  view_id : string;
  page_size : Z;
  max_records : option Z
}.

(** [__init__] *)
Definition init (name tap_stream_id : string) (cfg : config)
    (ga_report : report_spec) (ga_dimensions_ref ga_metrics_ref : gmap string string)
    (utcnow : Date.datetime) : res stream :=
  res_bind (_get_end_date cfg utcnow) (fun end_date =>
  Ok {| name := name; tap_stream_id := tap_stream_id; cfg := cfg;
        report := ga_report;
        dimensions_ref := ga_dimensions_ref; metrics_ref := ga_metrics_ref;
        quota_user := cfg_quota_user cfg;
        end_date := end_date;
        view_id := cfg_view_id cfg;
        page_size := default 1000%Z (cfg_page_size cfg);
        max_records := cfg_max_records cfg |}).

(** One page of the reporting API, with the keys the engine reads; [None]
    is a key that is missing. *)
Record metric_header_entry := { mh_name : option string }.
Record metric_header := { metricHeaderEntries : option (list metric_header_entry) }.
Record column_header := {
  ch_dimensions : option (list string);
  ch_metricHeader : option metric_header
}.
Record date_range_values := { values : option (list string) }.
Record row := {
  row_dimensions : option (list string);
  row_metrics : option (list date_range_values)
}.
Record report_data := { rows : option (list row) }.
Record report_entry := {
  columnHeader : option column_header;
  data : option report_data;
  nextPageToken : option string
}.
Record response := { reports : option (list report_entry) }.

(** Truth value of a token: [None] and the empty string are false. *)
Definition truthy (token : option string) : bool :=
  match token with
  | Some (String _ _) => true
  | _ => false
  end.

(** Truth value of a report dictionary: false when it has no key. *)
Definition report_truthy (r : report_entry) : bool :=
  match columnHeader r, data r, nextPageToken r with
  | None, None, None => false
  | _, _, _ => true
  end.

(** [_get_next_page_token] *)
Definition _get_next_page_token (resp : response) : option string :=
  match default [] (reports resp) with
  | [] => None
  | r :: _ => nextPageToken r
  end.

(** [_is_finished] *)
Definition _is_finished (next_page_token : option string) (total_records : Z)
    (max_records : option Z) : bool :=
  if negb (truthy next_page_token) then true
  else match max_records with
       | None => false
       | Some m => (m <=? total_records)%Z
       end.

(** [_get_state_filter]; [replication_key_value] is what the sync state
    holds for the stream. *)
Definition _get_state_filter (self : stream) (replication_key_value : option string)
  : res string :=
  res_bind
    (if truthy replication_key_value then Ok (default "" replication_key_value)
     else match cfg_start_date (cfg self) with
          | Some s => Ok s
          | None => Raise (KeyError "start_date")
          end)
    (fun state_bookmark =>
  res_bind
    (match Date.strptime state_bookmark Date.fmt_compact with
     | Raise ValueError => Date.strptime state_bookmark Date.fmt_dashed
     | r => r
     end)
    (fun parsed => Ok (Date.strftime_dashed parsed))).

(** ** The remote call, its retry policy and the error classifier *)

(** The kinds of the specification's error taxonomy. *)
Inductive error_kind :=
| RateLimit | QuotaExceeded | InvalidArgument | Authentication
| BackendServer | Unknown.

(** Modelled from the spec: the table of section 4.3, read top to bottom
    ([classify(httpStatus, reasonCode)]); it is compared below with the
    [except] branch of [_request_data]. *)
Definition classify (status : Z) (reason : string) : error_kind :=
  if String.eqb reason "userRateLimitExceeded" || String.eqb reason "rateLimitExceeded"
  then RateLimit
  else if String.eqb reason "quotaExceeded" then QuotaExceeded
  else if (status =? 400)%Z then InvalidArgument
  else if (status =? 401)%Z || (status =? 402)%Z then Authentication
  else if (status =? 500)%Z || (status =? 503)%Z then BackendServer
  else Unknown.

(** The exception class of the tap for each kind. *)
Definition tap_error (k : error_kind) (message : string) : exn :=
  match k with
  | RateLimit => TapGaRateLimitError message
  | QuotaExceeded => TapGaQuotaExceededError message
  | InvalidArgument => TapGaInvalidArgumentError message
  | Authentication => TapGaAuthenticationError message
  | BackendServer => TapGaBackendServerError message
  | Unknown => TapGaUnknownError message
  end.

(** Modelled from the spec: [is_fatal_error] of
    [tap_google_analytics/error.py], which is missing from the sources.  The
    spec's retry policy retries "only on transient-classified exceptions
    (socket timeout or BackendServer)" and gives up "on any fatal-classified
    error"; the [reason] of an [HttpError] stands for [error_reason(e)]. *)
Definition is_fatal_error (e : exn) : bool :=
  match e with
  | SocketTimeout => false
  | HttpError status reason _ =>
      match classify status reason with
      | BackendServer => false
      | _ => true
      end
  | _ => true
  end.

(** The exception classes [backoff.on_exception] is told to catch:
    [(HttpError, socket.timeout)]. *)
Definition is_retried_class (e : exn) : bool :=
  match e with
  | HttpError _ _ _ | SocketTimeout => true
  | _ => false
  end.

(** [backoff.expo]: the nominal delay before the retry that follows the
    [n]-th failure (counted from 0); jitter only shortens it. *)
Definition expo (n : nat) : Z := (2 ^ Z.of_nat n)%Z.

(** [time.sleep] *)
Definition sleep (seconds : Z) : M unit :=
  fun w => (World (w_log w) (w_sent w) (w_slept w ++ [seconds]) (w_yield w), Ok tt).

(** [backoff.on_exception(wait_gen, classes, max_tries, giveup)]: [tries]
    attempts have failed so far, [left] more may follow this one. *)
Fixpoint retry_exception {A} (giveup : exn -> bool) (target : nat -> M A)
    (tries left : nat) : M A :=
  fun w =>
    match target tries w with
    | (w', Ok a) => (w', Ok a)
    | (w', Raise e) =>
        if negb (is_retried_class e) then (w', Raise e)
        else match left with
             | O => (w', Raise e)
             | S left' =>
                 if giveup e then (w', Raise e)
                 else (let* _ := sleep (expo tries) in
                       retry_exception giveup target (S tries) left') w'
             end
    end.

Definition on_exception {A} (max_tries : nat) (giveup : exn -> bool)
    (target : nat -> M A) : M A :=
  retry_exception giveup target 0 (max_tries - 1).

(** A new invocation of [_query_api]: the index of the page request. *)
Definition begin_query : M nat :=
  fun w => (World (w_log w) (w_sent w ++ [[]]) (w_slept w) (w_yield w),
            Ok (List.length (w_sent w))).

(** Hand one request body to the API client. *)
Definition record_sent (body : json) : M unit :=
  fun w =>
    let sent :=
      match List.rev (w_sent w) with
      | [] => [[body]]
      | g :: gs => List.rev ((g ++ [body])%list :: gs)
      end in
    (World (w_log w) sent (w_slept w) (w_yield w), Ok tt).

Definition token_json (token : option string) : json :=
  match token with Some t => JStr t | None => JNone end.

(** The request body [_query_api] builds. *)
Definition query_body (self : stream) (report_definition : pydict json)
    (state_filter : string) (pageToken : option string) : res json :=
  match Dict.get "metrics" report_definition with
  | None => Raise (KeyError "metrics")
  | Some metrics =>
  match Dict.get "dimensions" report_definition with
  | None => Raise (KeyError "dimensions")
  | Some dimensions =>
      let request :=
        [("viewId", JStr (view_id self));
         ("dateRanges",
          JList [JDict [("startDate", JStr state_filter);
                        ("endDate", JStr (end_date self))]]);
         ("pageSize",
          default (JInt (page_size self)) (Dict.get "page_size" report_definition));
         ("pageToken", token_json pageToken);
         ("metrics", metrics);
         ("dimensions", dimensions)] in
      let request :=
        fold_left (fun request key =>
                     opt_set key (Dict.get key report_definition) id request)
          ["segments"; "dimensionFilterClauses"; "metricFilterClauses"; "orderBys"]
          request in
      let request :=
        opt_set "samplingLevel" (Dict.get "samplingLevel" report_definition) id
          request in
      Ok (JDict [("reportRequests", JList [JDict request])])
  end
  end.

(** [try: m  except: handler]; the handler leaves alone the exceptions it
    answers with [None]. *)
Definition try_except {A} (m : M A) (handler : exn -> option (M A)) : M A :=
  fun w =>
    match m w with
    | (w', Raise e) =>
        match handler e with
        | Some h => h w'
        | None => (w', Raise e)
        end
    | r => r
    end.

Section Engine.

(** The API client: the answer to attempt [try] of page request [page]. *)
Context (analytics : nat -> nat -> json -> res response).
(** Python's [int(s)], and whether [float(s)] succeeds. *)
Context (py_int : string -> option Z) (py_float_ok : string -> bool).

(** [_query_api], under its retry decorator. *)
Definition _query_api (self : stream) (report_definition : pydict json)
    (state_filter : string) (pageToken : option string) : M response :=
  let* page := begin_query in
  on_exception 9 is_fatal_error
    (fun try =>
       let* body := lift (query_body self report_definition state_filter pageToken) in
       let* _ := record_sent body in
       lift (analytics page try body)).

(** [_request_data] *)
Definition _request_data (self : stream) (api_report_def : pydict json)
    (state_filter : string) (next_page_token : option string) : M response :=
  try_except
    (_query_api self api_report_def state_filter next_page_token)
    (fun e =>
       match e with
       | HttpError status reason message =>
           Some
             (if String.eqb reason "userRateLimitExceeded"
                 || String.eqb reason "rateLimitExceeded" then
                let* _ := logger ERROR ("Skipping stream: '" +:+ name self
                              +:+ "' due to Rate Limit Errors.") in
                raise (TapGaRateLimitError message)
              else if String.eqb reason "quotaExceeded" then
                let* _ := logger ERROR ("Skipping stream: '" +:+ name self
                              +:+ "' due to Quota Exceeded Errors.") in
                raise (TapGaQuotaExceededError message)
              else if (status =? 400)%Z then
                let* _ := logger ERROR ("Stream: '" +:+ name self
                              +:+ "' failed due to invalid report definition.") in
                raise (TapGaInvalidArgumentError message)
              else if (status =? 401)%Z || (status =? 402)%Z then
                let* _ := logger ERROR ("Stopping execution while processing '" +:+ name self
                              +:+ "' due to                         Authentication Errors.") in
                raise (TapGaAuthenticationError message)
              else if (status =? 500)%Z || (status =? 503)%Z then
                raise (TapGaBackendServerError message)
              else
                let* _ := logger ERROR ("Stopping execution while processing '" +:+ name self
                              +:+ "' due to Unknown                         Errors.") in
                raise (TapGaUnknownError message))
       | _ => None
       end).

(** *** Response normalizer *)

(** [for x in l: s = body(x, s)] *)
Fixpoint for_each {A S} (l : list A) (body : A -> S -> M S) (s : S) : M S :=
  match l with
  | [] => ret s
  | x :: l' => let* s' := body x s in for_each l' body s'
  end.

(** The coercion of one value: [int(v)], [round(float(v), 10)] or [v]. *)
Definition coerce (data_type value : string) : res json :=
  if String.eqb data_type "integer" then
    match py_int value with
    | Some z => Ok (JInt z)
    | None => Raise ValueError
    end
  else if String.eqb data_type "number" then
    if py_float_ok value then Ok (JFloat10 value) else Raise ValueError
  else Ok (JStr value).

(** One turn of the loop over [zip(dimensionHeaders, dimensions)]. *)
Definition parse_dimension (self : stream) (hd : string * string)
    (record : pydict json) : M (pydict json) :=
  let '(header, dimension) := hd in
  let* data_type :=
    _lookup_data_type "dimension" header (dimensions_ref self) (metrics_ref self) in
  let* value := lift (coerce data_type dimension) in
  let record := Dict.set (_normalize_colname header) value record in
  let* record :=
    if String.eqb (_normalize_colname header) "ga_date" then
      let* d := lift (Date.strptime dimension Date.fmt_compact) in
      ret (Dict.set "ga_date_dt" (JStr (Date.strftime_dashed d)) record)
    else ret record in
  if String.eqb (_normalize_colname header) "ga_year_month" then
    let* d := lift (Date.strptime dimension Date.fmt_year_month) in
    let ga_date := Date.strftime_month01 d in
    let record := Dict.set "ga_date" (JStr ga_date) record in
    let* d' := lift (Date.strptime ga_date Date.fmt_compact) in
    ret (Dict.set "ga_date_dt" (JStr (Date.strftime_dashed d')) record)
  else ret record.

(** One turn of the loop over [zip(metricHeaders, values.get("values"))]. *)
Definition parse_metric (self : stream) (hv : metric_header_entry * string)
    (record : pydict json) : M (pydict json) :=
  let '(metricHeader, value) := hv in
  match mh_name metricHeader with
  | None => raise AttributeError
  | Some metric_name =>
      let* metric_type :=
        _lookup_data_type "metric" metric_name (dimensions_ref self)
          (metrics_ref self) in
      let* value := lift (coerce metric_type value) in
      ret (Dict.set (_normalize_colname metric_name) value record)
  end.

(** The record of one row. *)
Definition parse_row (self : stream) (dimensionHeaders : list string)
    (metricHeaders : list metric_header_entry) (r : row) : M (pydict json) :=
  let record := [("view_id", JStr (view_id self)); ("stream", JStr (name self))] in
  let dimensions := default [] (row_dimensions r) in
  let dateRangeValues := default [] (row_metrics r) in
  let* record :=
    for_each (combine dimensionHeaders dimensions) (parse_dimension self) record in
  let* record :=
    for_each dateRangeValues
      (fun vs record =>
         match values vs with
         | None => raise TypeError
         | Some vals =>
             for_each (combine metricHeaders vals) (parse_metric self) record
         end)
      record in
  let record :=
    Dict.set "report_start_date"
      (match cfg_start_date (cfg self) with Some s => JStr s | None => JNone end)
      record in
  ret (Dict.set "report_end_date" (JStr (end_date self)) record).

(** [_parse_response]: every record is yielded as soon as it is built. *)
Definition _parse_response (self : stream) (resp : response) : M unit :=
  match default [] (reports resp) with
  | [] => raise IndexError
  | report :: _ =>
      if report_truthy report then
        let dimensionHeaders :=
          match columnHeader report with
          | Some ch => default [] (ch_dimensions ch)
          | None => []
          end in
        let metricHeaders :=
          match columnHeader report with
          | Some ch =>
              match ch_metricHeader ch with
              | Some mh => default [] (metricHeaderEntries mh)
              | None => []
              end
          | None => []
          end in
        for_each
          (match data report with Some d => default [] (rows d) | None => [] end)
          (fun r _ =>
             let* record := parse_row self dimensionHeaders metricHeaders r in
             yield record)
          tt
      else ret tt
  end.

(** *** Pagination engine *)

Record loop_vars := {
  next_page_token : option string;
  finished : bool;
  total_records : Z
}.

Definition token_eqb (a b : option string) : bool :=
  match a, b with
  | Some x, Some y => String.eqb x y
  | None, None => true
  | _, _ => false
  end.

Definition show_token (t : option string) : string := default "None" t.
Definition show_bool (b : bool) : string := if b then "True" else "False".
Definition show_max (m : option Z) : string :=
  match m with Some z => pretty z | None => "None" end.

(** The body of [while not finished]. *)
Definition loop_body (self : stream) (api_report_def : pydict json)
    (state_filter : string) (page_size : Z) (max_records : option Z)
    (v : loop_vars) : M loop_vars :=
  let* resp := _request_data self api_report_def state_filter (next_page_token v) in
  let* _ := _parse_response self resp in
  let previous_token := next_page_token v in
  let next_page_token := _get_next_page_token resp in
  let total_records := (total_records v + page_size)%Z in
  if truthy next_page_token && token_eqb next_page_token previous_token then
    raise (RuntimeError
             ("Loop detected in pagination. Pagination token "
              +:+ show_token next_page_token
              +:+ " is identical to prior token."))
  else
    let finished := _is_finished next_page_token total_records max_records in
    let* _ := logger INFO ("Total records: " +:+ pretty total_records) in
    let* _ := logger INFO ("Max records: " +:+ show_max max_records) in
    let* _ := logger INFO ("Finished: " +:+ show_bool finished) in
    ret {| next_page_token := next_page_token;
           finished := finished;
           total_records := total_records |}.

(** [while not finished: body], for at most [fuel] turns: when the fuel
    runs out first, the variables returned still have [finished] false. *)
Fixpoint while_not_finished (fuel : nat) (body : loop_vars -> M loop_vars)
    (v : loop_vars) : M loop_vars :=
  if finished v then ret v
  else match fuel with
       | O => ret v
       | S fuel' => let* v' := body v in while_not_finished fuel' body v'
       end.

(** [report.get(key, default)] for the two paging overrides. *)
Definition report_page_size (self : stream) : Z :=
  default (page_size self) (r_page_size (report self)).
Definition report_max_records (self : stream) : option Z :=
  match r_max_records (report self) with
  | Some m => Some m
  | None => max_records self
  end.

(** [_request_records]: the variables at the end of the loop are
    returned, for reference. *)
Definition _request_records (fuel : nat) (self : stream)
    (replication_key_value : option string) : M loop_vars :=
  let* state_filter := lift (_get_state_filter self replication_key_value) in
  let api_report_def := _generate_report_definition (report self) in
  while_not_finished fuel
    (loop_body self api_report_def state_filter (report_page_size self)
       (report_max_records self))
    {| next_page_token := None; finished := false; total_records := 0 |}.

End Engine.

(** ** Schema synthesizer *)

(** The types of [singer_sdk.typing] in use. *)
Inductive th_type := StringType | IntegerType | NumberType | DateType.

(** [th.Property(name, type, required)] *)
Record property := Property {
  prop_name : string;
  prop_type : th_type;
  prop_required : bool
}.

(** [_get_datatype] *)
Definition _get_datatype (string_type : string) : th_type :=
  if String.eqb string_type "string" then StringType
  else if String.eqb string_type "integer" then IntegerType
  else if String.eqb string_type "number" then NumberType
  else StringType.

(** The locals of [schema] and the attribute it assigns:
    [replication_key] is [None] as long as [self.replication_key] has not
    been assigned. *)
Record schema_vars := {
  properties : list property;
  primary_keys : list string;
  date_dimension_included : bool;
  replication_key : option string
}.

(** One turn of the loop over [self.report["dimensions"]]. *)
Definition schema_dimension (self : stream) (dimension : string)
    (v : schema_vars) : M schema_vars :=
  let v :=
    if String.eqb dimension "ga:date" then
      {| properties := properties v ++ [Property "ga_date_dt" DateType true];
         primary_keys := primary_keys v;
         date_dimension_included := true;
         replication_key := Some "ga_date" |}
    else v in
  let v :=
    if String.eqb dimension "ga:yearMonth" then
      {| properties :=
           properties v ++ [Property "ga_date" StringType true;
                            Property "ga_date_dt" DateType true];
         primary_keys := primary_keys v ++ ["ga_date"];
         date_dimension_included := true;
         replication_key := Some "ga_date" |}
    else v in
  let* data_type :=
    _lookup_data_type "dimension" dimension (dimensions_ref self) (metrics_ref self) in
  let dimension := _normalize_colname dimension in
  ret {| properties :=
           properties v ++ [Property dimension (_get_datatype data_type) true];
         primary_keys := primary_keys v ++ [dimension];
         date_dimension_included := date_dimension_included v;
         replication_key := replication_key v |}.

(** One turn of the loop over [self.report["metrics"]]. *)
Definition schema_metric (self : stream) (metric : string)
    (v : schema_vars) : M schema_vars :=
  let* data_type :=
    _lookup_data_type "metric" metric (dimensions_ref self) (metrics_ref self) in
  let metric := _normalize_colname metric in
  ret {| properties :=
           properties v ++ [Property metric (_get_datatype data_type) false];
         primary_keys := primary_keys v;
         date_dimension_included := date_dimension_included v;
         replication_key := replication_key v |}.

Definition incremental_warning (self : stream) : string :=
  "Incremental sync not supported for stream " +:+ tap_stream_id self
  +:+ ",                     'ga.date' is the only supported replication key at this time.".

(** [schema], up to its [return]: the list [properties] that is handed to
    [th.PropertiesList], with the [primary_keys] and the [replication_key]
    the property assigns.  The dictionary that the SDK's [to_dict()] makes
    of the list is not modelled: it is keyed by property name, so that a
    name the list holds twice is one property of the returned schema. *)
Definition schema (self : stream) : M schema_vars :=
  let v :=
    {| properties := [Property "view_id" StringType true;
                      Property "stream" StringType true];
       primary_keys := ["view_id"];
       date_dimension_included := false;
       replication_key := None |} in
  let* v := for_each (r_dimensions (report self)) (schema_dimension self) v in
  let* v := for_each (r_metrics (report self)) (schema_metric self) v in
  let v :=
    {| properties :=
         properties v ++ [Property "report_start_date" DateType true;
                          Property "report_end_date" DateType true];
       primary_keys := primary_keys v;
       date_dimension_included := date_dimension_included v;
       replication_key := replication_key v |} in
  if negb (date_dimension_included v) then
    let* _ := logger WARNING (incremental_warning self) in
    ret {| properties := properties v;
           primary_keys := primary_keys v ++ ["report_start_date"; "report_end_date"];
           date_dimension_included := date_dimension_included v;
           replication_key := replication_key v |}
  else ret v.

(** ** Auxiliary definitions of the statements *)

(** The names the pattern rules of a dimension recognise. *)
Definition dimension_pattern (a : string) : bool :=
  String.eqb a "ga:segment"
  || Py.startswith_any a ["ga:dimension"; "ga:customVarName"; "ga:customVarValue"].

(** The names the pattern rules of a metric recognise. *)
Definition metric_pattern (a : string) : bool :=
  Py.startswith a "ga:goal"
  && Py.endswith_any a ["Starts"; "Completions"; "Value"; "ConversionRate";
                        "Abandons"; "AbandonRate"]
  || Py.startswith a "ga:searchGoal" && Py.endswith a "ConversionRate"
  || Py.startswith_any a ["ga:metric"; "ga:calcMetric"].

(** What the specification says a declared tag maps to. *)
Definition tag_type (tag : string) : string :=
  if String.eqb tag "INTEGER" then "integer"
  else if String.eqb tag "FLOAT" then "number"
  else if String.eqb tag "PERCENT" then "number"
  else if String.eqb tag "TIME" then "number"
  else "string".

(** The world after the critical log line of an unsupported name. *)
Definition unsupported (msg : string) (w : world) : world * res string :=
  (World (w_log w ++ [(CRITICAL, msg)]) (w_sent w) (w_slept w) (w_yield w),
   Raise (SystemExit 1)).

(** A specification with dimensions and metrics only. *)
Definition plain_report (ds ms : list string) : report_spec :=
  {| r_dimensions := ds; r_metrics := ms; r_segments := None;
     r_samplingLevel := None; r_dimensionFilterClauses := None;
     r_metricFilterClauses := None; r_orderBys := None;
     r_page_size := None; r_max_records := None |}.

(** The entries of a list value. *)
Definition entries (v : option json) : list json :=
  match v with
  | Some (JList l) => l
  | _ => []
  end.

(** One entry of a filter-clause list. *)
Definition filter_entry (name_key : string) (clause : string * pydict json) : json :=
  JDict [("filters",
          JDict (Dict.merge [(name_key, JStr (fst clause))] (snd clause)))].

(** One entry of the ordering list. *)
Definition order_entry (clause : string * json) : json :=
  JDict [("fieldName", JStr (Py.replace (fst clause) "ga_" "ga:"));
         ("sortOrder", snd clause)].

(** The attempt (counted from 0) that ends the retry loop, given the
    answers of the attempts: [tries] have failed so far and [left] more may
    follow this one. *)
Fixpoint last_try {A} (giveup : exn -> bool) (answers : nat -> res A)
    (tries left : nat) : nat :=
  match answers tries with
  | Ok _ => tries
  | Raise e =>
      if negb (is_retried_class e) then tries
      else match left with
           | O => tries
           | S left' =>
               if giveup e then tries
               else last_try giveup answers (S tries) left'
           end
  end.

(** A failure the specification calls transient: a socket timeout or a
    remote error classified [BackendServer]. *)
Definition transient (e : exn) : Prop :=
  e = SocketTimeout
  \/ exists status reason message,
       e = HttpError status reason message /\ classify status reason = BackendServer.

(** What [_request_data] turns the outcome of [_query_api] into. *)
Definition classified (r : res response) : res response :=
  match r with
  | Raise (HttpError status reason message) =>
      Raise (tap_error (classify status reason) message)
  | _ => r
  end.

(** A computation that sends nothing, does not sleep, and yields only
    records that satisfy [Y]. *)
Definition quiet (Y : pydict json -> Prop) {A} (m : M A) : Prop :=
  forall w,
    w_sent (fst (m w)) = w_sent w
    /\ w_slept (fst (m w)) = w_slept w
    /\ exists new, w_yield (fst (m w)) = w_yield w ++ new /\ Forall Y new.

(** The outcome of the page request number [page]: the classified answer
    to the last attempt the retry policy makes. *)
Definition page_outcome (analytics : nat -> nat -> json -> res response)
    (self : stream) (report_definition : pydict json) (state_filter : string)
    (pageToken : option string) (page : nat) : res response :=
  match query_body self report_definition state_filter pageToken with
  | Ok body =>
      classified
        (analytics page
           (last_try is_fatal_error (fun i => analytics page i body) 0 8) body)
  | Raise e => Raise e
  end.

(** The record carries the end date of the stream. *)
Definition stamped (self : stream) (record : pydict json) : Prop :=
  Dict.get "report_end_date" record = Some (JStr (end_date self)).

(** [t] is [s] with some occurrences of the character [c1] turned into
    [c2]. *)
Inductive pointwise (c1 c2 : ascii) : string -> string -> Prop :=
| pw_nil : pointwise c1 c2 "" ""
| pw_same c s t : pointwise c1 c2 s t -> pointwise c1 c2 (String c s) (String c t)
| pw_subst s t : pointwise c1 c2 s t -> pointwise c1 c2 (String c1 s) (String c2 t).

(** The ceiling of [a / b], for a positive [b]. *)
Definition ceil_div (a b : Z) : Z := ((a + b - 1) / b)%Z.

(** The message of the pagination-loop error. *)
Definition loop_error (token : option string) : exn :=
  RuntimeError
    ("Loop detected in pagination. Pagination token " +:+ show_token token
     +:+ " is identical to prior token.").

(** ** Sample inputs *)

Definition sample_config : config :=
  {| cfg_view_id := "188392047";
     cfg_start_date := Some "2024-01-01";
     cfg_end_date := Some "2024-03-01";
     cfg_page_size := None;
     cfg_max_records := None;
     cfg_quota_user := None |}.

Definition sample_report (max : option Z) : report_spec :=
  {| r_dimensions := ["ga:date"; "ga:country"];
     r_metrics := ["ga:sessions"; "ga:sessionsPerUser"];
     r_segments := None; r_samplingLevel := None;
     r_dimensionFilterClauses := None; r_metricFilterClauses := None;
     r_orderBys := None; r_page_size := None; r_max_records := max |}.

Definition sample_dimensions_ref : gmap string string :=
  {[ "ga:date" := "STRING"; "ga:country" := "STRING"; "ga:yearMonth" := "STRING" ]}.
Definition sample_metrics_ref : gmap string string :=
  {[ "ga:sessions" := "INTEGER"; "ga:sessionsPerUser" := "FLOAT" ]}.

(** A stream over [report], as [__init__] sets it up from [sample_config]. *)
Definition sample_stream (ga_report : report_spec) : stream :=
  {| name := "sessions"; tap_stream_id := "sessions"; cfg := sample_config;
     report := ga_report;
     dimensions_ref := sample_dimensions_ref; metrics_ref := sample_metrics_ref;
     quota_user := None; end_date := "2024-02-29"; view_id := "188392047";
     page_size := 1000; max_records := None |}.

(** A decimal reading of [int(s)], enough for the samples. *)
Definition sample_int (s : string) : option Z :=
  match s with
  | EmptyString => None
  | _ => fold_left (fun acc c =>
                      match acc, Date.digit c with
                      | Some n, Some d => Some (10 * n + d)%Z
                      | _, _ => None
                      end)
           (list_ascii_of_string s) (Some 0%Z)
  end.

(** The cursors ["c"], ["cc"], ["ccc"], ... *)
Fixpoint cursor (k : nat) : string :=
  match k with
  | O => "c"
  | S k' => String "c" (cursor k')
  end.

(** A page with one row and the given next-page token. *)
Definition sample_page (token : option string) : response :=
  {| reports :=
       Some [{| columnHeader :=
                  Some {| ch_dimensions := Some ["ga:date"; "ga:country"];
                          ch_metricHeader :=
                            Some {| metricHeaderEntries :=
                                      Some [{| mh_name := Some "ga:sessions" |};
                                            {| mh_name := Some "ga:sessionsPerUser" |}] |} |};
                data :=
                  Some {| rows :=
                            Some [{| row_dimensions := Some ["20240105"; "France"];
                                     row_metrics :=
                                       Some [{| values := Some ["12"; "1.5"] |}] |}] |};
                nextPageToken := token |}] |}.

(** A server that answers every page request at once, each page with a new
    cursor. *)
Definition fresh_server (page _ : nat) (_ : json) : res response :=
  Ok (sample_page (Some (cursor page))).

(** A server that gives the same cursor on every page. *)
Definition stuck_server (_ _ : nat) (_ : json) : res response :=
  Ok (sample_page (Some "t")).

(** A server whose first two attempts fail, with a timeout and a 503. *)
Definition flaky_server (_ try : nat) (_ : json) : res response :=
  match try with
  | O => Raise SocketTimeout
  | S O => Raise (HttpError 503 "backendError" "Service Unavailable")
  | _ => Ok (sample_page None)
  end.

(** The dimensions that make the stream incremental. *)
Definition is_date_dimension (dimension : string) : bool :=
  String.eqb dimension "ga:date" || String.eqb dimension "ga:yearMonth".

(** The primary keys one dimension contributes. *)
Definition dimension_keys (dimension : string) : list string :=
  (if String.eqb dimension "ga:yearMonth" then ["ga_date"] else [])
  ++ [_normalize_colname dimension].

(** The name has a type: its lookup returns, in any world. *)
Definition resolves (self : stream) (type a : string) : Prop :=
  exists t, forall w,
    _lookup_data_type type a (dimensions_ref self) (metrics_ref self) w = (w, Ok t).

(** A monthly report: the only dimension is [ga:yearMonth]. *)
Definition monthly_report : report_spec :=
  {| r_dimensions := ["ga:yearMonth"];
     r_metrics := ["ga:sessions"];
     r_segments := None; r_samplingLevel := None;
     r_dimensionFilterClauses := None; r_metricFilterClauses := None;
     r_orderBys := None; r_page_size := None; r_max_records := None |}.

(** A report without any date dimension. *)
Definition undated_report : report_spec :=
  {| r_dimensions := ["ga:country"];
     r_metrics := ["ga:sessions"];
     r_segments := None; r_samplingLevel := None;
     r_dimensionFilterClauses := None; r_metricFilterClauses := None;
     r_orderBys := None; r_page_size := None; r_max_records := None |}.

(** The date ranges of a request body:
    [body["reportRequests"][0]["dateRanges"]]. *)
Definition date_ranges (body : json) : list json :=
  match body with
  | JDict d =>
      match Dict.get "reportRequests" d with
      | Some (JList (JDict request :: _)) => entries (Dict.get "dateRanges" request)
      | _ => []
      end
  | _ => []
  end.

(** The one date range [[start, end]] of a request. *)
Definition one_range (start_date end_date : string) : list json :=
  [JDict [("startDate", JStr start_date); ("endDate", JStr end_date)]].

(** Every request sent so far asks for the range [[start, end]], and every
    record yielded so far carries the end date of the stream. *)
Definition dated (self : stream) (start_date : string) (w : world) : Prop :=
  Forall (Forall (fun body => date_ranges body = one_range start_date (end_date self)))
    (w_sent w)
  /\ Forall (stamped self) (w_yield w).

(** The report of the test suite, with one filter of each kind and two
    orderings. *)
Definition filtered_report : report_spec :=
  {| r_dimensions := ["ga:date"; "ga:country"];
     r_metrics := ["ga:sessions"; "ga:sessionsPerUser"; "ga:avgSessionDuration"];
     r_segments := None; r_samplingLevel := None;
     r_dimensionFilterClauses :=
       Some [("ga:country",
              [("operator", JStr "EXACT");
               ("expressions", JList [JStr "United States"])])];
     r_metricFilterClauses :=
       Some [("ga:pageviews",
              [("operator", JStr "GREATER_THAN"); ("comparisonValue", JStr "2")])];
     r_orderBys :=
       Some [("ga:sessions", JStr "DESCENDING"); ("ga:pageviews", JStr "DESCENDING")];
     r_page_size := None; r_max_records := None |}.

(** The primary keys of the schema of a stream, when it is synthesized. *)
Definition schema_primary_keys (self : stream) : option (list string) :=
  match snd (schema self world0) with
  | Ok v => Some (primary_keys v)
  | Raise _ => None
  end.

(** The replication key the synthesis of the schema leaves on the stream:
    [None] when it fails or assigns none. *)
Definition schema_replication_key (self : stream) : option string :=
  match snd (schema self world0) with
  | Ok v => replication_key v
  | Raise _ => None
  end.

(** Python's [len(x)], [x[k]] for a string [k] and [x[i]] for an index
    [i >= 0], on the values of a report definition, as the assertions of
    [test_report_definition_with_filters] use them.  A dictionary with
    string keys has no key [i]: the [KeyError] names it by its numeral. *)
Definition len (x : json) : res nat :=
  match x with
  | JStr s => Ok (String.length s)
  | JList l => Ok (List.length l)
  | JDict d => Ok (List.length d)
  | _ => Raise TypeError
  end.

Definition getitem (x : json) (k : string) : res json :=
  match x with
  | JDict d =>
      match Dict.get k d with
      | Some v => Ok v
      | None => Raise (KeyError k)
      end
  | _ => Raise TypeError
  end.

Definition getitem_int (x : json) (i : nat) : res json :=
  match x with
  | JList l =>
      match nth_error l i with
      | Some v => Ok v
      | None => Raise IndexError
      end
  | JStr s =>
      match String.get i s with
      | Some c => Ok (JStr (String c ""))
      | None => Raise IndexError
      end
  | JDict _ => Raise (KeyError (pretty i))
  | _ => Raise TypeError
  end.

(** [definition[clauses][0]["filters"]], the expression the test
    measures and indexes. *)
Definition first_clause_filters (definition : pydict json) (clauses : string)
  : res json :=
  res_bind (getitem (JDict definition) clauses) (fun l =>
  res_bind (getitem_int l 0) (fun entry => getitem entry "filters")).

(** ** Further auxiliary definitions *)

(** The key of an optional input, when the input is given. *)
Definition present {V} (k : string) (v : option V) : list string :=
  match v with
  | Some _ => [k]
  | None => []
  end.

(** The one report request of a request body:
    [body["reportRequests"][0]]. *)
Definition report_request (body : json) : pydict json :=
  match body with
  | JDict d =>
      match Dict.get "reportRequests" d with
      | Some (JList (JDict request :: _)) => request
      | _ => []
      end
  | _ => []
  end.

(** A report with one dimension filter, filed under [clause], whose
    payload names the field [named] itself. *)
Definition named_filter_report (clause named : string) : report_spec :=
  {| r_dimensions := ["ga:date"; "ga:country"];
     r_metrics := ["ga:sessions"];
     r_segments := None; r_samplingLevel := None;
     r_dimensionFilterClauses :=
       Some [(clause, [("dimensionName", JStr named); ("operator", JStr "EXACT")])];
     r_metricFilterClauses := None;
     r_orderBys := None; r_page_size := None; r_max_records := None |}.

(** An API client that fails with an exception of its own. *)
Definition broken_client (_ _ : nat) (_ : json) : res response := Raise TypeError.

(** The cursor each page request went out with: the [pageToken] of its
    first attempt (the attempts of one request share their body). *)
Definition cursors_sent (w : world) : list (option json) :=
  map (fun attempts =>
         match attempts with
         | body :: _ => Dict.get "pageToken" (report_request body)
         | [] => None
         end)
      (w_sent w).

(** The cursor in hand before page request [j]: none before the first,
    then the cursor of the response before. *)
Definition cursor_before (pages : nat -> response) (j : nat) : option string :=
  match j with
  | O => None
  | S i => _get_next_page_token (pages i)
  end.

(** A server with a new cursor on every page before page [last], and none
    on that page. *)
Definition ending_server (last : nat) (page _ : nat) (_ : json) : res response :=
  Ok (sample_page (if (page <? last)%nat then Some (cursor page) else None)).

(** A computation that leaves no trace when it returns. *)
Definition silent {A} (m : M A) : Prop :=
  forall w w' a, m w = (w', Ok a) -> w' = w.

(** The rows of a response: [reports[0]["data"]["rows"]], with the
    defaults of the normalizer. *)
Definition response_rows (resp : response) : list row :=
  match default [] (reports resp) with
  | [] => []
  | report :: _ =>
      match data report with
      | Some d => default [] (rows d)
      | None => []
      end
  end.

(** The configured start date as a record value. *)
Definition start_date_json (self : stream) : json :=
  match cfg_start_date (cfg self) with
  | Some s => JStr s
  | None => JNone
  end.

(** The name is that of a required property of the list. *)
Definition required_in (props : list property) (k : string) : Prop :=
  exists p, In p props /\ prop_name p = k /\ prop_required p = true.

(** Every primary key, and the replication key when one is set, is a
    required property of the schema. *)
Definition keys_declared (v : schema_vars) : Prop :=
  (forall k, In k (primary_keys v) -> required_in (properties v) k)
  /\ (forall k, replication_key v = Some k -> required_in (properties v) k).

(** The world after the critical line of a name without a type. *)
Definition fatal_world (w : world) : world :=
  World (w_log w ++ [(CRITICAL, "Unsuported GA type: <class 'type'>")])
    (w_sent w) (w_slept w) (w_yield w).

(** A computation that either returns without a trace or ends the process
    with that critical line and exit code 1. *)
Definition returns_or_exits {A} (m : M A) : Prop :=
  forall w, (exists a, m w = (w, Ok a)) \/ m w = (fatal_world w, Raise (SystemExit 1)).

(** A dimension, or a metric, that no pattern rule and no catalog entry
    gives a type. *)
Definition untyped_dimension (self : stream) (a : string) : Prop :=
  dimension_pattern a = false /\ dimensions_ref self !! a = None.
Definition untyped_metric (self : stream) (a : string) : Prop :=
  metric_pattern a = false /\ metrics_ref self !! a = None.

(** A report with a dimension that is in no catalog. *)
Definition unknown_dimension_report : report_spec :=
  {| r_dimensions := ["ga:date"; "ga:flavour"];
     r_metrics := ["ga:sessions"];
     r_segments := None; r_samplingLevel := None;
     r_dimensionFilterClauses := None; r_metricFilterClauses := None;
     r_orderBys := None; r_page_size := None; r_max_records := None |}.

(** The most characters a directive reads, and a format. *)
Definition width (d : Date.directive) : nat :=
  match d with
  | Date.DY => 4
  | Date.Dm => 2
  | Date.Dd => 2
  | Date.Lit _ => 1
  end.
Definition max_width (fmt : list Date.directive) : nat :=
  fold_right (fun d n => (width d + n)%nat) 0%nat fmt.

(** A stream like [self], with another configuration. *)
Definition with_config (self : stream) (c : config) : stream :=
  {| name := name self; tap_stream_id := tap_stream_id self; cfg := c;
     report := report self;
     dimensions_ref := dimensions_ref self; metrics_ref := metrics_ref self;
     quota_user := quota_user self; end_date := end_date self;
     view_id := view_id self; page_size := page_size self;
     max_records := max_records self |}.

(** A configuration without dates. *)
Definition undated_config : config :=
  {| cfg_view_id := "188392047";
     cfg_start_date := None;
     cfg_end_date := None;
     cfg_page_size := None;
     cfg_max_records := None;
     cfg_quota_user := None |}.

(** A configuration whose end date is in compact form. *)
Definition compact_end_config : config :=
  {| cfg_view_id := "188392047";
     cfg_start_date := Some "2024-01-01";
     cfg_end_date := Some "20240301";
     cfg_page_size := None;
     cfg_max_records := None;
     cfg_quota_user := None |}.

(** The number of rows of the pages before page [k]. *)
Fixpoint rows_upto (pages : nat -> response) (k : nat) : nat :=
  match k with
  | O => 0
  | S j => rows_upto pages j + List.length (response_rows (pages j))
  end.

(** A server with a new cursor on every page, whose page [bad] is refused
    with status 401. *)
Definition failing_server (bad : nat) (page _ : nat) (_ : json) : res response :=
  if (page <? bad)%nat then Ok (sample_page (Some (cursor page)))
  else Raise (HttpError 401 "authError" "Unauthorized").

(** The columns the schema declares for one dimension, in order. *)
Definition schema_columns (dimension : string) : list string :=
  (if String.eqb dimension "ga:date" then ["ga_date_dt"] else [])
  ++ (if String.eqb dimension "ga:yearMonth" then ["ga_date"; "ga_date_dt"] else [])
  ++ [_normalize_colname dimension].

(** The columns a record may get from one dimension header. *)
Definition record_columns (header : string) : list string :=
  _normalize_colname header
  :: (if String.eqb (_normalize_colname header) "ga_date" then ["ga_date_dt"] else [])
  ++ (if String.eqb (_normalize_colname header) "ga_year_month"
      then ["ga_date"; "ga_date_dt"] else []).

(** The headers and the row of [sample_page]. *)
Definition sample_metric_headers : list metric_header_entry :=
  [{| mh_name := Some "ga:sessions" |}; {| mh_name := Some "ga:sessionsPerUser" |}].
Definition sample_row : row :=
  {| row_dimensions := Some ["20240105"; "France"];
     row_metrics := Some [{| values := Some ["12"; "1.5"] |}] |}.

(** The headers of a response: [reports[0]["columnHeader"]] with the
    defaults of the normalizer. *)
Definition response_dimension_headers (resp : response) : list string :=
  match default [] (reports resp) with
  | [] => []
  | report :: _ =>
      match columnHeader report with
      | Some ch => default [] (ch_dimensions ch)
      | None => []
      end
  end.
Definition response_metric_headers (resp : response) : list metric_header_entry :=
  match default [] (reports resp) with
  | [] => []
  | report :: _ =>
      match columnHeader report with
      | Some ch =>
          match ch_metricHeader ch with
          | Some mh => default [] (metricHeaderEntries mh)
          | None => []
          end
      | None => []
      end
  end.

(** A computation whose result, when it returns, does not depend on the
    world, and which leaves the world as it is. *)
Definition stateless {A} (m : M A) : Prop :=
  forall w w' a, m w = (w', Ok a) -> forall w0, m w0 = (w0, Ok a).

(** A page of three rows, with the headers of [sample_page] and no
    next-page token. *)
Definition three_row_page : response :=
  {| reports :=
       Some [{| columnHeader :=
                  Some {| ch_dimensions := Some ["ga:date"; "ga:country"];
                          ch_metricHeader :=
                            Some {| metricHeaderEntries :=
                                      Some sample_metric_headers |} |};
                data :=
                  Some {| rows :=
                            Some [{| row_dimensions := Some ["20240105"; "France"];
                                     row_metrics :=
                                       Some [{| values := Some ["12"; "1.5"] |}] |};
                                  {| row_dimensions := Some ["20240106"; "Spain"];
                                     row_metrics :=
                                       Some [{| values := Some ["7"; "2.25"] |}] |};
                                  {| row_dimensions := Some ["20240107"; "Italy"];
                                     row_metrics :=
                                       Some [{| values := Some ["3"; "1.0"] |}] |}] |};
                nextPageToken := None |}] |}.

(** A string of decimal digits. *)
Fixpoint all_digits (s : string) : bool :=
  match s with
  | EmptyString => true
  | String c s' => match Date.digit c with Some _ => all_digits s' | None => false end
  end.

(** * Properties *)

(** * Strings *)

Lemma ascii_eqb_false (a b : ascii) : a <> b -> Ascii.eqb a b = false.
Proof. intros H. destruct (Ascii.eqb_spec a b); congruence. Qed.

Lemma startswith_nil s : Py.startswith s "" = true.
Proof. destruct s; reflexivity. Qed.

Lemma startswith_cons c s a p :
  Py.startswith (String c s) (String a p) = Ascii.eqb a c && Py.startswith s p.
Proof. reflexivity. Qed.

Lemma contains_cons c s p :
  Py.contains (String c s) p = Py.startswith (String c s) p || Py.contains s p.
Proof. reflexivity. Qed.

Lemma string_length_ind (P : string -> Prop) :
  (forall s, (forall t, (String.length t < String.length s)%nat -> P t) -> P s) ->
  forall s, P s.
Proof.
  intros H s. remember (String.length s) as n eqn:Hn.
  revert s Hn. induction n as [n IH] using lt_wf_ind.
  intros s ->. apply H. intros t Ht. eapply IH; [exact Ht | reflexivity].
Qed.

Section replace_ga.
(** Replacing ["ga" ++ c1] by ["ga" ++ c2]. *)
Variables c1 c2 : ascii.
Hypothesis c1_g : c1 <> "g"%char.
Hypothesis c1_a : c1 <> "a"%char.
Hypothesis c2_g : c2 <> "g"%char.
Hypothesis c1_c2 : c1 <> c2.

Local Notation old := (String "g" (String "a" (String c1 ""))).
Local Notation new := (String "g" (String "a" (String c2 ""))).
Local Notation R s := (Py.replace s old new).

Lemma replace_ga_nil : R "" = "".
Proof. reflexivity. Qed.

Lemma startswith_old_match s :
  Py.startswith (String "g" (String "a" (String c1 s))) old = true.
Proof using Type.
  rewrite !startswith_cons, !Ascii.eqb_refl, startswith_nil. reflexivity.
Qed.

Lemma replace_ga_match s :
  R (String "g" (String "a" (String c1 s))) =
  String "g" (String "a" (String c2 (R s))).
Proof using Type.
  unfold Py.replace. cbn [Py.replace_go].
  rewrite startswith_old_match.
  cbn [String.length String.append]. reflexivity.
Qed.

Lemma replace_ga_skip c s :
  Py.startswith (String c s) old = false -> R (String c s) = String c (R s).
Proof using Type.
  unfold Py.replace. intros H. cbn [Py.replace_go]. rewrite H. reflexivity.
Qed.

Lemma startswith_old_inv s :
  Py.startswith s old = true -> exists s', s = String "g" (String "a" (String c1 s')).
Proof using Type.
  destruct s as [|x [|y [|z s']]];
    rewrite ?startswith_cons; cbn [Py.startswith];
    rewrite ?andb_false_r; try discriminate.
  destruct (Ascii.eqb_spec "g" x) as [<-|]; [|discriminate].
  destruct (Ascii.eqb_spec "a" y) as [<-|]; [|discriminate].
  destruct (Ascii.eqb_spec c1 z) as [<-|]; [|discriminate].
  intros _. exists s'. reflexivity.
Qed.

(** Induction along the scan of [replace]. *)
Lemma replace_ind (P : string -> Prop) :
  P "" ->
  (forall s, P s -> P (String "g" (String "a" (String c1 s)))) ->
  (forall c s, Py.startswith (String c s) old = false -> P s -> P (String c s)) ->
  forall s, P s.
Proof using Type.
  intros H0 H1 H2. induction s as [s IH] using string_length_ind.
  destruct s as [|c s]; [exact H0|].
  destruct (Py.startswith (String c s) old) eqn:E.
  - apply startswith_old_inv in E as [s' E]. rewrite E. apply H1, IH.
    rewrite E. cbn. lia.
  - apply H2; [exact E|]. apply IH. cbn. lia.
Qed.

Lemma replace_ga_pointwise s : pointwise c1 c2 s (R s).
Proof using Type.
  induction s using replace_ind.
  - constructor.
  - rewrite replace_ga_match. repeat constructor. assumption.
  - rewrite replace_ga_skip by assumption. constructor. assumption.
Qed.

Lemma pointwise_startswith s t q :
  pointwise c1 c2 s t -> Py.contains q (String c2 "") = false ->
  Py.startswith t q = true -> Py.startswith s q = true.
Proof.
  intros H. revert q. induction H; intros q Hq Ht.
  - exact Ht.
  - destruct q as [|x q]; [reflexivity|].
    rewrite startswith_cons in *. apply andb_true_iff in Ht as [-> Ht]. cbn.
    apply IHpointwise; [|exact Ht].
    rewrite contains_cons in Hq. apply orb_false_iff in Hq. tauto.
  - destruct q as [|x q]; [reflexivity|].
    rewrite startswith_cons in Ht. apply andb_true_iff in Ht as [Hx _].
    rewrite contains_cons, startswith_cons in Hq.
    apply Ascii.eqb_eq in Hx. subst x. rewrite Ascii.eqb_refl, startswith_nil in Hq.
    discriminate.
Qed.

Lemma pointwise_contains s t q :
  pointwise c1 c2 s t -> Py.contains q (String c2 "") = false ->
  Py.contains t q = true -> Py.contains s q = true.
Proof.
  intros H Hq. induction H; intros Ht.
  - exact Ht.
  - rewrite contains_cons in *. apply orb_true_iff in Ht as [Ht|Ht].
    + apply orb_true_iff. left.
      eapply pointwise_startswith; [constructor; eassumption|exact Hq|exact Ht].
    + rewrite IHpointwise by assumption. apply orb_true_r.
  - rewrite contains_cons in *. apply orb_true_iff in Ht as [Ht|Ht].
    + apply orb_true_iff. left.
      eapply pointwise_startswith; [apply pw_subst; eassumption|exact Hq|exact Ht].
    + rewrite IHpointwise by assumption. apply orb_true_r.
Qed.

Lemma replace_ga_head s x : Py.startswith (R s) (String x "") = Py.startswith s (String x "").
Proof using Type.
  destruct s as [|c s]; [reflexivity|].
  destruct (Py.startswith (String c s) old) eqn:E.
  - apply startswith_old_inv in E as [s' ->]. rewrite replace_ga_match. reflexivity.
  - rewrite replace_ga_skip by assumption. rewrite !startswith_cons, !startswith_nil.
    reflexivity.
Qed.

Lemma replace_ga_head2 s x y :
  Py.startswith (R s) (String x (String y "")) = Py.startswith s (String x (String y "")).
Proof using Type.
  destruct s as [|c s]; [reflexivity|].
  destruct (Py.startswith (String c s) old) eqn:E.
  - apply startswith_old_inv in E as [s' ->]. rewrite replace_ga_match.
    rewrite !startswith_cons, !startswith_nil. reflexivity.
  - rewrite replace_ga_skip by assumption. rewrite !startswith_cons. f_equal. apply replace_ga_head.
Qed.

(** No occurrence of the pattern is left. *)
Lemma replace_ga_no_old s : Py.contains (R s) old = false.
Proof.
  induction s using replace_ind.
  - reflexivity.
  - rewrite replace_ga_match. rewrite !contains_cons, IHs.
    rewrite !startswith_cons.
    rewrite (ascii_eqb_false c1 c2) by assumption.
    rewrite (ascii_eqb_false "g" "a") by discriminate.
    rewrite (ascii_eqb_false "g" c2) by congruence.
    rewrite !andb_false_r. reflexivity.
  - rewrite replace_ga_skip by assumption. rewrite contains_cons, IHs, orb_false_r.
    rewrite startswith_cons in *. rewrite replace_ga_head2. assumption.
Qed.

(** A string without the pattern is left as it is. *)
Lemma replace_ga_id s : Py.contains s old = false -> R s = s.
Proof using Type.
  induction s as [|c s IH]; [reflexivity|].
  rewrite contains_cons. intros H. apply orb_false_iff in H as [H1 H2].
  rewrite replace_ga_skip by assumption. f_equal. apply IH, H2.
Qed.
End replace_ga.

(** * Column renaming *)


Lemma lower_not_upper c : Py.isupper (Py.lower c) = false.
Proof. destruct c as [[] [] [] [] [] [] [] []]; vm_compute; reflexivity. Qed.

Lemma lower_g c : Py.isupper c = true -> Py.lower c = "g"%char -> c = "G"%char.
Proof. destruct c as [[] [] [] [] [] [] [] []]; vm_compute; congruence. Qed.

Lemma join_camel_cons c s :
  Py.join_map camel (String c s) =
  if Py.isupper c then String "_" (String (Py.lower c) (Py.join_map camel s))
  else String c (Py.join_map camel s).
Proof. cbn [Py.join_map]. unfold camel at 1. destruct (Py.isupper c); reflexivity. Qed.

Lemma join_camel_no_upper s : no_upper (Py.join_map camel s) = true.
Proof.
  induction s as [|c s IH]; [reflexivity|].
  rewrite join_camel_cons. destruct (Py.isupper c) eqn:E; cbn [no_upper].
  - rewrite lower_not_upper, IH. reflexivity.
  - rewrite E, IH. reflexivity.
Qed.

Lemma join_camel_id s : no_upper s = true -> Py.join_map camel s = s.
Proof.
  induction s as [|c s IH]; [reflexivity|]. cbn [no_upper].
  intros H. apply andb_true_iff in H as [H1 H2]. apply negb_true_iff in H1.
  rewrite join_camel_cons, H1, IH by assumption. reflexivity.
Qed.

Lemma lstrip_no_upper s c : no_upper s = true -> no_upper (Py.lstrip s c) = true.
Proof.
  induction s as [|b s IH]; [reflexivity|]. intros H. cbn [Py.lstrip].
  destruct (Ascii.eqb b c); [|exact H].
  apply IH. cbn [no_upper] in H. apply andb_true_iff in H. tauto.
Qed.

Lemma lstrip_head s c : Py.startswith (Py.lstrip s c) (String c "") = false.
Proof.
  induction s as [|b s IH]; [reflexivity|]. cbn [Py.lstrip].
  destruct (Ascii.eqb b c) eqn:E; [exact IH|].
  rewrite startswith_cons, Ascii.eqb_sym, E. reflexivity.
Qed.

Lemma lstrip_id s c : Py.startswith s (String c "") = false -> Py.lstrip s c = s.
Proof.
  destruct s as [|b s]; [reflexivity|].
  rewrite startswith_cons, startswith_nil, andb_true_r, Ascii.eqb_sym.
  intros H. cbn [Py.lstrip]. rewrite H. reflexivity.
Qed.

Lemma lstrip_contains s c p :
  Py.contains (Py.lstrip s c) p = true -> Py.contains s p = true.
Proof.
  induction s as [|b s IH]; [trivial|]. cbn [Py.lstrip].
  destruct (Ascii.eqb b c); [|trivial].
  intros H. rewrite contains_cons, IH by assumption. apply orb_true_r.
Qed.

Lemma join_camel_head s x :
  Py.isupper x = false -> x <> "_"%char ->
  Py.startswith (Py.join_map camel s) (String x "") = true ->
  Py.startswith s (String x "") = true.
Proof.
  intros Hx Hu. destruct s as [|c s]; [trivial|].
  rewrite join_camel_cons. destruct (Py.isupper c) eqn:E; rewrite !startswith_cons.
  - rewrite (ascii_eqb_false x "_") by assumption. discriminate.
  - rewrite !startswith_nil. trivial.
Qed.

Lemma join_camel_a_colon s :
  Py.startswith (Py.join_map camel s) "a:" = true -> Py.startswith s "a:" = true.
Proof.
  destruct s as [|c s]; [trivial|].
  rewrite join_camel_cons. destruct (Py.isupper c) eqn:E; rewrite !startswith_cons.
  - discriminate.
  - intros H. apply andb_true_iff in H as [-> H]. cbn [andb].
    apply (join_camel_head s ":"); [reflexivity|discriminate|exact H].
Qed.

Lemma join_camel_ga s :
  Py.contains (Py.join_map camel s) "ga:" = true ->
  Py.contains s "ga:" = true \/ Py.contains s "Ga:" = true.
Proof.
  induction s as [|c s IH]; [discriminate|].
  rewrite join_camel_cons. destruct (Py.isupper c) eqn:E.
  - rewrite !(contains_cons _ _ "ga:").
    rewrite (startswith_cons "_"), (ascii_eqb_false "g" "_") by discriminate.
    cbn [andb orb]. intros H. apply orb_true_iff in H as [H|H].
    + right. rewrite (startswith_cons _ _ "g") in H.
      apply andb_true_iff in H as [Hg H]. apply Ascii.eqb_eq in Hg. symmetry in Hg.
      apply lower_g in Hg; [|exact E]. subst c.
      apply join_camel_a_colon in H.
      rewrite contains_cons, startswith_cons, Ascii.eqb_refl, H. reflexivity.
    + destruct (IH H) as [H1|H1]; [left|right]; rewrite ?contains_cons, H1; apply orb_true_r.
  - rewrite !(contains_cons _ _ "ga:"). intros H. apply orb_true_iff in H as [H|H].
    + left. rewrite (startswith_cons _ _ "g") in *.
      apply andb_true_iff in H as [-> H]. apply join_camel_a_colon in H.
      rewrite H. reflexivity.
    + destruct (IH H) as [H1|H1]; [left|right]; rewrite ?contains_cons, H1; apply orb_true_r.
Qed.

Lemma normalize_colname_eq s :
  _normalize_colname s = Py.lstrip (Py.join_map camel (Py.replace s "ga:" "ga_")) "_".
Proof. reflexivity. Qed.

Lemma normalize_no_ga_colon x :
  Py.contains x "Ga:" = false -> Py.contains (_normalize_colname x) "ga:" = false.
Proof.
  intros Hx. rewrite normalize_colname_eq.
  destruct (Py.contains _ "ga:") eqn:E; [|reflexivity].
  apply lstrip_contains, join_camel_ga in E. destruct E as [E|E].
  - rewrite (replace_ga_no_old ":" "_") in E by discriminate. discriminate.
  - assert (Py.contains x "Ga:" = true).
    { apply (pointwise_contains ":" "_" x _ "Ga:" (replace_ga_pointwise ":" "_" x));
        [reflexivity | exact E]. }
    congruence.
Qed.

Lemma no_upper_pointwise c1 c2 s t :
  Py.isupper c2 = false -> pointwise c1 c2 s t -> no_upper s = true ->
  no_upper t = true.
Proof.
  intros Hc H. induction H; cbn [no_upper]; [trivial| |].
  - intros Hs. apply andb_true_iff in Hs as [-> Hs]. cbn [andb]. auto.
  - intros Hs. apply andb_true_iff in Hs as [_ Hs]. rewrite Hc. cbn [negb andb]. auto.
Qed.

Lemma contains_app_r q s p : Py.contains s p = true -> Py.contains (q +:+ s) p = true.
Proof.
  intros H. induction q as [|c q IH]; [exact H|].
  change (String c q +:+ s) with (String c (q +:+ s)).
  rewrite contains_cons, IH. apply orb_true_r.
Qed.

(** An occurrence of ["Ga:"] survives the replacement of ["ga:"]. *)
Lemma replace_keeps_Ga x :
  Py.contains x "Ga:" = true -> Py.contains (Py.replace x "ga:" "ga_") "Ga:" = true.
Proof.
  induction x using (replace_ind ":").
  - discriminate.
  - rewrite (replace_ga_match ":" "_"). rewrite !(contains_cons _ _ "Ga:").
    rewrite !(startswith_cons _ _ "G").
    rewrite (ascii_eqb_false "G" "g"), (ascii_eqb_false "G" "a"),
      (ascii_eqb_false "G" ":"), (ascii_eqb_false "G" "_") by discriminate.
    cbn [andb orb]. exact IHx.
  - rewrite (replace_ga_skip ":" "_") by assumption. rewrite !(contains_cons _ _ "Ga:").
    intros Hc. apply orb_true_iff in Hc as [Hc|Hc].
    + change (Py.startswith (String c x) "Ga:")
        with (Ascii.eqb "G" c && Py.startswith x "a:") in Hc.
      change (Py.startswith (String c (Py.replace x "ga:" "ga_")) "Ga:")
        with (Ascii.eqb "G" c && Py.startswith (Py.replace x "ga:" "ga_") "a:").
      apply andb_true_iff in Hc as [-> Hc].
      change (Py.replace x "ga:" "ga_")
        with (Py.replace x (String "g" (String "a" (String ":" "")))
                (String "g" (String "a" (String "_" "")))).
      rewrite (replace_ga_head2 ":" "_"), Hc. reflexivity.
    + rewrite IHx by exact Hc. apply orb_true_r.
Qed.

(** An occurrence of ["Ga:"] becomes one of ["ga:"]. *)
Lemma join_camel_Ga s :
  Py.contains s "Ga:" = true -> Py.contains (Py.join_map camel s) "ga:" = true.
Proof.
  induction s as [|c s IH]; [discriminate|].
  rewrite contains_cons. intros H. apply orb_true_iff in H as [H|H].
  - destruct s as [|a [|b s]]; rewrite ?startswith_cons in H;
      cbn [Py.startswith] in H; rewrite ?andb_false_r in H; try discriminate.
    apply andb_true_iff in H as [Hc H]. apply andb_true_iff in H as [Ha H].
    apply andb_true_iff in H as [Hb _].
    apply Ascii.eqb_eq in Hc, Ha, Hb. subst c a b.
    assert (E : Py.join_map camel (String "G" (String "a" (String ":" s)))
                = String "_" (String "g" (String "a" (String ":"
                    (Py.join_map camel s))))) by reflexivity.
    rewrite E, (contains_cons "_"), (contains_cons "g"), (startswith_cons "g").
    rewrite !startswith_cons, !Ascii.eqb_refl, !startswith_nil.
    cbn [andb orb]. apply orb_true_r.
  - rewrite join_camel_cons. specialize (IH H).
    destruct (Py.isupper c); rewrite !(contains_cons _ _ "ga:"), IH, ?orb_true_r;
      reflexivity.
Qed.

Lemma lstrip_keeps s c p x :
  x <> c -> Py.startswith p (String x "") = true ->
  Py.contains s p = true -> Py.contains (Py.lstrip s c) p = true.
Proof.
  intros Hx Hp. induction s as [|b s IH]; [trivial|]. cbn [Py.lstrip].
  destruct (Ascii.eqb_spec b c) as [->|Hne]; [|trivial].
  rewrite contains_cons. intros H. apply orb_true_iff in H as [H|H]; [|auto].
  exfalso. destruct p as [|y p]; [discriminate|].
  rewrite startswith_cons in Hp, H.
  apply andb_true_iff in Hp as [Hp _]. apply andb_true_iff in H as [H _].
  apply Ascii.eqb_eq in Hp, H. congruence.
Qed.

(** ASCII names are renamed to ASCII columns. *)
Lemma lower_ascii c :
  (nat_of_ascii c <? 128)%nat = true -> (nat_of_ascii (Py.lower c) <? 128)%nat = true.
Proof.
  destruct c as [[] [] [] [] [] [] [] []]; vm_compute; intros H;
    first [reflexivity | discriminate H].
Qed.

Lemma join_camel_ascii s :
  Py.isascii s = true -> Py.isascii (Py.join_map camel s) = true.
Proof.
  induction s as [|c s IH]; [reflexivity|]. cbn [Py.isascii].
  intros H. apply andb_true_iff in H as [Hc Hs].
  rewrite join_camel_cons. destruct (Py.isupper c); cbn [Py.isascii].
  - rewrite (lower_ascii c Hc), (IH Hs). reflexivity.
  - rewrite Hc, (IH Hs). reflexivity.
Qed.

Lemma lstrip_ascii s c : Py.isascii s = true -> Py.isascii (Py.lstrip s c) = true.
Proof.
  induction s as [|b s IH]; [reflexivity|]. intros H. cbn [Py.lstrip].
  destruct (Ascii.eqb b c); [|exact H].
  apply IH. cbn [Py.isascii] in H. apply andb_true_iff in H. tauto.
Qed.

Lemma pointwise_ascii c1 c2 s t :
  (nat_of_ascii c2 <? 128)%nat = true -> pointwise c1 c2 s t ->
  Py.isascii s = true -> Py.isascii t = true.
Proof.
  intros Hc H. induction H; cbn [Py.isascii]; [trivial| |].
  - intros Hs. apply andb_true_iff in Hs as [-> Hs]. cbn [andb]. auto.
  - intros Hs. apply andb_true_iff in Hs as [_ Hs]. rewrite Hc. cbn [andb]. auto.
Qed.

Lemma normalize_ascii x :
  Py.isascii x = true -> Py.isascii (_normalize_colname x) = true.
Proof.
  intros H. rewrite normalize_colname_eq.
  apply lstrip_ascii, join_camel_ascii.
  apply (pointwise_ascii ":" "_" x); [reflexivity | apply replace_ga_pointwise | exact H].
Qed.

(** C9 (as amended): the transform maps ["ga:sessionsPerUser"] to
    ["ga_sessions_per_user"]; it renames an ASCII name to an ASCII column,
    and applying it to the already transformed name changes nothing
    exactly when the name has no occurrence of ["Ga:"]. *)
Theorem normalize_colname_idempotent :
  _normalize_colname "ga:sessionsPerUser" = "ga_sessions_per_user"
  /\ (forall x, Py.isascii x = true ->
        Py.isascii (_normalize_colname x) = true)
  /\ (forall x, Py.isascii x = true -> Py.contains x "Ga:" = false ->
        _normalize_colname (_normalize_colname x) = _normalize_colname x)
  /\ (forall x, Py.isascii x = true -> Py.contains x "Ga:" = true ->
        _normalize_colname (_normalize_colname x) <> _normalize_colname x).
Proof.
  split; [reflexivity|]. split; [exact normalize_ascii|].
  assert (Hup : forall x, no_upper (_normalize_colname x) = true).
  { intros x. rewrite normalize_colname_eq. apply lstrip_no_upper, join_camel_no_upper. }
  assert (Hhd : forall x, Py.startswith (_normalize_colname x) "_" = false).
  { intros x. rewrite normalize_colname_eq. apply lstrip_head. }
  split; intros x _ Hx.
  - pose proof (normalize_no_ga_colon x Hx) as Hga.
    rewrite (normalize_colname_eq (_normalize_colname x)).
    rewrite (replace_ga_id ":" "_") by assumption.
    rewrite join_camel_id by apply Hup.
    apply lstrip_id, Hhd.
  - assert (Hga : Py.contains (_normalize_colname x) "ga:" = true).
    { rewrite normalize_colname_eq.
      apply (lstrip_keeps _ "_" "ga:" "g"); [discriminate | reflexivity |].
      apply join_camel_Ga, replace_keeps_Ga, Hx. }
    set (y := _normalize_colname x) in *.
    assert (Hy : _normalize_colname y = Py.replace y "ga:" "ga_").
    { rewrite normalize_colname_eq.
      rewrite join_camel_id.
      - apply lstrip_id.
        change (Py.replace y "ga:" "ga_")
          with (Py.replace y (String "g" (String "a" (String ":" "")))
                  (String "g" (String "a" (String "_" "")))).
        rewrite (replace_ga_head ":" "_"). apply Hhd.
      - apply (no_upper_pointwise ":" "_" y); [reflexivity | | apply Hup].
        apply replace_ga_pointwise. }
    rewrite Hy. intros E.
    assert (Hno : Py.contains (Py.replace y "ga:" "ga_") "ga:" = false)
      by (apply (replace_ga_no_old ":" "_"); discriminate).
    rewrite E in Hno. congruence.
Qed.

Lemma normalize_colname_idempotent_witness :
  _normalize_colname (_normalize_colname "ga:sessionsPerUser")
  = _normalize_colname "ga:sessionsPerUser"
  /\ _normalize_colname (_normalize_colname "xGa:y") <> _normalize_colname "xGa:y".
Proof.
  destruct normalize_colname_idempotent as (_ & _ & Hid & Hnot).
  split; [apply Hid | apply Hnot]; reflexivity.
Defined.

(** C9 as stated fails: ["Ga:x"] is renamed to ["ga:x"], and ["ga:x"] to
    ["ga_x"]. *)
Lemma normalize_colname_not_idempotent :
  _normalize_colname "Ga:x" = "ga:x"
  /\ _normalize_colname (_normalize_colname "Ga:x") = "ga_x"
  /\ ~ (forall x, _normalize_colname (_normalize_colname x) = _normalize_colname x).
Proof.
  repeat split. intros H. specialize (H "Ga:x"). discriminate.
Qed.

Lemma parse_other_tag t : _parse_other_attrb_type t = tag_type t.
Proof.
  unfold _parse_other_attrb_type, tag_type.
  destruct (String.eqb t "INTEGER"), (String.eqb t "FLOAT"),
    (String.eqb t "PERCENT"), (String.eqb t "TIME"); reflexivity.
Qed.

Lemma dimension_type_spec a dref w :
  _parse_dimension_type a dref w =
  if dimension_pattern a then (w, Ok "string")
  else match dref !! a with
       | Some t => (w, Ok (tag_type t))
       | None => unsupported "Unsuported GA type: <class 'type'>" w
       end.
Proof.
  unfold _parse_dimension_type, dimension_pattern.
  destruct (String.eqb a "ga:segment"); [reflexivity|]. cbn [orb].
  destruct (Py.startswith_any a _); [reflexivity|].
  destruct (dref !! a); [rewrite parse_other_tag|]; reflexivity.
Qed.

Lemma metric_type_spec a mref w :
  _parse_metric_type a mref w =
  if metric_pattern a then (w, Ok "string")
  else match mref !! a with
       | Some t => (w, Ok (tag_type t))
       | None => unsupported "Unsuported GA type: <class 'type'>" w
       end.
Proof.
  unfold _parse_metric_type, metric_pattern.
  destruct (Py.startswith a "ga:goal" && _); [reflexivity|]. cbn [orb].
  destruct (Py.startswith a "ga:searchGoal" && _); [reflexivity|]. cbn [orb].
  destruct (Py.startswith_any a _); [reflexivity|].
  destruct (mref !! a); [rewrite parse_other_tag|]; reflexivity.
Qed.

Lemma endswith_append x suf : Py.endswith (x +:+ suf) suf = true.
Proof.
  unfold Py.endswith. 
  assert (L : String.length (x +:+ suf) = (String.length x + String.length suf)%nat).
  { induction x as [|c x IH]; [reflexivity|].
    change (S (String.length (x +:+ suf)) = S (String.length x + String.length suf)).
    rewrite IH. reflexivity. }
  rewrite L. apply andb_true_iff. split.
  - apply Nat.leb_le. lia.
  - replace (String.length x + String.length suf - String.length suf)%nat
      with (String.length x) by lia.
    apply String.eqb_eq. clear L.
    induction x as [|c x IH]; [destruct suf; reflexivity | exact IH].
Qed.

Lemma startswith_append p x : Py.startswith (p +:+ x) p = true.
Proof.
  induction p as [|c p IH]; [destruct x; reflexivity|].
  change (String c p +:+ x) with (String c (p +:+ x)).
  cbn [Py.startswith]. rewrite Ascii.eqb_refl. exact IH.
Qed.

(** C3: type inference applies the pattern rules before any catalog
    lookup.  The dimension ["ga:segment"] and the names with a
    custom-dimension prefix are strings; so are the metrics made of the goal
    prefix and one of the fixed suffixes, the search-goal conversion rates
    and the names with a custom- or calculated-metric prefix, whatever the
    catalogs hold.  A name that matches no pattern takes the type of its
    catalog tag (INTEGER: integer; FLOAT, PERCENT, TIME: number; any other:
    string).  A name in neither is fatal: a critical log line, then
    [sys.exit(1)], never a default type. *)
Theorem type_inference_rules (dref mref : gmap string string) (w : world) :
  (* the pattern rules come first, whatever the catalog holds *)
  _lookup_data_type "dimension" "ga:segment" dref mref w = (w, Ok "string")
  /\ (forall p rest, In p ["ga:dimension"; "ga:customVarName"; "ga:customVarValue"] ->
        _lookup_data_type "dimension" (p +:+ rest) dref mref w = (w, Ok "string"))
  /\ (forall mid suf,
        In suf ["Starts"; "Completions"; "Value"; "ConversionRate"; "Abandons";
                "AbandonRate"] ->
        _lookup_data_type "metric" ("ga:goal" +:+ mid +:+ suf) dref mref w
        = (w, Ok "string"))
  /\ (forall mid,
        _lookup_data_type "metric" ("ga:searchGoal" +:+ mid +:+ "ConversionRate")
          dref mref w = (w, Ok "string"))
  /\ (forall p rest, In p ["ga:metric"; "ga:calcMetric"] ->
        _lookup_data_type "metric" (p +:+ rest) dref mref w = (w, Ok "string"))
  (* otherwise the catalog decides *)
  /\ (forall a tag, dimension_pattern a = false -> dref !! a = Some tag ->
        _lookup_data_type "dimension" a dref mref w = (w, Ok (tag_type tag)))
  /\ (forall a tag, metric_pattern a = false -> mref !! a = Some tag ->
        _lookup_data_type "metric" a dref mref w = (w, Ok (tag_type tag)))
  (* and a name in neither is fatal: a critical log line, then exit 1 *)
  /\ (forall a, dimension_pattern a = false -> dref !! a = None ->
        _lookup_data_type "dimension" a dref mref w
        = unsupported "Unsuported GA type: <class 'type'>" w)
  /\ (forall a, metric_pattern a = false -> mref !! a = None ->
        _lookup_data_type "metric" a dref mref w
        = unsupported "Unsuported GA type: <class 'type'>" w).
Proof.
  assert (D : forall a, _lookup_data_type "dimension" a dref mref w
                        = _parse_dimension_type a dref w) by reflexivity.
  assert (Mt : forall a, _lookup_data_type "metric" a dref mref w
                         = _parse_metric_type a mref w) by reflexivity.
  repeat apply conj.
  - reflexivity.
  - intros p rest Hp. rewrite D, dimension_type_spec.
    replace (dimension_pattern (p +:+ rest)) with true; [reflexivity|].
    symmetry. unfold dimension_pattern. apply orb_true_iff. right.
    apply existsb_exists. exists p. split; [exact Hp | apply startswith_append].
  - intros mid suf Hs. rewrite Mt, metric_type_spec.
    replace (metric_pattern _) with true; [reflexivity|].
    symmetry. unfold metric_pattern. apply orb_true_iff. left.
    apply orb_true_iff. left. apply andb_true_iff. split.
    + apply (startswith_append "ga:goal").
    + apply existsb_exists. exists suf. split; [exact Hs|].
      exact (endswith_append ("ga:goal" +:+ mid) suf).
  - intros mid. rewrite Mt, metric_type_spec.
    replace (metric_pattern _) with true; [reflexivity|].
    symmetry. unfold metric_pattern. apply orb_true_iff. left.
    apply orb_true_iff. right. apply andb_true_iff. split.
    + apply (startswith_append "ga:searchGoal").
    + exact (endswith_append ("ga:searchGoal" +:+ mid) "ConversionRate").
  - intros p rest Hp. rewrite Mt, metric_type_spec.
    replace (metric_pattern _) with true; [reflexivity|].
    symmetry. unfold metric_pattern. apply orb_true_iff. right.
    apply existsb_exists. exists p. split; [exact Hp | apply startswith_append].
  - intros a tag Hp Ht. rewrite D, dimension_type_spec, Hp, Ht. reflexivity.
  - intros a tag Hp Ht. rewrite Mt, metric_type_spec, Hp, Ht. reflexivity.
  - intros a Hp Ht. rewrite D, dimension_type_spec, Hp, Ht. reflexivity.
  - intros a Hp Ht. rewrite Mt, metric_type_spec, Hp, Ht. reflexivity.
Qed.

Lemma type_inference_rules_witness :
  _lookup_data_type "metric" "ga:goal12Starts" sample_dimensions_ref
    sample_metrics_ref world0 = (world0, Ok "string")
  /\ _lookup_data_type "dimension" "ga:dimension7" sample_dimensions_ref
       sample_metrics_ref world0 = (world0, Ok "string")
  /\ _lookup_data_type "metric" "ga:sessions" sample_dimensions_ref
       sample_metrics_ref world0 = (world0, Ok "integer")
  /\ _lookup_data_type "metric" "ga:sessionsPerUser" sample_dimensions_ref
       sample_metrics_ref world0 = (world0, Ok "number")
  /\ snd (_lookup_data_type "dimension" "ga:unheardOf" sample_dimensions_ref
            sample_metrics_ref world0) = Raise (SystemExit 1).
Proof.
  destruct (type_inference_rules sample_dimensions_ref sample_metrics_ref world0)
    as (_ & H2 & H3 & _ & _ & _ & H7 & H8 & _).
  split; [apply (H3 "12" "Starts"); left; reflexivity|].
  split; [apply (H2 "ga:dimension" "7"); left; reflexivity|].
  split; [apply (H7 "ga:sessions" "INTEGER"); reflexivity|].
  split; [apply (H7 "ga:sessionsPerUser" "FLOAT"); reflexivity|].
  rewrite (H8 "ga:unheardOf"); reflexivity.
Defined.

Section dict.
Context {V : Type}.
Implicit Types (d : pydict V) (k : string) (v : V).

Lemma get_set_eq k v d : Dict.get k (Dict.set k v d) = Some v.
Proof.
  induction d as [|[k' v'] d IH]; cbn [Dict.set Dict.get].
  - rewrite String.eqb_refl. reflexivity.
  - destruct (String.eqb k' k) eqn:E; cbn [Dict.get].
    + rewrite String.eqb_refl. reflexivity.
    + rewrite E. exact IH.
Qed.

Lemma get_set_ne k k' v d : k <> k' -> Dict.get k (Dict.set k' v d) = Dict.get k d.
Proof.
  intros Hne. induction d as [|[k0 v0] d IH]; cbn [Dict.set Dict.get].
  - destruct (String.eqb_spec k' k); congruence.
  - destruct (String.eqb_spec k0 k') as [->|]; cbn [Dict.get].
    + destruct (String.eqb_spec k' k); congruence.
    + destruct (String.eqb k0 k); [reflexivity | exact IH].
Qed.

Lemma set_fresh k v d : Dict.get k d = None -> Dict.set k v d = d ++ [(k, v)].
Proof.
  induction d as [|[k' v'] d IH]; cbn [Dict.set Dict.get]; [reflexivity|].
  destruct (String.eqb k' k); [discriminate|]. intros H. rewrite IH by exact H.
  reflexivity.
Qed.

Lemma get_app_None k d1 d2 :
  Dict.get k d1 = None -> Dict.get k (d1 ++ d2) = Dict.get k d2.
Proof.
  induction d1 as [|[k' v'] d1 IH]; cbn [Dict.get app]; [reflexivity|].
  destruct (String.eqb k' k); [discriminate | exact IH].
Qed.

Lemma get_None_not_in k d : Dict.get k d = None <-> ~ In k (Dict.keys d).
Proof.
  induction d as [|[k' v'] d IH]; cbn [Dict.get Dict.keys map In fst].
  - tauto.
  - destruct (String.eqb_spec k' k) as [->|Hne].
    + split; [discriminate | intros H; exfalso; apply H; left; reflexivity].
    + rewrite IH. unfold Dict.keys. tauto.
Qed.

(** [{**d1, **d2}] lists [d1] and then [d2] when they share no key. *)
Lemma merge_disjoint d1 d2 :
  Dict.wf d2 -> (forall k, In k (Dict.keys d2) -> Dict.get k d1 = None) ->
  Dict.merge d1 d2 = d1 ++ d2.
Proof.
  unfold Dict.merge, Dict.wf. revert d1.
  induction d2 as [|[k v] d2 IH]; intros d1 Hwf Hd; cbn [fold_left].
  - rewrite app_nil_r. reflexivity.
  - cbn [Dict.keys map fst] in Hwf. apply NoDup_cons in Hwf as [Hk Hwf]. rewrite list_elem_of_In in Hk.
    cbn [fst snd]. rewrite set_fresh by (apply Hd; left; reflexivity).
    rewrite IH.
    + rewrite <- app_assoc. reflexivity.
    + exact Hwf.
    + intros k' Hk'. rewrite get_app_None by (apply Hd; right; exact Hk').
      cbn [Dict.get]. destruct (String.eqb_spec k k') as [->|]; [|reflexivity].
      contradiction.
Qed.

(** Looking up the keys of a well-formed dictionary gives back its items. *)
Lemma map_keys_items {B} (f : string -> V -> B) (dflt : V) d :
  Dict.wf d ->
  map (fun k => f k (default dflt (Dict.get k d))) (Dict.keys d)
  = map (fun kv => f (fst kv) (snd kv)) d.
Proof.
  unfold Dict.wf. induction d as [|[k v] d IH]; [reflexivity|].
  cbn [Dict.keys map fst snd]. intros Hwf. apply NoDup_cons in Hwf as [Hk Hwf]. rewrite list_elem_of_In in Hk.
  cbn [Dict.get]. rewrite String.eqb_refl. cbn [default]. f_equal.
  rewrite <- IH by exact Hwf. apply map_ext_in. intros k' Hk'.
  destruct (String.eqb_spec k k') as [->|]; [contradiction | reflexivity].
Qed.
End dict.

Lemma get_opt_set_ne {V} k k' (o : option V) f d :
  k <> k' -> Dict.get k (opt_set k' o f d) = Dict.get k d.
Proof. intros H. destruct o; [apply get_set_ne; exact H | reflexivity]. Qed.

Lemma get_opt_set_eq {V} k (x : V) f d :
  Dict.get k (opt_set k (Some x) f d) = Some (f x).
Proof. apply get_set_eq. Qed.

(** C8: for a report specification with N dimensions, M metrics and no
    optional input, the built definition has the two keys [metrics] and
    [dimensions] only, N dimension entries and M metric entries, each name
    with its ["ga_"] aliases turned back into ["ga:"]: no ["ga_"] is left,
    and a name without one is unchanged. *)
Theorem report_definition_plain (ds ms : list string) :
  let definition := _generate_report_definition (plain_report ds ms) in
  definition =
    [("metrics",
      JList (map (fun m => JDict [("expression", JStr (Py.replace m "ga_" "ga:"))]) ms));
     ("dimensions",
      JList (map (fun d => JDict [("name", JStr (Py.replace d "ga_" "ga:"))]) ds))]
  /\ Dict.keys definition = ["metrics"; "dimensions"]
  /\ List.length (entries (Dict.get "dimensions" definition)) = List.length ds
  /\ List.length (entries (Dict.get "metrics" definition)) = List.length ms
  /\ Forall (fun x => Py.contains (Py.replace x "ga_" "ga:") "ga_" = false)
       (ds ++ ms)
  /\ Forall (fun x => Py.contains x "ga_" = false -> Py.replace x "ga_" "ga:" = x)
       (ds ++ ms).
Proof.
  cbv zeta. repeat apply conj.
  - reflexivity.
  - reflexivity.
  - cbn. apply length_map.
  - cbn. apply length_map.
  - apply Forall_forall. intros d _. apply (replace_ga_no_old "_" ":"); discriminate.
  - apply Forall_forall. intros d _ H. apply (replace_ga_id "_" ":"). exact H.
Qed.

Lemma report_definition_plain_witness :
  _generate_report_definition (plain_report ["ga_date"; "ga:country"] ["ga_sessions"])
  = [("metrics", JList [JDict [("expression", JStr "ga:sessions")]]);
     ("dimensions", JList [JDict [("name", JStr "ga:date")];
                           JDict [("name", JStr "ga:country")]])].
Proof.
  exact (proj1 (report_definition_plain ["ga_date"; "ga:country"] ["ga_sessions"])).
Defined.

Lemma add_filter_clauses_eq raw d key :
  add_filter_clauses raw d key =
  match raw_filter_clauses key raw with
  | None => d
  | Some clauses =>
      Dict.set (key +:+ "FilterClauses")
        (JList (map (fun clause =>
                       filter_entry (key +:+ "Name")
                         (clause, default [] (Dict.get clause clauses)))
                  (Dict.keys clauses)))
        d
  end.
Proof. reflexivity. Qed.

Lemma filter_entries_items name_key (clauses : pydict (pydict json)) :
  Dict.wf clauses ->
  map (fun clause =>
         filter_entry name_key (clause, default [] (Dict.get clause clauses)))
    (Dict.keys clauses)
  = map (filter_entry name_key) clauses.
Proof.
  intros Hwf.
  pose proof (map_keys_items (fun k v => filter_entry name_key (k, v)) [] clauses Hwf)
    as H.
  etransitivity; [exact H|]. apply map_ext. intros [k v]. reflexivity.
Qed.

(** What the builder makes of filter clauses and orderings: one entry per
    clause, in key order, holding under ["filters"] the dictionary of the
    payload tagged with the name of the target field; the orderings are
    flattened, in order, into (field, direction) entries. *)
Lemma generated_filters_and_orderings (raw : report_spec) :
  let definition := _generate_report_definition raw in
  (forall dc, r_dimensionFilterClauses raw = Some dc -> Dict.wf dc ->
     Dict.get "dimensionFilterClauses" definition
     = Some (JList (map (filter_entry "dimensionName") dc)))
  /\ (forall mc, r_metricFilterClauses raw = Some mc -> Dict.wf mc ->
        Dict.get "metricFilterClauses" definition
        = Some (JList (map (filter_entry "metricName") mc)))
  /\ (forall ob, r_orderBys raw = Some ob ->
        Dict.get "orderBys" definition = Some (JList (map order_entry ob)))
  /\ (forall name clause payload,
        Dict.wf payload -> Dict.get name payload = None ->
        filter_entry name (clause, payload)
        = JDict [("filters", JDict ((name, JStr clause) :: payload))])
  /\ (forall d dp m mp o1 s1 o2 s2,
        r_dimensionFilterClauses raw = Some [(d, dp)] ->
        r_metricFilterClauses raw = Some [(m, mp)] ->
        r_orderBys raw = Some [(o1, s1); (o2, s2)] ->
        entries (Dict.get "dimensionFilterClauses" definition)
        = [filter_entry "dimensionName" (d, dp)]
        /\ entries (Dict.get "metricFilterClauses" definition)
           = [filter_entry "metricName" (m, mp)]
        /\ entries (Dict.get "orderBys" definition)
           = [order_entry (o1, s1); order_entry (o2, s2)]).
Proof.
  cbv zeta.
  assert (HD : forall dc, r_dimensionFilterClauses raw = Some dc -> Dict.wf dc ->
     Dict.get "dimensionFilterClauses" (_generate_report_definition raw)
     = Some (JList (map (filter_entry "dimensionName") dc))).
  { intros dc Hdc Hwf. unfold _generate_report_definition.
    rewrite !get_opt_set_ne by discriminate.
    cbn [fold_left]. rewrite !add_filter_clauses_eq.
    change (raw_filter_clauses "dimension" raw) with (r_dimensionFilterClauses raw).
    change (raw_filter_clauses "metric" raw) with (r_metricFilterClauses raw).
    rewrite Hdc. destruct (r_metricFilterClauses raw).
    - rewrite (get_set_ne "dimensionFilterClauses" ("metric" +:+ "FilterClauses"))
        by discriminate.
      rewrite (get_set_eq ("dimension" +:+ "FilterClauses")).
      rewrite filter_entries_items by exact Hwf. reflexivity.
    - rewrite (get_set_eq ("dimension" +:+ "FilterClauses")).
      rewrite filter_entries_items by exact Hwf. reflexivity. }
  assert (HM : forall mc, r_metricFilterClauses raw = Some mc -> Dict.wf mc ->
     Dict.get "metricFilterClauses" (_generate_report_definition raw)
     = Some (JList (map (filter_entry "metricName") mc))).
  { intros mc Hmc Hwf. unfold _generate_report_definition.
    rewrite !get_opt_set_ne by discriminate.
    cbn [fold_left]. rewrite (add_filter_clauses_eq _ _ "metric").
    change (raw_filter_clauses "metric" raw) with (r_metricFilterClauses raw).
    rewrite Hmc. rewrite (get_set_eq ("metric" +:+ "FilterClauses")).
    rewrite filter_entries_items by exact Hwf. reflexivity. }
  assert (HO : forall ob, r_orderBys raw = Some ob ->
     Dict.get "orderBys" (_generate_report_definition raw)
     = Some (JList (map order_entry ob))).
  { intros ob Hob. unfold _generate_report_definition.
    rewrite !get_opt_set_ne by discriminate. rewrite Hob, get_opt_set_eq.
    do 2 f_equal. apply map_ext. intros [k v]. reflexivity. }
  repeat apply conj.
  - exact HD.
  - exact HM.
  - exact HO.
  - intros name clause payload Hwf Hname. unfold filter_entry. cbn [fst snd].
    rewrite merge_disjoint; [reflexivity | exact Hwf |].
    intros k Hk. cbn [Dict.get]. destruct (String.eqb_spec name k) as [<-|]; [|reflexivity].
    apply get_None_not_in in Hname. contradiction.
  - intros d dp m mp o1 s1 o2 s2 Hd Hm Ho.
    rewrite (HD _ Hd), (HM _ Hm), (HO _ Ho).
    + repeat apply conj; reflexivity.
    + repeat constructor. apply not_elem_of_nil.
    + repeat constructor. apply not_elem_of_nil.
Qed.

(** C5: at the report of the repository's test
    [test_report_definition_with_filters] the built definition has five
    keys, one entry per filter clause and the two orderings in input order;
    but what an entry holds under ["filters"] is the tagged payload itself,
    a dictionary, not a list of one nested filter: its [len] is 3 where the
    specification, and the test, have 1, and it has no item 0, so that the test's
    [...["filters"][0]["dimensionName"]] raises [KeyError]. *)
Theorem report_definition_filters_nested :
  let definition := _generate_report_definition filtered_report in
  Dict.keys definition
  = ["metrics"; "dimensions"; "dimensionFilterClauses"; "metricFilterClauses";
     "orderBys"]
  /\ res_bind (getitem (JDict definition) "dimensionFilterClauses") len = Ok 1%nat
  /\ res_bind (getitem (JDict definition) "metricFilterClauses") len = Ok 1%nat
  /\ first_clause_filters definition "dimensionFilterClauses"
     = Ok (JDict [("dimensionName", JStr "ga:country");
                  ("operator", JStr "EXACT");
                  ("expressions", JList [JStr "United States"])])
  /\ first_clause_filters definition "metricFilterClauses"
     = Ok (JDict [("metricName", JStr "ga:pageviews");
                  ("operator", JStr "GREATER_THAN");
                  ("comparisonValue", JStr "2")])
  /\ res_bind (first_clause_filters definition "dimensionFilterClauses") len
     = Ok 3%nat
  /\ res_bind (first_clause_filters definition "metricFilterClauses") len
     = Ok 3%nat
  /\ res_bind (first_clause_filters definition "dimensionFilterClauses")
       (fun filters => getitem_int filters 0)
     = Raise (KeyError "0")
  /\ res_bind (first_clause_filters definition "metricFilterClauses")
       (fun filters => getitem_int filters 0)
     = Raise (KeyError "0")
  /\ getitem (JDict definition) "orderBys"
     = Ok (JList [JDict [("fieldName", JStr "ga:sessions");
                         ("sortOrder", JStr "DESCENDING")];
                  JDict [("fieldName", JStr "ga:pageviews");
                         ("sortOrder", JStr "DESCENDING")]]).
Proof. cbv zeta. repeat split. Qed.

(** ** The remote call *)

Lemma bind_eq {A B} (m : M A) (k : A -> M B) w :
  bind m k w = match m w with
               | (w', Ok a) => k a w'
               | (w', Raise e) => (w', Raise e)
               end.
Proof. reflexivity. Qed.

Lemma record_sent_spec body log gs g slept yielded :
  record_sent body (World log (gs ++ [g]) slept yielded)
  = (World log (gs ++ [g ++ [body]]) slept yielded, Ok tt).
Proof.
  unfold record_sent. cbn [w_sent w_log w_slept w_yield].
  rewrite rev_unit. cbn [rev]. rewrite rev_involutive. reflexivity.
Qed.

Section retry.
Context {A : Type} (giveup : exn -> bool) (answers : nat -> res A) (body : json).

Local Notation target :=
  (fun try : nat => let* _ := record_sent body in lift (answers try)).

Lemma last_try_bounds tries left :
  (tries <= last_try giveup answers tries left <= tries + left)%nat.
Proof using Type.
  revert tries. induction left as [|left IH]; intros tries; cbn [last_try].
  - destruct (answers tries) as [a|e]; [lia|]. destruct (negb _); lia.
  - destruct (answers tries) as [a|e]; [lia|]. destruct (negb _); [lia|].
    destruct (giveup e); [lia|]. specialize (IH (S tries)). lia.
Qed.

(** Every attempt before the last one failed with an exception of a
    retried class that [giveup] lets through. *)
Lemma last_try_retried tries left i :
  (tries <= i < last_try giveup answers tries left)%nat ->
  exists e, answers i = Raise e /\ is_retried_class e = true /\ giveup e = false.
Proof using Type.
  revert tries. induction left as [|left IH]; intros tries; cbn [last_try].
  - destruct (answers tries) as [a|e]; [lia|]. destruct (negb _); lia.
  - destruct (answers tries) as [a|e] eqn:Ea; [lia|].
    destruct (is_retried_class e) eqn:Ec; cbn [negb]; [|lia].
    destruct (giveup e) eqn:Eg; [lia|]. intros Hi.
    destruct (Nat.eq_dec i tries) as [->|Hne].
    + exists e. auto.
    + apply (IH (S tries)). lia.
Qed.

(** The last attempt is the first one that succeeds, fails outside the
    retried classes, makes [giveup] say yes, or uses up the tries. *)
Lemma last_try_final tries left :
  let n := last_try giveup answers tries left in
  match answers n with
  | Ok _ => True
  | Raise e =>
      is_retried_class e = false \/ giveup e = true \/ n = (tries + left)%nat
  end.
Proof using Type.
  revert tries. induction left as [|left IH]; intros tries; cbn [last_try].
  - destruct (answers tries) as [a|e] eqn:Ea.
    + cbv zeta. rewrite Ea. exact I.
    + destruct (negb _); cbv zeta; rewrite Ea; right; right; lia.
  - destruct (answers tries) as [a|e] eqn:Ea.
    + cbv zeta. rewrite Ea. exact I.
    + destruct (is_retried_class e) eqn:Ec; cbn [negb].
      * destruct (giveup e) eqn:Eg.
        -- cbv zeta. rewrite Ea. auto.
        -- specialize (IH (S tries)). cbv zeta in *.
           destruct (answers (last_try giveup answers (S tries) left)); [exact I|].
           destruct IH as [?|[?|?]]; auto. right; right; lia.
      * cbv zeta. rewrite Ea. auto.
Qed.

(** The retry loop sends the body once per attempt and sleeps the
    exponential delays in between. *)
Lemma retry_exception_spec tries left log gs g slept yielded :
  let n := last_try giveup answers tries left in
  retry_exception giveup target tries left
    (World log (gs ++ [g]) slept yielded)
  = (World log (gs ++ [g ++ repeat body (S (n - tries))])
       (slept ++ map expo (seq tries (n - tries))) yielded,
     answers n).
Proof using Type.
  revert tries g slept. induction left as [|left IH]; intros tries g slept;
    cbv zeta; cbn [retry_exception last_try].
  - rewrite bind_eq, record_sent_spec. unfold lift.
    assert (E : last_try giveup answers tries 0 = tries).
    { pose proof (last_try_bounds tries 0). lia. }
    cbn [last_try] in E. rewrite E, Nat.sub_diag. cbn [repeat seq map].
    rewrite app_nil_r.
    destruct (answers tries) as [a|e]; [reflexivity|].
    destruct (negb _); reflexivity.
  - rewrite bind_eq, record_sent_spec. unfold lift.
    destruct (answers tries) as [a|e] eqn:Ea.
    + rewrite Nat.sub_diag. cbn [repeat seq map]. rewrite app_nil_r, Ea. reflexivity.
    + destruct (negb (is_retried_class e)).
      { rewrite Nat.sub_diag. cbn [repeat seq map]. rewrite app_nil_r, Ea. reflexivity. }
      destruct (giveup e).
      { rewrite Nat.sub_diag. cbn [repeat seq map]. rewrite app_nil_r, Ea. reflexivity. }
      rewrite bind_eq. unfold sleep at 1. cbn [w_sent w_log w_slept w_yield].
      rewrite (IH (S tries)).
      pose proof (last_try_bounds (S tries) left) as Hb.
      set (n := last_try giveup answers (S tries) left) in *.
      replace (S (n - tries)) with (S (S (n - S tries))) by lia.
      replace (n - tries)%nat with (S (n - S tries)) by lia.
      cbn [repeat seq map]. rewrite <- !app_assoc. reflexivity.
Qed.
End retry.

Lemma retry_exception_ext {A} giveup (t1 t2 : nat -> M A) tries left w :
  (forall i w, t1 i w = t2 i w) ->
  retry_exception giveup t1 tries left w = retry_exception giveup t2 tries left w.
Proof.
  intros H. revert tries w. induction left as [|left IH]; intros tries w;
    cbn [retry_exception]; rewrite H.
  - reflexivity.
  - destruct (t2 tries w) as [w' [a|e]]; [reflexivity|].
    destruct (negb _); [reflexivity|]. destruct (giveup e); [reflexivity|].
    rewrite !bind_eq. destruct (sleep (expo tries) w') as [w'' [[]|e']]; [|reflexivity].
    apply IH.
Qed.

Section query.
Context (analytics : nat -> nat -> json -> res response).
Context (self : stream) (report_definition : pydict json).
Context (state_filter : string) (pageToken : option string) (body : json).
Hypothesis body_ok :
  query_body self report_definition state_filter pageToken = Ok body.

(** The answers to the attempts of page request [page]. *)
Local Notation answers page := (fun i : nat => analytics page i body).

(** [_query_api] sends the body once per attempt; its outcome is the
    answer to the last attempt. *)
Lemma _query_api_spec w :
  let page := List.length (w_sent w) in
  let n := last_try is_fatal_error (answers page) 0 8 in
  _query_api analytics self report_definition state_filter pageToken w
  = (World (w_log w) (w_sent w ++ [repeat body (S n)])
       (w_slept w ++ map expo (seq 0 n)) (w_yield w),
     answers page n).
Proof using body_ok.
  cbv zeta. unfold _query_api. rewrite bind_eq. unfold begin_query at 1.
  unfold on_exception. cbn [Nat.sub].
  erewrite retry_exception_ext.
  - rewrite (retry_exception_spec is_fatal_error
               (answers (List.length (w_sent w))) body 0 8 (w_log w) (w_sent w) []).
    cbv zeta. rewrite Nat.sub_0_r. reflexivity.
  - intros i w'. rewrite bind_eq. unfold lift at 1. rewrite body_ok. reflexivity.
Qed.

(** [_request_data] classifies a remote error and lets everything else
    through. *)
Lemma _request_data_spec w :
  let page := List.length (w_sent w) in
  let n := last_try is_fatal_error (answers page) 0 8 in
  let w' := fst (_request_data analytics self report_definition state_filter
                   pageToken w) in
  snd (_request_data analytics self report_definition state_filter pageToken w)
  = classified (answers page n)
  /\ w_sent w' = w_sent w ++ [repeat body (S n)]
  /\ w_slept w' = w_slept w ++ map expo (seq 0 n)
  /\ w_yield w' = w_yield w
  /\ (forall r, answers page n = Ok r -> w_log w' = w_log w).
Proof using body_ok.
  cbv zeta. unfold _request_data, try_except. rewrite _query_api_spec.
  cbv beta.
destruct (analytics (List.length (w_sent w)) _ body) as [r|e] eqn:E.
  - cbn. repeat apply conj; reflexivity.
  - destruct e; cbn [classified fst snd];
      try (repeat apply conj; (reflexivity || discriminate)).
    unfold classify.
    destruct (String.eqb reason "userRateLimitExceeded" || _);
      [cbn; repeat apply conj; (reflexivity || discriminate)|].
    destruct (String.eqb reason "quotaExceeded");
      [cbn; repeat apply conj; (reflexivity || discriminate)|].
    destruct (status =? 400)%Z;
      [cbn; repeat apply conj; (reflexivity || discriminate)|].
    destruct ((status =? 401)%Z || _);
      [cbn; repeat apply conj; (reflexivity || discriminate)|].
    destruct ((status =? 500)%Z || _);
      cbn; repeat apply conj; (reflexivity || discriminate).
Qed.
End query.

Lemma not_fatal_transient e :
  is_retried_class e = true -> is_fatal_error e = false -> transient e.
Proof.
  destruct e; cbn; try discriminate.
  - intros _ _. left. reflexivity.
  - intros _ H. right. exists status, reason, message. split; [reflexivity|].
    destruct (classify status reason); (reflexivity || discriminate).
Qed.

(** C4: the classification of remote errors by [_request_data] and the
    retry policy around the remote call: a remote error is raised as the
    exception of its kind in the table (rate-limit reasons, quota reason,
    status 400, 401/402, 500/503, anything else); the call is attempted at
    most 9 times with the same request and exponentially growing delays;
    only socket timeouts and BackendServer-class errors are retried; a fatal
    error ends the attempts at once. *)
Theorem error_classification_and_retry
    (analytics : nat -> nat -> json -> res response) (self : stream)
    (report_definition : pydict json) (state_filter : string)
    (pageToken : option string) (body : json) (w : world) :
  query_body self report_definition state_filter pageToken = Ok body ->
  let answers := fun i => analytics (List.length (w_sent w)) i body in
  let n := last_try is_fatal_error answers 0 8 in
  let out := _request_data analytics self report_definition state_filter
               pageToken w in
  snd out = classified (answers n)
  /\ (forall status reason message,
        classified (Raise (HttpError status reason message)) =
        Raise
          (if String.eqb reason "userRateLimitExceeded"
              || String.eqb reason "rateLimitExceeded"
           then TapGaRateLimitError message
           else if String.eqb reason "quotaExceeded"
           then TapGaQuotaExceededError message
           else if (status =? 400)%Z then TapGaInvalidArgumentError message
           else if (status =? 401)%Z || (status =? 402)%Z
           then TapGaAuthenticationError message
           else if (status =? 500)%Z || (status =? 503)%Z
           then TapGaBackendServerError message
           else TapGaUnknownError message))
  /\ w_sent (fst out) = w_sent w ++ [repeat body (S n)]
  /\ (S n <= 9)%nat
  /\ w_slept (fst out) = w_slept w ++ map expo (seq 0 n)
  /\ (forall i, (i < n)%nat -> exists e, answers i = Raise e /\ transient e)
  /\ (forall i e, (i <= n)%nat -> answers i = Raise e ->
        is_fatal_error e = true -> i = n).
Proof.
  intros Hbody answers n out.
  destruct (_request_data_spec analytics self report_definition state_filter
              pageToken body Hbody w) as (H1 & H2 & H3 & _).
  assert (Hretried : forall i, (i < n)%nat ->
            exists e, answers i = Raise e /\ is_retried_class e = true
                      /\ is_fatal_error e = false).
  { intros i Hi. apply (last_try_retried is_fatal_error answers 0 8 i). fold n. lia. }
  repeat apply conj.
  - exact H1.
  - intros status reason message. unfold classified, classify.
    destruct (String.eqb reason "userRateLimitExceeded" || _); [reflexivity|].
    destruct (String.eqb reason "quotaExceeded"); [reflexivity|].
    destruct (status =? 400)%Z; [reflexivity|].
    destruct ((status =? 401)%Z || _); [reflexivity|].
    destruct ((status =? 500)%Z || _); reflexivity.
  - exact H2.
  - pose proof (last_try_bounds is_fatal_error answers 0 8). fold n in H. lia.
  - exact H3.
  - intros i Hi. destruct (Hretried i Hi) as (e & He & Hc & Hf).
    exists e. split; [exact He|]. apply not_fatal_transient; assumption.
  - intros i e Hi He Hf. destruct (Nat.eq_dec i n) as [|Hne]; [assumption|].
    destruct (Hretried i ltac:(lia)) as (e' & He' & _ & Hf'). congruence.
Qed.

Lemma error_classification_and_retry_witness :
  exists body,
    query_body (sample_stream (sample_report None))
      (_generate_report_definition (sample_report None)) "2024-01-01" None = Ok body
    /\ let out := _request_data flaky_server (sample_stream (sample_report None))
                    (_generate_report_definition (sample_report None))
                    "2024-01-01" None world0 in
       snd out = Ok (sample_page None)
       /\ w_sent (fst out) = [[body; body; body]]
       /\ w_slept (fst out) = [1%Z; 2%Z].
Proof.
  eexists. split; [reflexivity|]. cbv zeta.
  destruct (error_classification_and_retry flaky_server
              (sample_stream (sample_report None))
              (_generate_report_definition (sample_report None))
              "2024-01-01" None _ world0 eq_refl)
    as (H1 & _ & H3 & _ & H5 & _).
  split; [exact H1|]. split; [exact H3 | exact H5].
Defined.

(** ** Response normalizer *)

(** C10: on a response without reports the next-page token is [None], but
    normalizing the page raises [IndexError] and yields nothing. *)
Theorem empty_reports_inconsistent
    (py_int : string -> option Z) (py_float_ok : string -> bool)
    (self : stream) (w : world) :
  _get_next_page_token {| reports := Some [] |} = None
  /\ _get_next_page_token {| reports := None |} = None
  /\ _parse_response py_int py_float_ok self {| reports := Some [] |} w
     = (w, Raise IndexError)
  /\ _parse_response py_int py_float_ok self {| reports := None |} w
     = (w, Raise IndexError).
Proof. repeat apply conj; reflexivity. Qed.

Section quiet.
Context (Y : pydict json -> Prop).

Lemma quiet_ret {A} (a : A) : quiet Y (ret a).
Proof. intros w. cbn. repeat split. exists []. rewrite app_nil_r. auto. Qed.

Lemma quiet_raise {A} e : quiet Y (@raise A e).
Proof. intros w. cbn. repeat split. exists []. rewrite app_nil_r. auto. Qed.

Lemma quiet_lift {A} (r : res A) : quiet Y (lift r).
Proof. intros w. cbn. repeat split. exists []. rewrite app_nil_r. auto. Qed.

Lemma quiet_logger l msg : quiet Y (logger l msg).
Proof. intros w. cbn. repeat split. exists []. rewrite app_nil_r. auto. Qed.

Lemma quiet_yield r : Y r -> quiet Y (yield r).
Proof. intros Hr w. cbn. repeat split. exists [r]. auto. Qed.

Lemma quiet_bind {A B} (m : M A) (k : A -> M B) :
  quiet Y m -> (forall a w w', m w = (w', Ok a) -> quiet Y (k a)) ->
  quiet Y (bind m k).
Proof.
  intros Hm Hk w. rewrite bind_eq. specialize (Hm w).
  destruct (m w) as [w' [a|e]] eqn:E; cbn [fst] in Hm; [|exact Hm].
  destruct Hm as (H1 & H2 & new & H3 & H4).
  destruct (Hk a w w' E w') as (K1 & K2 & new' & K3 & K4).
  repeat split; [congruence | congruence |].
  exists (new ++ new'). split.
  - rewrite K3, H3, app_assoc. reflexivity.
  - apply Forall_app. auto.
Qed.

Lemma quiet_for_each {A S} (l : list A) (body : A -> S -> M S) s :
  (forall x s, In x l -> quiet Y (body x s)) -> quiet Y (for_each l body s).
Proof.
  revert s. induction l as [|x l IH]; intros s H; cbn [for_each].
  - apply quiet_ret.
  - apply quiet_bind; [apply H; left; reflexivity|].
    intros s' _ _ _. apply IH. intros y s'' Hy. apply H. right. exact Hy.
Qed.

Lemma quiet_lookup type a dref mref : quiet Y (_lookup_data_type type a dref mref).
Proof.
  unfold _lookup_data_type, _parse_dimension_type, _parse_metric_type, sys_exit.
  repeat match goal with
         | |- quiet _ (if ?b then _ else _) => destruct b
         | |- quiet _ (match ?o with Some _ => _ | None => _ end) => destruct o
         | |- quiet _ (bind _ _) => apply quiet_bind; [|intros ? ? ? _]
         | |- quiet _ (ret _) => apply quiet_ret
         | |- quiet _ (raise _) => apply quiet_raise
         | |- quiet _ (logger _ _) => apply quiet_logger
         end.
Qed.
End quiet.

Ltac quiet_step :=
  match goal with
  | |- quiet _ (if ?b then _ else _) => destruct b
  | |- quiet _ (match ?o with Some _ => _ | None => _ end) => destruct o
  | |- quiet _ (bind _ _) => apply quiet_bind; [|intros ? ? ? _]
  | |- quiet _ (ret _) => apply quiet_ret
  | |- quiet _ (raise _) => apply quiet_raise
  | |- quiet _ (lift _) => apply quiet_lift
  | |- quiet _ (logger _ _) => apply quiet_logger
  | |- quiet _ (_lookup_data_type _ _ _ _) => apply quiet_lookup
  end.

Section normalizer.
Context (py_int : string -> option Z) (py_float_ok : string -> bool).
Context (self : stream).

Lemma quiet_parse_dimension Y hd record :
  quiet Y (parse_dimension py_int py_float_ok self hd record).
Proof. unfold parse_dimension. destruct hd as [header dimension]. repeat quiet_step. Qed.

Lemma quiet_parse_metric Y hv record :
  quiet Y (parse_metric py_int py_float_ok self hv record).
Proof. unfold parse_metric. destruct hv as [h v]. repeat quiet_step. Qed.

Lemma quiet_parse_row Y dhs mhs r :
  quiet Y (parse_row py_int py_float_ok self dhs mhs r).
Proof.
  unfold parse_row. apply quiet_bind.
  { apply quiet_for_each. intros. apply quiet_parse_dimension. }
  intros record _ _ _. apply quiet_bind.
  { apply quiet_for_each. intros vs s _. destruct (values vs).
    - apply quiet_for_each. intros. apply quiet_parse_metric.
    - apply quiet_raise. }
  intros record' _ _ _. apply quiet_ret.
Qed.

(** Every record built from a row carries the end date of the stream. *)
Lemma parse_row_stamped dhs mhs r w w' record :
  parse_row py_int py_float_ok self dhs mhs r w = (w', Ok record) ->
  stamped self record.
Proof.
  unfold parse_row. rewrite bind_eq.
  destruct (for_each _ _ _ w) as [w1 [r1|e1]]; [|discriminate].
  rewrite bind_eq.
  destruct (for_each _ _ _ w1) as [w2 [r2|e2]]; [|discriminate].
  unfold ret. intros H. injection H as _ <-. apply get_set_eq.
Qed.

Lemma quiet_parse_response resp :
  quiet (stamped self) (_parse_response py_int py_float_ok self resp).
Proof.
  unfold _parse_response. destruct (default [] (reports resp)) as [|report _].
  - apply quiet_raise.
  - destruct (report_truthy report); [|apply quiet_ret].
    apply quiet_for_each. intros r [] _. apply quiet_bind.
    + apply quiet_parse_row.
    + intros record w w' H. apply quiet_yield. eapply parse_row_stamped. exact H.
Qed.
End normalizer.

(** ** Pagination engine *)

Lemma ceil_div_spec a b :
  (0 < b)%Z -> ((ceil_div a b - 1) * b < a <= ceil_div a b * b)%Z.
Proof.
  intros Hb. unfold ceil_div.
  pose proof (Z.div_mod (a + b - 1) b ltac:(lia)) as H1.
  pose proof (Z.mod_pos_bound (a + b - 1) b Hb) as H2. nia.
Qed.

Lemma get_generated_metrics raw :
  exists v, Dict.get "metrics" (_generate_report_definition raw) = Some v.
Proof.
  unfold _generate_report_definition. rewrite !get_opt_set_ne by discriminate.
  cbn [fold_left]. rewrite !add_filter_clauses_eq.
  destruct (raw_filter_clauses "metric" raw);
    [rewrite get_set_ne by discriminate|];
    (destruct (raw_filter_clauses "dimension" raw);
     [rewrite get_set_ne by discriminate|]);
    rewrite !get_opt_set_ne by discriminate; eexists; reflexivity.
Qed.

Lemma get_generated_dimensions raw :
  exists v, Dict.get "dimensions" (_generate_report_definition raw) = Some v.
Proof.
  unfold _generate_report_definition. rewrite !get_opt_set_ne by discriminate.
  cbn [fold_left]. rewrite !add_filter_clauses_eq.
  destruct (raw_filter_clauses "metric" raw);
    [rewrite get_set_ne by discriminate|];
    (destruct (raw_filter_clauses "dimension" raw);
     [rewrite get_set_ne by discriminate|]);
    rewrite !get_opt_set_ne by discriminate; eexists; reflexivity.
Qed.

(** The request body of a generated report definition can always be built. *)
Lemma query_body_generated self raw state_filter pageToken :
  exists body,
    query_body self (_generate_report_definition raw) state_filter pageToken = Ok body.
Proof.
  unfold query_body.
  destruct (get_generated_metrics raw) as [m ->].
  destruct (get_generated_dimensions raw) as [d ->].
  eexists. reflexivity.
Qed.

Section pagination.
Context (analytics : nat -> nat -> json -> res response).
Context (py_int : string -> option Z) (py_float_ok : string -> bool).
Context (self : stream) (state_filter : string).
Context (page_size : Z) (max_records : option Z).

Local Notation api_report_def := (_generate_report_definition (report self)).
Local Notation body :=
  (loop_body analytics py_int py_float_ok self api_report_def state_filter
     page_size max_records).

(** One page request: its outcome, and the one group of attempts it adds. *)
Lemma request_data_outcome token w :
  let out := _request_data analytics self api_report_def state_filter token w in
  snd out
  = page_outcome analytics self api_report_def state_filter token
      (List.length (w_sent w))
  /\ List.length (w_sent (fst out)) = S (List.length (w_sent w))
  /\ w_yield (fst out) = w_yield w.
Proof using Type.
  cbv zeta. unfold page_outcome.
  destruct (query_body_generated self (report self) state_filter token) as [b Hb].
  rewrite Hb.
  destruct (_request_data_spec analytics self _ state_filter token b Hb w)
    as (H1 & H2 & _ & H4 & _).
  repeat apply conj; [exact H1 | | exact H4].
  rewrite H2, length_app. cbn. lia.
Qed.

(** One turn of the loop whose page request and normalization succeed. *)
Lemma loop_body_spec v w resp :
  page_outcome analytics self api_report_def state_filter (next_page_token v)
    (List.length (w_sent w)) = Ok resp ->
  (forall w1, snd (_parse_response py_int py_float_ok self resp w1) = Ok tt) ->
  let token := _get_next_page_token resp in
  let total := (total_records v + page_size)%Z in
  List.length (w_sent (fst (body v w))) = S (List.length (w_sent w))
  /\ snd (body v w)
     = if truthy token && token_eqb token (next_page_token v)
       then Raise (loop_error token)
       else Ok {| next_page_token := token;
                  finished := _is_finished token total max_records;
                  total_records := total |}.
Proof using Type.
  intros Hpage Hparse. cbv zeta. unfold loop_body. rewrite bind_eq.
  destruct (request_data_outcome (next_page_token v) w) as (H1 & H2 & _).
  destruct (_request_data analytics self api_report_def state_filter
              (next_page_token v) w) as [w1 r1].
  cbn [fst snd] in H1, H2. rewrite H1, Hpage, bind_eq.
  specialize (Hparse w1).
  destruct (quiet_parse_response py_int py_float_ok self resp w1) as (Q1 & _).
  destruct (_parse_response py_int py_float_ok self resp w1) as [w2 r2].
  cbn [fst snd] in Hparse, Q1. rewrite Hparse.
  destruct (truthy _ && token_eqb _ _).
  - cbn. split; [congruence | reflexivity].
  - cbn. split; [congruence | reflexivity].
Qed.

(** A turn that does not finish leaves a true token behind. *)
Lemma not_finished_truthy token total :
  _is_finished token total max_records = false -> truthy token = true.
Proof using Type.
  unfold _is_finished. destruct (truthy token); [reflexivity | discriminate].
Qed.

Lemma while_finished fuel v w :
  finished v = true ->
  while_not_finished fuel body v w = (w, Ok v).
Proof using Type. intros H. destruct fuel; cbn [while_not_finished]; rewrite H; reflexivity. Qed.

Lemma while_step fuel v w :
  finished v = false ->
  while_not_finished (S fuel) body v w
  = match body v w with
    | (w', Ok v') => while_not_finished fuel body v' w'
    | (w', Raise e) => (w', Raise e)
    end.
Proof using Type. intros H. cbn [while_not_finished]. rewrite H. apply bind_eq. Qed.

(** Running [k] turns and then [m] more is running [k + m] turns. *)
Lemma while_split k m v w wk vk :
  while_not_finished k body v w = (wk, Ok vk) ->
  finished vk = false ->
  while_not_finished (k + m) body v w = while_not_finished m body vk wk.
Proof using Type.
  revert v w. induction k as [|k IH]; intros v w Hk Hf.
  - cbn [while_not_finished] in Hk.
    assert (E : (w, @Ok loop_vars v) = (wk, Ok vk))
      by (destruct (finished v); exact Hk).
    injection E as -> ->. reflexivity.
  - destruct (finished v) eqn:Ev.
    + rewrite while_finished in Hk by exact Ev. injection Hk as -> ->. congruence.
    + rewrite while_step in Hk by exact Ev.
      change (S k + m)%nat with (S (k + m)). rewrite while_step by exact Ev.
      destruct (body v w) as [w' [v'|e]]; [|discriminate].
      apply IH; assumption.
Qed.
End pagination.

Lemma token_eqb_eq a b : token_eqb a b = true -> a = b.
Proof.
  destruct a, b; cbn; try discriminate; [|reflexivity].
  intros H. apply String.eqb_eq in H. congruence.
Qed.

Lemma truthy_not_None token : truthy token = true -> token <> None.
Proof. destruct token; [discriminate | discriminate]. Qed.

(** [_is_finished] is true exactly when the token is false (absent or
    empty), or a maximum is set and the count has reached it. *)
Lemma is_finished_iff token total max_records :
  _is_finished token total max_records = true
  <-> truthy token = false
      \/ exists m, max_records = Some m /\ (m <= total)%Z.
Proof.
  unfold _is_finished. destruct (truthy token); cbn [negb].
  - destruct max_records as [m|].
    + rewrite Z.leb_le. split.
      * intros H. right. exists m. auto.
      * intros [H|(m' & H & Hm)]; [discriminate|]. congruence.
    + split; [discriminate|]. intros [H|(m' & H & _)]; discriminate.
  - split; auto.
Qed.

Section fetch_count.
Context (analytics : nat -> nat -> json -> res response).
Context (py_int : string -> option Z) (py_float_ok : string -> bool).
Context (self : stream) (state_filter : string).
Context (pages : nat -> response) (ps mr : Z).

Local Notation api_report_def := (_generate_report_definition (report self)).
Local Notation body :=
  (loop_body analytics py_int py_float_ok self api_report_def state_filter ps
     (Some mr)).
Local Notation token k := (_get_next_page_token (pages k)).
Local Notation n := (Z.to_nat (Z.max 1 (ceil_div mr ps))).

Hypothesis ps_pos : (0 < ps)%Z.
Hypothesis served : forall k tok,
  page_outcome analytics self api_report_def state_filter tok k = Ok (pages k).
Hypothesis parsed : forall k w,
  snd (_parse_response py_int py_float_ok self (pages k) w) = Ok tt.
Hypothesis non_null : forall k, truthy (token k) = true.
Hypothesis fresh : forall k, token (S k) <> token k.

Lemma fetch_count_facts :
  (1 <= n)%nat /\ (mr <= Z.of_nat n * ps)%Z
  /\ forall j, (1 <= j < n)%nat -> (Z.of_nat j * ps < mr)%Z.
Proof using ps_pos.
  pose proof (ceil_div_spec mr ps ps_pos) as Hc.
  destruct (Z.max_spec 1 (ceil_div mr ps)) as [[H1 ->]|[H1 ->]].
  - repeat split; [lia | nia | intros j Hj; nia].
  - repeat split; [lia | nia | intros j Hj; lia].
Qed.

Lemma run_pages d : forall j w v,
  n = (j + S d)%nat ->
  List.length (w_sent w) = j ->
  total_records v = (Z.of_nat j * ps)%Z ->
  finished v = false ->
  (j = 0%nat -> next_page_token v = None) ->
  (forall i, j = S i -> next_page_token v = token i) ->
  forall fuel, (S d <= fuel)%nat ->
  exists w' v',
    while_not_finished fuel body v w = (w', Ok v')
    /\ finished v' = true
    /\ total_records v' = (Z.of_nat n * ps)%Z
    /\ List.length (w_sent w') = n.
Proof using ps_pos served parsed non_null fresh.
  destruct fetch_count_facts as (Hn1 & Hn2 & Hn3).
  induction d as [|d IH]; intros j w v Hn Hw Ht Hf H0 HS fuel Hfuel;
    (destruct fuel as [|fuel]; [lia|]);
    rewrite while_step by exact Hf;
    (destruct (loop_body_spec analytics py_int py_float_ok self state_filter ps
                 (Some mr) v w (pages j)) as (L1 & L2);
     [rewrite Hw; apply served | apply parsed |]);
    (assert (Hneq : token_eqb (token j) (next_page_token v) = false);
     [destruct (token_eqb (token j) (next_page_token v)) eqn:E; [|reflexivity];
      apply token_eqb_eq in E; destruct j as [|i];
      [rewrite (H0 eq_refl) in E; exfalso;
       exact (truthy_not_None _ (non_null 0%nat) E)
      |rewrite (HS i eq_refl) in E; exfalso; exact (fresh i E)]|]);
    rewrite (non_null j), Hneq in L2; cbn [andb] in L2;
    destruct (body v w) as [w1 r1]; cbn [fst snd] in L1, L2; subst r1.
  - (* the last page *)
    exists w1. eexists. split; [apply while_finished|]; cbn [finished total_records].
    + apply is_finished_iff. right. exists mr. split; [reflexivity|]. rewrite Ht. nia.
    + repeat split; [| rewrite Ht; nia | lia].
      apply is_finished_iff. right. exists mr. split; [reflexivity|]. rewrite Ht. nia.
  - (* more pages follow *)
    apply (IH (S j)); cbn [finished total_records next_page_token].
    + lia.
    + lia.
    + rewrite Ht. lia.
    + unfold _is_finished. rewrite (non_null j). cbn [negb].
      apply Z.leb_gt. rewrite Ht. specialize (Hn3 (S j) ltac:(lia)). lia.
    + discriminate.
    + intros i Hi. injection Hi as <-. reflexivity.
    + lia.
Qed.
End fetch_count.

Section loop_facts.
Context (analytics : nat -> nat -> json -> res response).
Context (py_int : string -> option Z) (py_float_ok : string -> bool).
Context (self : stream) (state_filter : string).
Context (page_size : Z) (max_records : option Z).

Local Notation api_report_def := (_generate_report_definition (report self)).
Local Notation body :=
  (loop_body analytics py_int py_float_ok self api_report_def state_filter
     page_size max_records).

(** A turn that returns has made one page request, and either finished or
    left a true token. *)
Lemma loop_body_returns v w w' v' :
  body v w = (w', Ok v') ->
  List.length (w_sent w') = S (List.length (w_sent w))
  /\ (finished v' = false -> truthy (next_page_token v') = true).
Proof using Type.
  unfold loop_body. rewrite bind_eq.
  destruct (request_data_outcome analytics self state_filter
              (next_page_token v) w) as (_ & H2 & _).
  destruct (_request_data analytics self api_report_def state_filter
              (next_page_token v) w) as [w1 [resp|e]]; [|discriminate].
  cbn [fst] in H2. rewrite bind_eq.
  destruct (quiet_parse_response py_int py_float_ok self resp w1) as (Q1 & _).
  destruct (_parse_response py_int py_float_ok self resp w1) as [w2 [[]|e]];
    [|discriminate].
  cbn [fst] in Q1.
  destruct (truthy _ && token_eqb _ _); [discriminate|].
  cbn. intros H. injection H as <- <-. cbn [finished next_page_token].
  split; [cbn [w_sent]; congruence|]. apply not_finished_truthy.
Qed.

(** After [k] turns that leave the loop running, [k] page requests have
    been made and the token is true (or still the initial [None]). *)
Lemma while_running k : forall v w wk vk,
  while_not_finished k body v w = (wk, Ok vk) ->
  finished vk = false ->
  List.length (w_sent wk) = (List.length (w_sent w) + k)%nat
  /\ (k = 0%nat /\ vk = v \/ truthy (next_page_token vk) = true).
Proof using Type.
  pose proof loop_body_returns as Hbody.
  induction k as [|k IH]; intros v w wk vk Hk Hf.
  - cbn [while_not_finished] in Hk.
    assert (E : (w, @Ok loop_vars v) = (wk, Ok vk))
      by (destruct (finished v); exact Hk).
    injection E as -> ->. split; [lia | left; auto].
  - destruct (finished v) eqn:Ev.
    + rewrite while_finished in Hk by exact Ev. injection Hk as -> ->. congruence.
    + rewrite while_step in Hk by exact Ev.
      destruct (loop_body _ _ _ _ _ _ _ _ v w) as [w' [v'|e]] eqn:Eb;
        [|discriminate].
      apply Hbody in Eb as (B1 & B2).
      destruct (IH v' w' wk vk Hk Hf) as (I1 & I2). split; [lia|].
      right. destruct I2 as [[-> ->]|I2]; [apply B2; exact Hf | exact I2].
Qed.
End loop_facts.

Lemma request_records_eq analytics py_int py_float_ok fuel self rkv sf w :
  _get_state_filter self rkv = Ok sf ->
  _request_records analytics py_int py_float_ok fuel self rkv w
  = while_not_finished fuel
      (loop_body analytics py_int py_float_ok self
         (_generate_report_definition (report self)) sf (report_page_size self)
         (report_max_records self))
      {| next_page_token := None; finished := false; total_records := 0 |} w.
Proof. intros H. unfold _request_records. rewrite bind_eq. unfold lift. rewrite H. reflexivity. Qed.

(** C2: when the cursor of the current response is non-null and equal to
    the cursor of the response before it, [_request_records] raises the
    pagination-loop error and no further page request is made: after [k]
    turns, the request of turn [k + 1] is the last one. *)
Theorem pagination_loop_detected
    (analytics : nat -> nat -> json -> res response)
    (py_int : string -> option Z) (py_float_ok : string -> bool)
    (self : stream) (rkv : option string) (sf : string)
    (k : nat) (wk : world) (vk : loop_vars) (t : string)
    (w1 : world) (resp : response) (w2 : world) :
  _get_state_filter self rkv = Ok sf ->
  (* [k] turns have run and the loop goes on; the last cursor was [t] *)
  _request_records analytics py_int py_float_ok k self rkv world0 = (wk, Ok vk) ->
  finished vk = false ->
  next_page_token vk = Some t ->
  (* the next response is fetched and normalized, and its cursor is [t] again *)
  _request_data analytics self (_generate_report_definition (report self)) sf
    (Some t) wk = (w1, Ok resp) ->
  _parse_response py_int py_float_ok self resp w1 = (w2, Ok tt) ->
  _get_next_page_token resp = Some t ->
  forall fuel, (k < fuel)%nat ->
    _request_records analytics py_int py_float_ok fuel self rkv world0
    = (w2, Raise (loop_error (Some t)))
    /\ List.length (w_sent w2) = S k.
Proof.
  intros Hsf Hk Hf Ht Hreq Hparse Htok fuel Hfuel.
  rewrite (request_records_eq _ _ _ _ _ _ sf _ Hsf) in Hk.
  rewrite (request_records_eq _ _ _ _ _ _ sf _ Hsf).
  destruct (while_running _ _ _ _ _ _ _ k _ _ _ _ Hk Hf) as (Hlen & Htruthy).
  assert (Htr : truthy (Some t) = true).
  { destruct Htruthy as [[_ ->]|H]; [discriminate | rewrite <- Ht; exact H]. }
  replace fuel with (k + S (fuel - S k))%nat by lia.
  rewrite (while_split _ _ _ _ _ _ _ k _ _ _ _ _ Hk Hf).
  rewrite while_step by exact Hf.
  unfold loop_body at 1. rewrite bind_eq, Ht, Hreq, bind_eq, Hparse, Htok, Htr.
  cbn [token_eqb]. rewrite String.eqb_refl. cbn [andb]. split; [reflexivity|].
  destruct (request_data_outcome analytics self sf (Some t) wk) as (_ & R & _).
  rewrite Hreq in R. cbn [fst] in R.
  destruct (quiet_parse_response py_int py_float_ok self resp w1) as (Q & _).
  rewrite Hparse in Q. cbn [fst] in Q. rewrite Q, R, Hlen. reflexivity.
Qed.

(** C1 (as amended): [_is_finished] is true exactly when the cursor is
    false (absent or empty), or a maximum is configured and the count has
    reached it; and when every page request is served, every page is
    normalized, every cursor is true and differs from the one before, the
    page size is positive and [max_records] is configured, the loop makes
    exactly [max 1 (ceil (max_records / page_size))] page requests and then
    stops, its count being that many page sizes. *)
Theorem pagination_fetch_count :
  (forall token total max_records,
     _is_finished token total max_records = true
     <-> truthy token = false
         \/ exists m, max_records = Some m /\ (m <= total)%Z)
  /\ (forall (analytics : nat -> nat -> json -> res response)
        (py_int : string -> option Z) (py_float_ok : string -> bool)
        (self : stream) (rkv : option string) (sf : string)
        (pages : nat -> response) (mr : Z),
        _get_state_filter self rkv = Ok sf ->
        (0 < report_page_size self)%Z ->
        report_max_records self = Some mr ->
        (forall k tok,
           page_outcome analytics self (_generate_report_definition (report self))
             sf tok k = Ok (pages k)) ->
        (forall k w,
           snd (_parse_response py_int py_float_ok self (pages k) w) = Ok tt) ->
        (forall k, truthy (_get_next_page_token (pages k)) = true) ->
        (forall k, _get_next_page_token (pages (S k))
                   <> _get_next_page_token (pages k)) ->
        let n := Z.to_nat (Z.max 1 (ceil_div mr (report_page_size self))) in
        forall fuel, (n <= fuel)%nat ->
          let out := _request_records analytics py_int py_float_ok fuel self rkv
                       world0 in
          exists v,
            snd out = Ok v
            /\ finished v = true
            /\ total_records v = (Z.of_nat n * report_page_size self)%Z
            /\ List.length (w_sent (fst out)) = n).
Proof.
  split; [apply is_finished_iff|].
  intros analytics py_int py_float_ok self rkv sf pages mr Hsf Hps Hmr Hserved
    Hparsed Htruthy Hfresh n fuel Hfuel out.
  unfold out. rewrite (request_records_eq _ _ _ _ _ _ sf _ Hsf), Hmr.
  pose proof (fetch_count_facts (report_page_size self) mr Hps) as (Hn1 & _).
  destruct (run_pages analytics py_int py_float_ok self sf pages
              (report_page_size self) mr Hps Hserved Hparsed Htruthy Hfresh
              (n - 1) 0%nat world0
              {| next_page_token := None; finished := false; total_records := 0 |})
    with (fuel := fuel) as (w' & v' & R1 & R2 & R3 & R4);
    try reflexivity; try (fold n; lia); try discriminate.
  rewrite R1. exists v'. cbn [fst snd]. auto.
Qed.

(** Facts about the sample servers. *)

Lemma served_at_once analytics self def sf tok k resp :
  (exists body, query_body self def sf tok = Ok body) ->
  (forall body, analytics k 0%nat body = Ok resp) ->
  page_outcome analytics self def sf tok k = Ok resp.
Proof.
  intros [body Hb] H. unfold page_outcome. rewrite Hb.
  assert (E : last_try is_fatal_error (fun i => analytics k i body) 0 8 = 0%nat)
    by (cbn [last_try]; rewrite H; reflexivity).
  rewrite E, H. reflexivity.
Qed.

Lemma sample_page_parsed ga_report token w :
  snd (_parse_response sample_int (fun _ => true) (sample_stream ga_report)
         (sample_page token) w) = Ok tt.
Proof. vm_compute. reflexivity. Qed.

Lemma cursor_length k : String.length (cursor k) = S k.
Proof. induction k as [|k IH]; [reflexivity|]. cbn [cursor String.length]. rewrite IH. reflexivity. Qed.

Lemma cursor_fresh k : Some (cursor (S k)) <> Some (cursor k).
Proof.
  intros H. injection H as H. apply (f_equal String.length) in H.
  cbn [String.length] in H. rewrite !cursor_length in H. lia.
Qed.

Lemma cursor_truthy k : truthy (Some (cursor k)) = true.
Proof. destruct k; reflexivity. Qed.

Lemma fresh_server_served self sf tok k :
  page_outcome fresh_server self (_generate_report_definition (report self)) sf tok k
  = Ok (sample_page (Some (cursor k))).
Proof.
  apply served_at_once; [apply query_body_generated | reflexivity].
Qed.

Lemma pagination_fetch_count_witness :
  exists v,
    snd (_request_records fresh_server sample_int (fun _ => true) 3
           (sample_stream (sample_report (Some 2500%Z))) None world0) = Ok v
    /\ finished v = true
    /\ total_records v = 3000%Z
    /\ List.length
         (w_sent (fst (_request_records fresh_server sample_int (fun _ => true) 3
                         (sample_stream (sample_report (Some 2500%Z))) None world0)))
       = 3%nat.
Proof.
  apply (proj2 pagination_fetch_count fresh_server sample_int (fun _ => true)
           (sample_stream (sample_report (Some 2500%Z))) None "2024-01-01"
           (fun k => sample_page (Some (cursor k))) 2500%Z).
  - reflexivity.
  - reflexivity.
  - reflexivity.
  - intros k tok. apply fresh_server_served.
  - intros k w. apply sample_page_parsed.
  - intros k. apply cursor_truthy.
  - intros k. apply cursor_fresh.
  - vm_compute. lia.
Defined.

(** C1 as stated fails: with [max_records = 0] and pages of 1000 the loop
    still makes one page request, where [ceil (0 / 1000)] is 0; and
    [_is_finished] is also true on a cursor that is present but empty.  So
    neither the count [ceil (max_records / page_size)] nor the reading of
    "absent" as [None] holds for all inputs. *)
Lemma fetch_count_not_ceil :
  List.length
    (w_sent (fst (_request_records fresh_server sample_int (fun _ => true) 5
                    (sample_stream (sample_report (Some 0%Z))) None world0)))
  = 1%nat
  /\ ceil_div 0 (report_page_size (sample_stream (sample_report (Some 0%Z)))) = 0%Z
  /\ _is_finished (Some "") 0 None = true
  /\ ~ (forall (analytics : nat -> nat -> json -> res response)
        (py_int : string -> option Z) (py_float_ok : string -> bool)
        (self : stream) (rkv : option string) (sf : string)
        (pages : nat -> response) (mr : Z),
        _get_state_filter self rkv = Ok sf ->
        (0 < report_page_size self)%Z ->
        report_max_records self = Some mr ->
        (forall k tok,
           page_outcome analytics self (_generate_report_definition (report self))
             sf tok k = Ok (pages k)) ->
        (forall k w,
           snd (_parse_response py_int py_float_ok self (pages k) w) = Ok tt) ->
        (forall k, truthy (_get_next_page_token (pages k)) = true) ->
        (forall k, _get_next_page_token (pages (S k))
                   <> _get_next_page_token (pages k)) ->
        let n := Z.to_nat (ceil_div mr (report_page_size self)) in
        forall fuel, (n <= fuel)%nat ->
          let out := _request_records analytics py_int py_float_ok fuel self rkv
                       world0 in
          exists v,
            snd out = Ok v
            /\ finished v = true
            /\ List.length (w_sent (fst out)) = n)
  /\ ~ (forall token total max_records,
          _is_finished token total max_records = true
          <-> token = None
              \/ exists m, max_records = Some m /\ (m <= total)%Z).
Proof.
  split; [vm_compute; reflexivity|].
  split; [vm_compute; reflexivity|].
  split; [reflexivity|].
  split.
  - intros H.
    specialize (H fresh_server sample_int (fun _ => true)
                  (sample_stream (sample_report (Some 0%Z))) None "2024-01-01"
                  (fun k => sample_page (Some (cursor k))) 0%Z
                  eq_refl eq_refl eq_refl
                  (fun k tok => fresh_server_served _ _ tok k)
                  (fun k w => sample_page_parsed _ _ w)
                  cursor_truthy cursor_fresh).
    cbv zeta in H. specialize (H 1%nat).
    destruct H as (v & _ & _ & Hlen); [vm_compute; lia|].
    vm_compute in Hlen. discriminate.
  - intros H. destruct (proj1 (H (Some "") 0%Z None) eq_refl) as [E|(m & E & _)];
      discriminate.
Qed.

Lemma pagination_loop_detected_witness :
  exists w2,
    _request_records stuck_server sample_int (fun _ => true) 5
      (sample_stream (sample_report None)) None world0
    = (w2, Raise (loop_error (Some "t")))
    /\ List.length (w_sent w2) = 2%nat.
Proof.
  eexists.
  eapply (pagination_loop_detected stuck_server sample_int (fun _ => true)
            (sample_stream (sample_report None)) None "2024-01-01" 1 _ _ "t").
  - reflexivity.
  - vm_compute. reflexivity.
  - reflexivity.
  - reflexivity.
  - vm_compute. reflexivity.
  - vm_compute. reflexivity.
  - reflexivity.
  - lia.
Defined.

(** ** Schema synthesizer *)

(** A lookup either returns without a trace or exits. *)
Lemma lookup_returns type a dref mref w w' t :
  _lookup_data_type type a dref mref w = (w', Ok t) -> w' = w.
Proof.
  unfold _lookup_data_type, _parse_dimension_type, _parse_metric_type, sys_exit.
  repeat match goal with
         | |- context [if ?b then _ else _] => destruct b
         | |- context [match ?o with Some _ => _ | None => _ end] => destruct o
         end;
    cbv [ret bind logger raise]; intros H; congruence.
Qed.

Section schema.
Context (self : stream).

Lemma schema_dimensions_spec dims : forall v w w' v',
  for_each dims (schema_dimension self) v w = (w', Ok v') ->
  w' = w
  /\ primary_keys v' = primary_keys v ++ flat_map dimension_keys dims
  /\ date_dimension_included v'
     = date_dimension_included v || existsb is_date_dimension dims
  /\ replication_key v'
     = if existsb is_date_dimension dims then Some "ga_date" else replication_key v.
Proof.
  induction dims as [|d dims IH]; intros v w w' v'; cbn [for_each].
  - unfold ret. intros H. injection H as <- <-. cbn.
    rewrite app_nil_r, orb_false_r. auto.
  - rewrite bind_eq. unfold schema_dimension at 1. rewrite bind_eq.
    destruct (_lookup_data_type _ _ _ _ w) as [w1 [t|e]] eqn:El; [|discriminate].
    apply lookup_returns in El. subst w1. unfold ret at 1.
    intros H. apply IH in H as (-> & H1 & H2 & H3).
    cbn [flat_map existsb]. unfold is_date_dimension at 1 3, dimension_keys at 1.
    rewrite H1, H2, H3. clear.
    destruct (String.eqb d "ga:date"), (String.eqb d "ga:yearMonth");
      cbn [primary_keys date_dimension_included replication_key orb app];
      rewrite <- ?app_assoc; cbn [app];
      repeat apply conj; try reflexivity;
      destruct (date_dimension_included v), (existsb is_date_dimension dims);
      reflexivity.
Qed.

Lemma schema_metrics_spec mets : forall v w w' v',
  for_each mets (schema_metric self) v w = (w', Ok v') ->
  w' = w
  /\ primary_keys v' = primary_keys v
  /\ date_dimension_included v' = date_dimension_included v
  /\ replication_key v' = replication_key v.
Proof.
  induction mets as [|m mets IH]; intros v w w' v'; cbn [for_each].
  - unfold ret. intros H. injection H as <- <-. auto.
  - rewrite bind_eq. unfold schema_metric at 1. rewrite bind_eq.
    destruct (_lookup_data_type _ _ _ _ w) as [w1 [t|e]] eqn:El; [|discriminate].
    apply lookup_returns in El. subst w1. unfold ret at 1.
    intros H. apply IH in H as (-> & H1 & H2 & H3).
    rewrite H1, H2, H3. auto.
Qed.

Lemma schema_dimensions_total dims : forall v w,
  Forall (resolves self "dimension") dims ->
  exists v', for_each dims (schema_dimension self) v w = (w, Ok v').
Proof.
  induction dims as [|d dims IH]; intros v w Hd; cbn [for_each].
  - eexists. reflexivity.
  - apply Forall_cons in Hd as [[t Ht] Hd].
    rewrite bind_eq. unfold schema_dimension at 1. rewrite bind_eq, Ht.
    unfold ret at 1. apply IH. exact Hd.
Qed.

Lemma schema_metrics_total mets : forall v w,
  Forall (resolves self "metric") mets ->
  exists v', for_each mets (schema_metric self) v w = (w, Ok v').
Proof.
  induction mets as [|m mets IH]; intros v w Hm; cbn [for_each].
  - eexists. reflexivity.
  - apply Forall_cons in Hm as [[t Ht] Hm].
    rewrite bind_eq. unfold schema_metric at 1. rewrite bind_eq, Ht.
    unfold ret at 1. apply IH. exact Hm.
Qed.

(** The keys and the diagnostic of a synthesized schema. *)
Lemma schema_spec w w' v :
  schema self w = (w', Ok v) ->
  let dims := r_dimensions (report self) in
  let dated := existsb is_date_dimension dims in
  primary_keys v
  = "view_id" :: flat_map dimension_keys dims
    ++ (if dated then [] else ["report_start_date"; "report_end_date"])
  /\ replication_key v = (if dated then Some "ga_date" else None)
  /\ w_log w'
     = w_log w ++ (if dated then [] else [(WARNING, incremental_warning self)])
  /\ w_sent w' = w_sent w /\ w_yield w' = w_yield w.
Proof.
  unfold schema. rewrite bind_eq.
  destruct (for_each (r_dimensions (report self)) _ _ w) as [w1 [v1|e]] eqn:E1;
    [|discriminate].
  apply schema_dimensions_spec in E1 as (-> & D1 & D2 & D3).
  rewrite bind_eq.
  destruct (for_each (r_metrics (report self)) _ _ w) as [w2 [v2|e]] eqn:E2;
    [|discriminate].
  apply schema_metrics_spec in E2 as (-> & M1 & M2 & M3).
  cbn [date_dimension_included primary_keys replication_key properties]
    in D1, D2, D3 |- *.
  rewrite M2, D2. cbn [orb]. cbv zeta.
  destruct (existsb is_date_dimension (r_dimensions (report self))); cbn [negb].
  - unfold ret. intros H. injection H as <- <-.
    cbn [primary_keys replication_key]. rewrite M1, M3, D1, D3, !app_nil_r. auto.
  - rewrite bind_eq. cbn. intros H. injection H as <- <-.
    cbn [primary_keys replication_key w_log w_sent w_yield].
    rewrite M1, M3, D1, D3. auto.
Qed.
End schema.

Lemma existsb_date_in dims :
  In "ga:date" dims -> existsb is_date_dimension dims = true.
Proof. intros H. apply existsb_exists. exists "ga:date". auto. Qed.

Lemma existsb_no_date dims :
  (forall d, In d dims -> is_date_dimension d = false) ->
  existsb is_date_dimension dims = false
  /\ flat_map dimension_keys dims = map _normalize_colname dims.
Proof.
  induction dims as [|d dims IH]; intros H; [auto|].
  destruct IH as [IH1 IH2]; [intros d' Hd'; apply H; right; exact Hd'|].
  pose proof (H d (or_introl eq_refl)) as Hd.
  cbn [existsb flat_map map]. rewrite Hd, IH1, IH2. split; [reflexivity|].
  unfold is_date_dimension in Hd. apply orb_false_iff in Hd as [_ Hd].
  unfold dimension_keys. rewrite Hd. reflexivity.
Qed.

(** The columns of the dimensions are among the keys they contribute, in
    the order of the dimensions. *)
Lemma dimension_keys_sublist dims rest :
  map _normalize_colname dims `sublist_of` flat_map dimension_keys dims ++ rest.
Proof.
  induction dims as [|d dims IH]; cbn [map flat_map].
  - apply sublist_nil_l.
  - unfold dimension_keys at 1. rewrite <- !app_assoc.
    apply sublist_inserts_l. cbn [app]. apply sublist_skip. exact IH.
Qed.

(** C6 (as amended): the schema is synthesized whenever every dimension
    and metric has a type.  With ["ga:date"] among the dimensions the
    replication key is [ga_date], the column of that dimension, and the
    report start and end dates are not added to the primary key; without
    any date dimension they are appended, no replication key is set and the
    diagnostic is logged.  In all cases the primary key begins with
    [view_id], followed by the columns of the dimensions, one per dimension
    and in declaration order (a ["ga:yearMonth"] dimension contributes the
    compact-date key [ga_date] before its own column). *)
Theorem schema_keys (self : stream) (w : world) :
  let dims := r_dimensions (report self) in
  (Forall (resolves self "dimension") dims ->
   Forall (resolves self "metric") (r_metrics (report self)) ->
   exists w' v, schema self w = (w', Ok v))
  /\ forall w' v, schema self w = (w', Ok v) ->
       (In "ga:date" dims ->
        replication_key v = Some "ga_date"
        /\ replication_key v = Some (_normalize_colname "ga:date")
        /\ primary_keys v = "view_id" :: flat_map dimension_keys dims)
       /\ ((forall d, In d dims -> is_date_dimension d = false) ->
           primary_keys v
           = "view_id" :: map _normalize_colname dims
             ++ ["report_start_date"; "report_end_date"]
           /\ replication_key v = None
           /\ w_log w' = w_log w ++ [(WARNING, incremental_warning self)])
       /\ exists rest,
            primary_keys v = "view_id" :: flat_map dimension_keys dims ++ rest
            /\ map _normalize_colname dims
               `sublist_of` flat_map dimension_keys dims ++ rest.
Proof.
  cbv zeta. split.
  - intros Hd Hm. unfold schema. rewrite bind_eq.
    destruct (schema_dimensions_total self _
                {| properties := [Property "view_id" StringType true;
                                  Property "stream" StringType true];
                   primary_keys := ["view_id"];
                   date_dimension_included := false;
                   replication_key := None |} w Hd) as [v1 ->].
    rewrite bind_eq. destruct (schema_metrics_total self _ v1 w Hm) as [v2 ->].
    destruct (negb _); [rewrite bind_eq; cbn|]; eauto.
  - intros w' v H. apply schema_spec in H as (H1 & H2 & H3 & _). cbv zeta in *.
    repeat apply conj.
    + intros Hin. rewrite (existsb_date_in _ Hin) in *.
      rewrite H1, H2, app_nil_r. auto.
    + intros Hno. destruct (existsb_no_date _ Hno) as [E1 E2].
      rewrite E1, E2 in *. auto.
    + eexists. split; [exact H1 | apply dimension_keys_sublist].
Qed.

(** C6 as stated fails: for the dimensions ["ga:date"] and ["ga:country"]
    the replication key is [ga_date], the column of the dimension itself,
    which holds the date in the compact form of the API; the derived date
    column, which the normalizer adds with the date reformatted and the
    schema declares as a date, is [ga_date_dt]. *)
Lemma schema_replication_key_not_derived :
  schema_replication_key (sample_stream (sample_report None)) = Some "ga_date"
  /\ schema_primary_keys (sample_stream (sample_report None))
     = Some ["view_id"; "ga_date"; "ga_country"]
  /\ parse_dimension sample_int (fun _ => true) (sample_stream (sample_report None))
       ("ga:date", "20240105") [] world0
     = (world0, Ok [("ga_date", JStr "20240105"); ("ga_date_dt", JStr "2024-01-05")])
  /\ schema_replication_key (sample_stream (sample_report None))
     <> Some "ga_date_dt".
Proof.
  repeat split; try (vm_compute; reflexivity).
  vm_compute. discriminate.
Qed.

Lemma sample_resolves ga_report type a t :
  (forall w, _lookup_data_type type a sample_dimensions_ref sample_metrics_ref w
             = (w, Ok t)) ->
  resolves (sample_stream ga_report) type a.
Proof. intros H. exists t. exact H. Qed.

Lemma schema_keys_witness :
  exists w' v,
    schema (sample_stream (sample_report None)) world0 = (w', Ok v)
    /\ replication_key v = Some "ga_date"
    /\ primary_keys v = ["view_id"; "ga_date"; "ga_country"].
Proof.
  destruct (schema_keys (sample_stream (sample_report None)) world0) as [Htotal Hkeys].
  destruct Htotal as (w' & v & Hv).
  - repeat constructor; eapply sample_resolves; intros w; reflexivity.
  - repeat constructor; eapply sample_resolves; intros w; reflexivity.
  - exists w', v. split; [exact Hv|].
    destruct (Hkeys w' v Hv) as (Hdate & _ & _).
    destruct Hdate as (Hr & _ & Hp); [left; reflexivity|].
    split; [exact Hr | exact Hp].
Defined.

(** ** Dates *)

Lemma digit_of_digit_char k :
  (0 <= k <= 9)%Z -> Date.digit (Date.digit_char k) = Some k.
Proof.
  intros H.
  assert (E : (k = 0 \/ k = 1 \/ k = 2 \/ k = 3 \/ k = 4 \/ k = 5 \/ k = 6
               \/ k = 7 \/ k = 8 \/ k = 9)%Z) by lia.
  repeat (destruct E as [->|E]; [reflexivity|]). subst k. reflexivity.
Qed.

Lemma four_pad4 y rest :
  (0 <= y <= 9999)%Z -> Date.four (Date.pad4 y +:+ rest) = Some (y, rest).
Proof.
  intros H. unfold Date.pad4.
  change (Date.four
            (String (Date.digit_char (y / 1000))
               (String (Date.digit_char (y / 100 mod 10))
                  (String (Date.digit_char (y / 10 mod 10))
                     (String (Date.digit_char (y mod 10)) rest))))
          = Some (y, rest)).
  unfold Date.four.
  rewrite !digit_of_digit_char by (Z.to_euclidean_division_equations; lia).
  do 2 f_equal. Z.to_euclidean_division_equations. lia.
Qed.

(** From year 1000 on [%Y] prints four digits. *)
Lemma year_digits_four y : (1000 <= y)%Z -> Date.year_digits y = Date.pad4 y.
Proof.
  intros H. unfold Date.year_digits.
  destruct (Z.ltb_spec y 10); [lia|]. destruct (Z.ltb_spec y 100); [lia|].
  destruct (Z.ltb_spec y 1000); [lia | reflexivity].
Qed.

Lemma Z_range_nat (P : Z -> Prop) (lo : Z) (n : nat) :
  (forall i, (i < n)%nat -> P (lo + Z.of_nat i)%Z) ->
  forall z, (lo <= z < lo + Z.of_nat n)%Z -> P z.
Proof.
  intros H z Hz. replace z with (lo + Z.of_nat (Z.to_nat (z - lo)))%Z by lia.
  apply H. lia.
Qed.

(** Months and days written with two digits are read back, in the compact
    and in the dashed format. *)
Lemma matches_month_day y m d :
  (1 <= m <= 12)%Z -> (1 <= d <= 31)%Z ->
  List.hd_error
    (Date.matches [Date.Dm; Date.Dd] (Date.Datetime y 1 1)
       (Date.pad2 m +:+ Date.pad2 d))
  = Some (Date.Datetime y m d, "")
  /\ List.hd_error
       (Date.matches [Date.Lit "-"; Date.Dm; Date.Lit "-"; Date.Dd]
          (Date.Datetime y 1 1)
          ("-" +:+ Date.pad2 m +:+ "-" +:+ Date.pad2 d))
     = Some (Date.Datetime y m d, "").
Proof.
  intros Hm Hd. revert d Hd. pattern m. apply (Z_range_nat _ 1 12); [|lia].
  clear m Hm. intros i Hi d Hd. pattern d. apply (Z_range_nat _ 1 31); [|lia].
  clear d Hd. intros j Hj.
  do 12 (destruct i as [|i];
         [do 31 (destruct j as [|j]; [vm_compute; split; reflexivity|]); lia|]).
  lia.
Qed.

Lemma strptime_head s fmt t :
  List.hd_error (Date.matches fmt (Date.Datetime 1900 1 1) s) = Some (t, "") ->
  Date.valid (Date.year t) (Date.month t) (Date.day t) = true ->
  Date.strptime s fmt = Ok t.
Proof.
  unfold Date.strptime. destruct (Date.matches _ _ s) as [|[t' r] l]; [discriminate|].
  cbn [List.hd_error]. intros H Hv. injection H as -> ->. rewrite Hv. reflexivity.
Qed.

Lemma valid_bounds y m d :
  Date.valid y m d = true ->
  (1 <= y <= 9999 /\ 1 <= m <= 12 /\ 1 <= d <= 31)%Z.
Proof.
  unfold Date.valid. rewrite !andb_true_iff, !Z.leb_le.
  intros (((((H1 & H2) & H3) & H4) & H5) & H6).
  assert (Date.days_in_month y m <= 31)%Z.
  { unfold Date.days_in_month. repeat match goal with |- context [if ?b then _ else _] => destruct b end; lia. }
  lia.
Qed.

Section strptime.
Context (t : Date.datetime).
Hypothesis t_valid : Date.valid (Date.year t) (Date.month t) (Date.day t) = true.
Hypothesis t_four : (1000 <= Date.year t)%Z.

(** The compact form [%Y%m%d] of a date is read back. *)
Lemma strptime_compact :
  Date.strptime (Date.strftime_compact t) Date.fmt_compact = Ok t.
Proof using t_valid t_four.
  destruct t as [y m d]. cbn [Date.year Date.month Date.day] in *.
  destruct (valid_bounds _ _ _ t_valid) as (Hy & Hm & Hd).
  apply strptime_head; [|exact t_valid].
  unfold Date.fmt_compact, Date.strftime_compact.
  cbn [Date.year Date.month Date.day]. rewrite year_digits_four by exact t_four.
  change (Date.matches (Date.DY :: [Date.Dm; Date.Dd]) (Date.Datetime 1900 1 1)
            (Date.pad4 y +:+ Date.pad2 m +:+ Date.pad2 d))
    with (match Date.four (Date.pad4 y +:+ Date.pad2 m +:+ Date.pad2 d) with
          | Some (v, rest) =>
              Date.matches [Date.Dm; Date.Dd] (Date.Datetime v 1 1) rest
          | None => []
          end ++ []).
  rewrite four_pad4 by lia. rewrite app_nil_r.
  apply (matches_month_day y m d Hm Hd).
Qed.

(** The dashed form [%Y-%m-%d] of a date is read back. *)
Lemma strptime_dashed :
  Date.strptime (Date.strftime_dashed t) Date.fmt_dashed = Ok t.
Proof using t_valid t_four.
  destruct t as [y m d]. cbn [Date.year Date.month Date.day] in *.
  destruct (valid_bounds _ _ _ t_valid) as (Hy & Hm & Hd).
  apply strptime_head; [|exact t_valid].
  unfold Date.fmt_dashed, Date.strftime_dashed.
  cbn [Date.year Date.month Date.day]. rewrite year_digits_four by exact t_four.
  change (Date.matches
            (Date.DY :: [Date.Lit "-"; Date.Dm; Date.Lit "-"; Date.Dd])
            (Date.Datetime 1900 1 1)
            (Date.pad4 y +:+ "-" +:+ Date.pad2 m +:+ "-" +:+ Date.pad2 d))
    with (match Date.four
                  (Date.pad4 y +:+ "-" +:+ Date.pad2 m +:+ "-" +:+ Date.pad2 d) with
          | Some (v, rest) =>
              Date.matches [Date.Lit "-"; Date.Dm; Date.Lit "-"; Date.Dd]
                (Date.Datetime v 1 1) rest
          | None => []
          end ++ []).
  rewrite four_pad4 by lia. rewrite app_nil_r.
  apply (matches_month_day y m d Hm Hd).
Qed.

(** The dashed form does not match the compact format. *)
Lemma strptime_compact_of_dashed :
  Date.strptime (Date.strftime_dashed t) Date.fmt_compact = Raise ValueError.
Proof using t_valid t_four.
  destruct t as [y m d]. cbn [Date.year Date.month Date.day] in *.
  destruct (valid_bounds _ _ _ t_valid) as (Hy & Hm & Hd).
  unfold Date.strptime, Date.fmt_compact, Date.strftime_dashed.
  cbn [Date.year Date.month Date.day]. rewrite year_digits_four by exact t_four.
  change (Date.matches (Date.DY :: [Date.Dm; Date.Dd]) (Date.Datetime 1900 1 1)
            (Date.pad4 y +:+ "-" +:+ Date.pad2 m +:+ "-" +:+ Date.pad2 d))
    with (match Date.four
                  (Date.pad4 y +:+ "-" +:+ Date.pad2 m +:+ "-" +:+ Date.pad2 d) with
          | Some (v, rest) =>
              Date.matches [Date.Dm; Date.Dd] (Date.Datetime v 1 1) rest
          | None => []
          end ++ []).
  rewrite four_pad4 by lia. reflexivity.
Qed.
End strptime.

Lemma days_before_month_step y m :
  (2 <= m <= 12)%Z ->
  Date.days_before_month y m
  = (Date.days_before_month y (m - 1) + Date.days_in_month y (m - 1))%Z.
Proof.
  intros Hm. unfold Date.days_before_month, Date.days_in_month.
  assert (E : (m = 2 \/ m = 3 \/ m = 4 \/ m = 5 \/ m = 6 \/ m = 7 \/ m = 8
               \/ m = 9 \/ m = 10 \/ m = 11 \/ m = 12)%Z) by lia.
  destruct (Date.is_leap y);
    repeat (destruct E as [->|E]; [vm_compute; reflexivity|]);
    subst m; vm_compute; reflexivity.
Qed.

(** The day before a date is a date, one ordinal earlier; only 0001-01-01
    has none. *)
Lemma minus_one_day_spec t :
  Date.valid (Date.year t) (Date.month t) (Date.day t) = true ->
  (2 <= Date.year t)%Z ->
  exists t',
    Date.minus_one_day t = Ok t'
    /\ Date.valid (Date.year t') (Date.month t') (Date.day t') = true
    /\ Date.toordinal t' = (Date.toordinal t - 1)%Z
    /\ (1 <= Date.year t')%Z.
Proof.
  destruct t as [y m d]. cbn [Date.year Date.month Date.day].
  intros Hv Hy. pose proof (valid_bounds _ _ _ Hv) as (By & Bm & Bd).
  unfold Date.valid in Hv. rewrite !andb_true_iff, !Z.leb_le in Hv.
  destruct Hv as (_ & Hd).
  unfold Date.minus_one_day. cbn [Date.year Date.month Date.day].
  destruct (Z.ltb_spec 1 d) as [Hd1|Hd1].
  - eexists. split; [reflexivity|]. cbn [Date.year Date.month Date.day].
    repeat split; [|unfold Date.toordinal; cbn; lia | lia].
    unfold Date.valid. rewrite !andb_true_iff, !Z.leb_le. lia.
  - assert (d = 1%Z) by lia. subst d.
    destruct (Z.ltb_spec 1 m) as [Hm1|Hm1].
    + eexists. split; [reflexivity|]. cbn [Date.year Date.month Date.day].
      repeat split; [| |lia].
      * unfold Date.valid. rewrite !andb_true_iff, !Z.leb_le.
        assert (28 <= Date.days_in_month y (m - 1))%Z.
        { unfold Date.days_in_month.
          repeat match goal with |- context [if ?b then _ else _] => destruct b end; lia. }
        lia.
      * unfold Date.toordinal. cbn [Date.year Date.month Date.day].
        rewrite (days_before_month_step y m) by lia. lia.
    + assert (m = 1%Z) by lia. subst m.
      destruct (Z.ltb_spec 1 y) as [Hy1|Hy1]; [|lia].
      eexists. split; [reflexivity|]. cbn [Date.year Date.month Date.day].
      repeat split; [| |lia].
      * unfold Date.valid. rewrite !andb_true_iff, !Z.leb_le.
        change (Date.days_in_month (y - 1) 12) with 31%Z. lia.
      * unfold Date.toordinal. cbn [Date.year Date.month Date.day].
        assert (E12 : Date.days_before_month (y - 1) 12
                      = (334 + if Date.is_leap (y - 1) then 1 else 0)%Z)
          by (unfold Date.days_before_month; destruct (Date.is_leap (y - 1));
              reflexivity).
        assert (E1 : Date.days_before_month y 1 = 0%Z)
          by (unfold Date.days_before_month; destruct (Date.is_leap y);
              reflexivity).
        rewrite E12, E1. unfold Date.days_before_year, Date.is_leap.
        destruct ((y - 1) mod 4 =? 0)%Z eqn:E4;
          destruct ((y - 1) mod 100 =? 0)%Z eqn:E100;
          destruct ((y - 1) mod 400 =? 0)%Z eqn:E400;
          cbn [andb orb negb];
          rewrite ?Z.eqb_eq, ?Z.eqb_neq in *;
          Z.to_euclidean_division_equations; lia.
Qed.

(** ** Start bookmark and end date *)

Lemma truthy_pad4 y rest : truthy (Some (Date.pad4 y +:+ rest)) = true.
Proof. reflexivity. Qed.

Lemma truthy_year_digits y rest : truthy (Some (Date.year_digits y +:+ rest)) = true.
Proof.
  unfold Date.year_digits.
  repeat match goal with |- context [if ?b then _ else _] => destruct b end;
    reflexivity.
Qed.

Section state_filter.
Context (self : stream) (t : Date.datetime).
Hypothesis t_valid : Date.valid (Date.year t) (Date.month t) (Date.day t) = true.
Hypothesis t_four : (1000 <= Date.year t)%Z.

Lemma state_filter_compact :
  _get_state_filter self (Some (Date.strftime_compact t))
  = Ok (Date.strftime_dashed t).
Proof using t_valid t_four.
  unfold _get_state_filter.
  unfold Date.strftime_compact at 1. rewrite truthy_year_digits.
  fold (Date.strftime_compact t).
  cbn [res_bind default from_option id negb].
  rewrite strptime_compact by assumption.
  reflexivity.
Qed.

Lemma state_filter_dashed :
  _get_state_filter self (Some (Date.strftime_dashed t))
  = Ok (Date.strftime_dashed t).
Proof using t_valid t_four.
  unfold _get_state_filter.
  unfold Date.strftime_dashed at 1. rewrite truthy_year_digits.
  fold (Date.strftime_dashed t).
  cbn [res_bind default from_option id negb].
  rewrite strptime_compact_of_dashed, strptime_dashed by assumption.
  reflexivity.
Qed.
End state_filter.

(** Without a bookmark in the state the configured start date is used. *)
Lemma state_filter_fallback self s :
  cfg_start_date (cfg self) = Some s ->
  _get_state_filter self None = _get_state_filter self (Some s).
Proof.
  intros H. unfold _get_state_filter. cbn [truthy]. rewrite H.
  destruct s; reflexivity.
Qed.

(** The end date of the stream is the configured end date minus one day. *)
Lemma get_end_date_spec config utcnow t :
  Date.valid (Date.year t) (Date.month t) (Date.day t) = true ->
  (1000 <= Date.year t)%Z ->
  cfg_end_date config = Some (Date.strftime_dashed t) ->
  exists t',
    Date.minus_one_day t = Ok t'
    /\ Date.toordinal t' = (Date.toordinal t - 1)%Z
    /\ _get_end_date config utcnow = Ok (Date.strftime_dashed t').
Proof.
  intros Hv Hy Hc.
  destruct (minus_one_day_spec t Hv ltac:(lia)) as (t' & H1 & _ & H3 & _).
  exists t'. repeat split; [exact H1 | exact H3 |].
  unfold _get_end_date. rewrite Hc. cbn [default from_option id].
  rewrite strptime_dashed by assumption. cbn [res_bind]. rewrite H1. reflexivity.
Qed.

(** The request body carries the start bookmark and the end date. *)
Lemma query_body_dates self def sf tok body :
  query_body self def sf tok = Ok body ->
  date_ranges body = one_range sf (end_date self).
Proof.
  unfold query_body.
  destruct (Dict.get "metrics" def); [|discriminate].
  destruct (Dict.get "dimensions" def); [|discriminate].
  intros H. injection H as <-. unfold date_ranges.
  cbn [Dict.get String.eqb Ascii.eqb Bool.eqb fold_left].
  rewrite !get_opt_set_ne by discriminate. reflexivity.
Qed.

Section dated.
Context (analytics : nat -> nat -> json -> res response).
Context (py_int : string -> option Z) (py_float_ok : string -> bool).
Context (self : stream) (sf : string) (page_size : Z) (max_records : option Z).

Lemma loop_body_dated v w :
  dated self sf w ->
  dated self sf
    (fst (loop_body analytics py_int py_float_ok self
            (_generate_report_definition (report self)) sf page_size max_records
            v w)).
Proof.
  intros [Hs Hy]. unfold loop_body. rewrite bind_eq.
  destruct (query_body_generated self (report self) sf (next_page_token v))
    as [b Hb].
  destruct (_request_data_spec analytics self _ sf (next_page_token v) b Hb w)
    as (_ & R2 & _ & R4 & _).
  assert (D1 : dated self sf
                 (fst (_request_data analytics self
                         (_generate_report_definition (report self)) sf
                         (next_page_token v) w))).
  { split; [rewrite R2 | rewrite R4; exact Hy].
    apply Forall_app. split; [exact Hs|]. constructor; [|constructor].
    apply Forall_forall. intros x Hx. apply list_elem_of_In, repeat_spec in Hx. subst x.
    eapply query_body_dates. exact Hb. }
  destruct (_request_data _ _ _ _ _ w) as [w1 [resp|e]]; cbn [fst] in *;
    [|exact D1].
  rewrite bind_eq.
  destruct (quiet_parse_response py_int py_float_ok self resp w1)
    as (Q1 & _ & new & Q3 & Q4).
  assert (D2 : dated self sf
                 (fst (_parse_response py_int py_float_ok self resp w1))).
  { destruct D1 as [D1s D1y]. split; [rewrite Q1; exact D1s|].
    rewrite Q3. apply Forall_app. auto. }
  destruct (_parse_response py_int py_float_ok self resp w1) as [w2 [[]|e]];
    cbn [fst] in *; [|exact D2].
  destruct (truthy _ && token_eqb _ _); [exact D2|]. exact D2.
Qed.

Lemma while_dated fuel : forall v w,
  dated self sf w ->
  dated self sf
    (fst (while_not_finished fuel
            (loop_body analytics py_int py_float_ok self
               (_generate_report_definition (report self)) sf page_size
               max_records)
            v w)).
Proof.
  induction fuel as [|fuel IH]; intros v w Hw; cbn [while_not_finished].
  - destruct (finished v); exact Hw.
  - destruct (finished v); [exact Hw|]. rewrite bind_eq.
    pose proof (loop_body_dated v w Hw) as Hb.
    destruct (loop_body _ _ _ _ _ _ _ _ v w) as [w' [v'|e]]; cbn [fst] in Hb.
    + apply IH. exact Hb.
    + exact Hb.
Qed.
End dated.


(** * Further properties of the column renaming *)

(** A name without upper-case letters has no occurrence of ["Ga:"]. *)
Lemma no_upper_no_Ga x : no_upper x = true -> Py.contains x "Ga:" = false.
Proof.
  induction x as [|c x IH]; [reflexivity|]. cbn [no_upper].
  intros H. apply andb_true_iff in H as [Hc Hx]. apply negb_true_iff in Hc.
  rewrite contains_cons, IH by exact Hx. rewrite orb_false_r.
  change (Py.startswith (String c x) "Ga:")
    with (Ascii.eqb "G" c && Py.startswith x "a:").
  destruct (Ascii.eqb_spec "G" c) as [<-|]; [discriminate Hc | reflexivity].
Qed.

(** Replacing ["ga" ++ c1] by ["ga" ++ c2] and then back gives the string
    again, when it had no ["ga" ++ c2] to start with. *)
Lemma replace_round_trip c1 c2 s :
  Py.contains s (String "g" (String "a" (String c2 ""))) = false ->
  Py.replace
    (Py.replace s (String "g" (String "a" (String c1 "")))
       (String "g" (String "a" (String c2 ""))))
    (String "g" (String "a" (String c2 "")))
    (String "g" (String "a" (String c1 ""))) = s.
Proof.
  induction s as [|s IH|c s Hskip IH] using (replace_ind c1); intros H.
  - reflexivity.
  - rewrite (replace_ga_match c1 c2), (replace_ga_match c2 c1). do 3 f_equal. apply IH.
    rewrite !contains_cons in H. apply orb_false_iff in H as [_ H].
    apply orb_false_iff in H as [_ H]. apply orb_false_iff in H as [_ H]. exact H.
  - rewrite contains_cons in H. apply orb_false_iff in H as [H1 H2].
    rewrite (replace_ga_skip c1 c2) by assumption.
    rewrite (replace_ga_skip c2 c1).
    + f_equal. apply IH, H2.
    + rewrite startswith_cons in *. rewrite (replace_ga_head2 c1 c2). exact H1.
Qed.

Lemma replace_no_upper c1 c2 s :
  Py.isupper c2 = false -> no_upper s = true ->
  no_upper (Py.replace s (String "g" (String "a" (String c1 "")))
              (String "g" (String "a" (String c2 "")))) = true.
Proof.
  intros Hc. apply no_upper_pointwise with (c1 := c1) (c2 := c2); [exact Hc|].
  apply replace_ga_pointwise.
Qed.

(** On a lower-case name without a leading underscore the renaming is the
    replacement of ["ga:"] alone. *)
Lemma normalize_lower x :
  no_upper x = true -> Py.startswith x "_" = false ->
  _normalize_colname x = Py.replace x "ga:" "ga_".
Proof.
  intros Hu Hs. rewrite normalize_colname_eq.
  rewrite join_camel_id by (apply (replace_no_upper ":" "_"); [reflexivity | exact Hu]).
  apply lstrip_id.
  change (Py.replace x "ga:" "ga_")
    with (Py.replace x (String "g" (String "a" (String ":" "")))
            (String "g" (String "a" (String "_" "")))).
  rewrite (replace_ga_head ":" "_"). exact Hs.
Qed.

(** X1: whatever the name, the column it is renamed to has no upper-case
    letter and does not begin with an underscore. *)
Theorem normalize_colname_shape (colname : string) :
  no_upper (_normalize_colname colname) = true
  /\ Py.startswith (_normalize_colname colname) "_" = false.
Proof.
  rewrite normalize_colname_eq. split.
  - apply lstrip_no_upper, join_camel_no_upper.
  - apply lstrip_head.
Qed.

(** X2: among the ASCII names, those the renaming leaves as they are are
    exactly the names that are lower-case already, do not begin with an
    underscore and have no occurrence of ["ga:"]. *)
Theorem normalize_colname_fixed_points (colname : string) :
  Py.isascii colname = true ->
  _normalize_colname colname = colname
  <-> no_upper colname = true
      /\ Py.startswith colname "_" = false
      /\ Py.contains colname "ga:" = false.
Proof.
  intros _. split.
  - intros E.
    assert (Hu : no_upper colname = true).
    { rewrite <- E. rewrite normalize_colname_eq.
      apply lstrip_no_upper, join_camel_no_upper. }
    repeat apply conj.
    + exact Hu.
    + rewrite <- E. rewrite normalize_colname_eq. apply lstrip_head.
    + rewrite <- E. apply normalize_no_ga_colon, no_upper_no_Ga, Hu.
  - intros (Hu & Hs & Hc). rewrite normalize_lower by assumption.
    apply (replace_ga_id ":" "_"). exact Hc.
Qed.

Lemma normalize_colname_fixed_points_witness :
  (_normalize_colname "ga_country" = "ga_country"
   <-> no_upper "ga_country" = true
       /\ Py.startswith "ga_country" "_" = false
       /\ Py.contains "ga_country" "ga:" = false)
  /\ _normalize_colname "ga_country" = "ga_country"
  /\ _normalize_colname "ga:country" <> "ga:country".
Proof.
  pose proof (normalize_colname_fixed_points "ga_country" eq_refl) as H1.
  pose proof (normalize_colname_fixed_points "ga:country" eq_refl) as H2.
  split; [exact H1|]. split.
  - apply H1. repeat split.
  - intros E. apply H2 in E as (_ & _ & E). discriminate E.
Defined.

(** X3: the report builder undoes the renaming of a lower-case API name:
    for an ASCII name without upper-case letter, leading underscore or
    ["ga_"], turning the ["ga_"] of its column back into ["ga:"] gives the
    name again. *)
Theorem column_alias_round_trip (colname : string) :
  Py.isascii colname = true ->
  no_upper colname = true ->
  Py.startswith colname "_" = false ->
  Py.contains colname "ga_" = false ->
  Py.replace (_normalize_colname colname) "ga_" "ga:" = colname.
Proof.
  intros _ Hu Hs Hc. rewrite normalize_lower by assumption.
  apply (replace_round_trip ":" "_"). exact Hc.
Qed.

Lemma column_alias_round_trip_witness :
  Py.replace (_normalize_colname "ga:date") "ga_" "ga:" = "ga:date".
Proof.
  apply (column_alias_round_trip "ga:date"); reflexivity.
Defined.

(** X4: an ASCII name with an upper-case letter is not recovered from its
    column: the column is lower-case, and so is what the builder makes of
    it. *)
Theorem column_alias_lossy (colname : string) :
  Py.isascii colname = true ->
  no_upper colname = false ->
  Py.replace (_normalize_colname colname) "ga_" "ga:" <> colname.
Proof.
  intros _ Hu E.
  assert (H : no_upper (Py.replace (_normalize_colname colname) "ga_" "ga:") = true).
  { apply (replace_no_upper "_" ":"); [reflexivity|].
    rewrite normalize_colname_eq. apply lstrip_no_upper, join_camel_no_upper. }
  rewrite E in H. congruence.
Qed.

Lemma column_alias_lossy_witness :
  Py.replace (_normalize_colname "ga:sessionsPerUser") "ga_" "ga:"
  <> "ga:sessionsPerUser".
Proof.
  apply (column_alias_lossy "ga:sessionsPerUser"); reflexivity.
Defined.

(** * Further properties of the report definition builder *)

Lemma sublist_present {V} k (o : option V) l1 l2 :
  l1 `sublist_of` l2 -> (present k o ++ l1) `sublist_of` (k :: l2).
Proof.
  intros H. destruct o; cbn [present app].
  - apply sublist_skip, H.
  - apply sublist_cons, H.
Qed.

Lemma keys_set_fresh {V} k (v : V) d :
  Dict.get k d = None -> Dict.keys (Dict.set k v d) = Dict.keys d ++ [k].
Proof.
  intros H. rewrite set_fresh by exact H. unfold Dict.keys. rewrite map_app.
  reflexivity.
Qed.

(** The page size of a built definition is the one of the specification. *)
Lemma get_generated_page_size raw :
  Dict.get "page_size" (_generate_report_definition raw)
  = option_map JInt (r_page_size raw).
Proof.
  unfold _generate_report_definition.
  rewrite !get_opt_set_ne by discriminate.
  destruct (r_page_size raw); [apply get_set_eq|].
  cbn [opt_set fold_left]. rewrite !get_opt_set_ne by discriminate.
  rewrite !add_filter_clauses_eq.
  destruct (raw_filter_clauses "metric" raw), (raw_filter_clauses "dimension" raw);
    rewrite ?(get_set_ne "page_size" ("metric" +:+ "FilterClauses")) by discriminate;
    rewrite ?(get_set_ne "page_size" ("dimension" +:+ "FilterClauses")) by discriminate;
    rewrite ?get_opt_set_ne by discriminate; reflexivity.
Qed.

(** X5: the keys of a report definition are [metrics] and [dimensions],
    then the optional keys the specification has, in the order the builder
    visits them; no key comes twice.  Segments are wrapped one by one, the
    sampling level and the two paging overrides are copied as they are. *)
Theorem report_definition_optional_keys (raw : report_spec) :
  let definition := _generate_report_definition raw in
  Dict.keys definition
  = ["metrics"; "dimensions"]
    ++ present "segments" (r_segments raw)
    ++ present "samplingLevel" (r_samplingLevel raw)
    ++ present "dimensionFilterClauses" (r_dimensionFilterClauses raw)
    ++ present "metricFilterClauses" (r_metricFilterClauses raw)
    ++ present "orderBys" (r_orderBys raw)
    ++ present "page_size" (r_page_size raw)
    ++ present "max_records" (r_max_records raw)
  /\ Dict.wf definition
  /\ Dict.get "segments" definition
     = option_map
         (fun ids => JList (map (fun segment_id => JDict [("segmentId", segment_id)]) ids))
         (r_segments raw)
  /\ Dict.get "samplingLevel" definition = r_samplingLevel raw
  /\ Dict.get "page_size" definition = option_map JInt (r_page_size raw)
  /\ Dict.get "max_records" definition = option_map JInt (r_max_records raw).
Proof.
  cbv zeta.
  assert (K : Dict.keys (_generate_report_definition raw)
    = ["metrics"; "dimensions"]
      ++ present "segments" (r_segments raw)
      ++ present "samplingLevel" (r_samplingLevel raw)
      ++ present "dimensionFilterClauses" (r_dimensionFilterClauses raw)
      ++ present "metricFilterClauses" (r_metricFilterClauses raw)
      ++ present "orderBys" (r_orderBys raw)
      ++ present "page_size" (r_page_size raw)
      ++ present "max_records" (r_max_records raw)).
  { unfold _generate_report_definition, add_filter_clauses, raw_filter_clauses.
    cbn [fold_left String.eqb Ascii.eqb Bool.eqb].
    destruct (r_segments raw), (r_samplingLevel raw), (r_dimensionFilterClauses raw),
      (r_metricFilterClauses raw), (r_orderBys raw), (r_page_size raw),
      (r_max_records raw); reflexivity. }
  repeat apply conj.
  - exact K.
  - unfold Dict.wf. rewrite K.
    assert (N : NoDup ["metrics"; "dimensions"; "segments"; "samplingLevel";
                       "dimensionFilterClauses"; "metricFilterClauses"; "orderBys";
                       "page_size"; "max_records"]).
    { repeat (apply NoDup_cons; split;
              [rewrite list_elem_of_In; cbn; intuition discriminate|]).
      apply NoDup_nil_2. }
    eapply sublist_NoDup; [exact N|].
    cbn [app]. do 2 apply sublist_skip.
    rewrite <- (app_nil_r (present "max_records" (r_max_records raw))).
    repeat apply sublist_present. apply sublist_nil.
  - unfold _generate_report_definition.
    rewrite !get_opt_set_ne by discriminate.
    cbn [fold_left]. rewrite !add_filter_clauses_eq.
    destruct (raw_filter_clauses "metric" raw), (raw_filter_clauses "dimension" raw);
      rewrite ?(get_set_ne "segments" ("metric" +:+ "FilterClauses")) by discriminate;
      rewrite ?(get_set_ne "segments" ("dimension" +:+ "FilterClauses")) by discriminate;
      rewrite ?get_opt_set_ne by discriminate;
      destruct (r_segments raw); reflexivity.
  - unfold _generate_report_definition.
    rewrite !get_opt_set_ne by discriminate.
    cbn [fold_left]. rewrite !add_filter_clauses_eq.
    destruct (raw_filter_clauses "metric" raw), (raw_filter_clauses "dimension" raw);
      rewrite ?(get_set_ne "samplingLevel" ("metric" +:+ "FilterClauses")) by discriminate;
      rewrite ?(get_set_ne "samplingLevel" ("dimension" +:+ "FilterClauses"))
        by discriminate;
      (destruct (r_samplingLevel raw);
       [apply get_set_eq
       | cbn [opt_set]; rewrite ?get_opt_set_ne by discriminate; reflexivity]).
  - apply get_generated_page_size.
  - unfold _generate_report_definition.
    destruct (r_max_records raw); [apply get_set_eq|].
    cbn [opt_set fold_left]. rewrite !get_opt_set_ne by discriminate.
    rewrite !add_filter_clauses_eq.
    destruct (raw_filter_clauses "metric" raw), (raw_filter_clauses "dimension" raw);
      rewrite ?(get_set_ne "max_records" ("metric" +:+ "FilterClauses")) by discriminate;
      rewrite ?(get_set_ne "max_records" ("dimension" +:+ "FilterClauses"))
        by discriminate;
      rewrite ?get_opt_set_ne by discriminate; reflexivity.
Qed.

(** [{**d1, **d2}] looks a key up in [d2] first. *)
Lemma get_merge {V} k (d1 d2 : pydict V) :
  Dict.wf d2 ->
  Dict.get k (Dict.merge d1 d2)
  = match Dict.get k d2 with
    | Some v => Some v
    | None => Dict.get k d1
    end.
Proof.
  unfold Dict.merge, Dict.wf. revert d1.
  induction d2 as [|[k' v'] d2 IH]; intros d1 Hwf; [reflexivity|].
  cbn [Dict.keys map fst] in Hwf. apply NoDup_cons in Hwf as [Hk Hwf].
  rewrite list_elem_of_In in Hk.
  cbn [fold_left fst snd Dict.get]. rewrite IH by exact Hwf.
  destruct (String.eqb_spec k' k) as [->|Hne].
  - apply get_None_not_in in Hk. rewrite Hk. apply get_set_eq.
  - rewrite get_set_ne by congruence. reflexivity.
Qed.

(** The filter clauses of a built definition, for either kind. *)
Lemma get_generated_filters raw key clauses :
  In key ["dimension"; "metric"] ->
  raw_filter_clauses key raw = Some clauses ->
  Dict.wf clauses ->
  Dict.get (key +:+ "FilterClauses") (_generate_report_definition raw)
  = Some (JList (map (filter_entry (key +:+ "Name")) clauses)).
Proof.
  intros Hkey Hc Hwf. unfold _generate_report_definition.
  destruct Hkey as [<-|[<-|[]]].
  - rewrite !get_opt_set_ne by discriminate.
    cbn [fold_left]. rewrite !add_filter_clauses_eq. rewrite Hc.
    destruct (raw_filter_clauses "metric" raw).
    + rewrite (get_set_ne ("dimension" +:+ "FilterClauses")
                 ("metric" +:+ "FilterClauses")) by discriminate.
      rewrite (get_set_eq ("dimension" +:+ "FilterClauses")).
      rewrite filter_entries_items by exact Hwf. reflexivity.
    + rewrite (get_set_eq ("dimension" +:+ "FilterClauses")).
      rewrite filter_entries_items by exact Hwf. reflexivity.
  - rewrite !get_opt_set_ne by discriminate.
    cbn [fold_left]. rewrite (add_filter_clauses_eq _ _ "metric"). rewrite Hc.
    rewrite (get_set_eq ("metric" +:+ "FilterClauses")).
    rewrite filter_entries_items by exact Hwf. reflexivity.
Qed.

(** X6: a filter payload that has its own name field overrides the key it
    is filed under: the filter sent for the clause is, key for key, the
    payload, and the key of the clause is not in it. *)
Theorem filter_payload_overrides_name
    (raw : report_spec) (key : string) (clauses : pydict (pydict json))
    (clause : string) (payload : pydict json) (v : json) :
  In key ["dimension"; "metric"] ->
  raw_filter_clauses key raw = Some clauses ->
  Dict.wf clauses ->
  In (clause, payload) clauses ->
  Dict.wf payload ->
  Dict.get (key +:+ "Name") payload = Some v ->
  exists filter,
    In (JDict [("filters", JDict filter)])
       (entries (Dict.get (key +:+ "FilterClauses") (_generate_report_definition raw)))
    /\ forall k, Dict.get k filter = Dict.get k payload.
Proof.
  intros Hkey Hc Hwf Hin Hp Hv.
  rewrite (get_generated_filters raw key clauses Hkey Hc Hwf). cbn [entries].
  exists (Dict.merge [(key +:+ "Name", JStr clause)] payload). split.
  - apply in_map_iff. exists (clause, payload). split; [reflexivity | exact Hin].
  - intros k. rewrite get_merge by exact Hp.
    destruct (Dict.get k payload) eqn:E; [reflexivity|].
    cbn [Dict.get]. destruct (String.eqb_spec (key +:+ "Name") k) as [<-|]; congruence.
Qed.

Lemma filter_payload_overrides_name_witness :
  exists filter,
    In (JDict [("filters", JDict filter)])
       (entries
          (Dict.get "dimensionFilterClauses"
             (_generate_report_definition
                (named_filter_report "ga:country" "ga:city"))))
    /\ Dict.get "dimensionName" filter = Some (JStr "ga:city").
Proof.
  destruct (filter_payload_overrides_name
              (named_filter_report "ga:country" "ga:city") "dimension"
              [("ga:country",
                [("dimensionName", JStr "ga:city"); ("operator", JStr "EXACT")])]
              "ga:country"
              [("dimensionName", JStr "ga:city"); ("operator", JStr "EXACT")]
              (JStr "ga:city"))
    as (filter & Hin & Hget).
  - left. reflexivity.
  - reflexivity.
  - repeat constructor. apply not_elem_of_nil.
  - left. reflexivity.
  - repeat constructor; rewrite list_elem_of_In; cbn; intuition discriminate.
  - reflexivity.
  - exists filter. split; [exact Hin|]. rewrite Hget. reflexivity.
Defined.

(** * Further properties of the request body *)

Lemma get_opt_set_id k d (def : pydict json) :
  Dict.get k d = None ->
  Dict.get k (opt_set k (Dict.get k def) id d) = Dict.get k def.
Proof.
  intros H. destruct (Dict.get k def); [apply get_set_eq | exact H].
Qed.

(** X7: the request of a page is built from the stream's report
    definition without fail.  It carries the view, the cursor given, the
    page size by which the engine counts, and the definition's metrics,
    dimensions, segments, filters, orderings and sampling level as they
    are; the paging overrides [page_size] and [max_records] are not sent. *)
Theorem request_body_of_definition
    (self : stream) (state_filter : string) (pageToken : option string) :
  let definition := _generate_report_definition (report self) in
  exists body,
    query_body self definition state_filter pageToken = Ok body
    /\ Dict.get "viewId" (report_request body) = Some (JStr (view_id self))
    /\ Dict.get "pageSize" (report_request body) = Some (JInt (report_page_size self))
    /\ Dict.get "pageToken" (report_request body) = Some (token_json pageToken)
    /\ (forall k,
          In k ["metrics"; "dimensions"; "segments"; "dimensionFilterClauses";
                "metricFilterClauses"; "orderBys"; "samplingLevel"] ->
          Dict.get k (report_request body) = Dict.get k definition)
    /\ Dict.get "page_size" (report_request body) = None
    /\ Dict.get "max_records" (report_request body) = None.
Proof.
  cbv zeta. unfold query_body.
  destruct (get_generated_metrics (report self)) as [m Hm].
  destruct (get_generated_dimensions (report self)) as [d Hd].
  rewrite Hm, Hd. eexists. split; [reflexivity|].
  unfold report_request.
  cbn [Dict.get String.eqb Ascii.eqb Bool.eqb fold_left].
  repeat apply conj.
  - rewrite !get_opt_set_ne by discriminate. reflexivity.
  - rewrite !get_opt_set_ne by discriminate.
    cbn [Dict.get String.eqb Ascii.eqb Bool.eqb]. rewrite get_generated_page_size.
    unfold report_page_size. destruct (r_page_size (report self)); reflexivity.
  - rewrite !get_opt_set_ne by discriminate. reflexivity.
  - intros k [<-|[<-|[<-|[<-|[<-|[<-|[<-|[]]]]]]]].
    + rewrite !get_opt_set_ne by discriminate. rewrite Hm. reflexivity.
    + rewrite !get_opt_set_ne by discriminate. rewrite Hd. reflexivity.
    + rewrite !(get_opt_set_ne "segments") by discriminate.
      apply get_opt_set_id. reflexivity.
    + rewrite !(get_opt_set_ne "dimensionFilterClauses") by discriminate.
      apply get_opt_set_id. rewrite !get_opt_set_ne by discriminate. reflexivity.
    + rewrite !(get_opt_set_ne "metricFilterClauses") by discriminate.
      apply get_opt_set_id. rewrite !get_opt_set_ne by discriminate. reflexivity.
    + rewrite !(get_opt_set_ne "orderBys") by discriminate.
      apply get_opt_set_id. rewrite !get_opt_set_ne by discriminate. reflexivity.
    + apply get_opt_set_id. rewrite !get_opt_set_ne by discriminate. reflexivity.
  - rewrite !get_opt_set_ne by discriminate. reflexivity.
  - rewrite !get_opt_set_ne by discriminate. reflexivity.
Qed.

(** * Further properties of the remote call *)

Lemma sum_expo n :
  fold_right Z.add 0%Z (map expo (seq 0 n)) = (2 ^ Z.of_nat n - 1)%Z.
Proof.
  induction n as [|n IH]; [reflexivity|].
  rewrite seq_S, map_app, fold_right_app. cbn [map fold_right plus].
  assert (G : forall l a, fold_right Z.add a l = (fold_right Z.add 0 l + a)%Z).
  { induction l as [|x l IHl]; intros a; cbn [fold_right]; [lia|].
    rewrite IHl. lia. }
  rewrite G, IH. unfold expo. rewrite Nat2Z.inj_succ, Z.pow_succ_r by lia. lia.
Qed.

(** X8: an exception of the API client that is neither an [HttpError] nor
    a socket timeout is not retried and not translated: after the one
    attempt it is raised as it is, with nothing logged and no delay. *)
Theorem other_exceptions_pass_through
    (analytics : nat -> nat -> json -> res response) (self : stream)
    (report_definition : pydict json) (state_filter : string)
    (pageToken : option string) (body : json) (w : world) (e : exn) :
  query_body self report_definition state_filter pageToken = Ok body ->
  analytics (List.length (w_sent w)) 0%nat body = Raise e ->
  is_retried_class e = false ->
  _request_data analytics self report_definition state_filter pageToken w
  = (World (w_log w) (w_sent w ++ [[body]]) (w_slept w) (w_yield w), Raise e).
Proof.
  intros Hb He Hc. unfold _request_data, try_except.
  rewrite (_query_api_spec analytics self report_definition state_filter pageToken
             body Hb w).
  cbv zeta.
  assert (E : last_try is_fatal_error
                (fun i => analytics (List.length (w_sent w)) i body) 0 8 = 0%nat).
  { cbn [last_try]. rewrite He, Hc. reflexivity. }
  rewrite E, He. cbn [repeat seq map]. rewrite app_nil_r.
  destruct e; try reflexivity; discriminate Hc.
Qed.

Lemma other_exceptions_pass_through_witness :
  exists body,
    query_body (sample_stream (sample_report None))
      (_generate_report_definition (sample_report None)) "2024-01-01" None = Ok body
    /\ _request_data broken_client (sample_stream (sample_report None))
         (_generate_report_definition (sample_report None)) "2024-01-01" None world0
       = (World [] [[body]] [] [], Raise TypeError).
Proof.
  eexists. split; [reflexivity|].
  apply (other_exceptions_pass_through broken_client
           (sample_stream (sample_report None))
           (_generate_report_definition (sample_report None)) "2024-01-01" None
           _ world0 TypeError eq_refl); reflexivity.
Defined.

(** X9: one page request costs at most nine attempts with the same body
    and at most eight delays, one between two attempts; the nominal delays
    are 1, 2, 4, ... and add up to at most 255. *)
Theorem backoff_budget
    (analytics : nat -> nat -> json -> res response) (self : stream)
    (report_definition : pydict json) (state_filter : string)
    (pageToken : option string) (body : json) (w : world) :
  query_body self report_definition state_filter pageToken = Ok body ->
  let out := _request_data analytics self report_definition state_filter
               pageToken w in
  exists n,
    (n <= 8)%nat
    /\ w_sent (fst out) = w_sent w ++ [repeat body (S n)]
    /\ w_slept (fst out) = w_slept w ++ map expo (seq 0 n)
    /\ (fold_right Z.add 0 (map expo (seq 0 n)) = 2 ^ Z.of_nat n - 1)%Z
    /\ (fold_right Z.add 0 (map expo (seq 0 n)) <= 255)%Z.
Proof.
  intros Hb. cbv zeta.
  destruct (_request_data_spec analytics self report_definition state_filter
              pageToken body Hb w) as (_ & H2 & H3 & _).
  set (n := last_try is_fatal_error
              (fun i => analytics (List.length (w_sent w)) i body) 0 8) in *.
  pose proof (last_try_bounds is_fatal_error
                (fun i => analytics (List.length (w_sent w)) i body) 0 8) as Hn.
  fold n in Hn.
  exists n. repeat apply conj.
  - lia.
  - exact H2.
  - exact H3.
  - apply sum_expo.
  - rewrite sum_expo.
    assert (2 ^ Z.of_nat n <= 2 ^ 8)%Z by (apply Z.pow_le_mono_r; lia). lia.
Qed.

Lemma backoff_budget_witness :
  exists body n,
    query_body (sample_stream (sample_report None))
      (_generate_report_definition (sample_report None)) "2024-01-01" None = Ok body
    /\ (n <= 8)%nat
    /\ w_sent (fst (_request_data flaky_server (sample_stream (sample_report None))
                      (_generate_report_definition (sample_report None))
                      "2024-01-01" None world0))
       = [] ++ [repeat body (S n)]
    /\ (fold_right Z.add 0 (map expo (seq 0 n)) <= 255)%Z.
Proof.
  eexists.
  destruct (backoff_budget flaky_server (sample_stream (sample_report None))
              (_generate_report_definition (sample_report None)) "2024-01-01" None
              _ world0 eq_refl) as (n & H1 & H2 & _ & _ & H5).
  exists n. split; [reflexivity|]. repeat apply conj; assumption.
Defined.

(** * Further properties of the response normalizer *)

Section silent.
Lemma silent_ret {A} (a : A) : silent (ret a).
Proof. intros w w' a' H. injection H as <- _. reflexivity. Qed.

Lemma silent_raise {A} e : silent (@raise A e).
Proof. intros w w' a H. discriminate H. Qed.

Lemma silent_lift {A} (r : res A) : silent (lift r).
Proof. intros w w' a H. injection H as <- _. reflexivity. Qed.

Lemma silent_bind {A B} (m : M A) (k : A -> M B) :
  silent m -> (forall a, silent (k a)) -> silent (bind m k).
Proof.
  intros Hm Hk w w' b. rewrite bind_eq.
  destruct (m w) as [w1 [a|e]] eqn:E; [|discriminate].
  intros H. apply Hk in H. apply Hm in E. congruence.
Qed.

Lemma silent_for_each {A S} (l : list A) (body : A -> S -> M S) :
  (forall x s, silent (body x s)) -> forall s, silent (for_each l body s).
Proof.
  intros Hb. induction l as [|x l IH]; intros s; cbn [for_each].
  - apply silent_ret.
  - apply silent_bind; [apply Hb | exact IH].
Qed.

Lemma silent_lookup type a dref mref : silent (_lookup_data_type type a dref mref).
Proof. intros w w' t H. eapply lookup_returns. exact H. Qed.
End silent.

Ltac silent_step :=
  match goal with
  | |- silent (if ?b then _ else _) => destruct b
  | |- silent (match ?o with Some _ => _ | None => _ end) => destruct o
  | |- silent (bind _ _) => apply silent_bind; [|intros ?]
  | |- silent (ret _) => apply silent_ret
  | |- silent (raise _) => apply silent_raise
  | |- silent (lift _) => apply silent_lift
  | |- silent (_lookup_data_type _ _ _ _) => apply silent_lookup
  end.

Section records.
Context (py_int : string -> option Z) (py_float_ok : string -> bool).
Context (self : stream).

Lemma silent_parse_dimension hd record :
  silent (parse_dimension py_int py_float_ok self hd record).
Proof. unfold parse_dimension. destruct hd as [header dimension]. repeat silent_step. Qed.

Lemma silent_parse_metric hv record :
  silent (parse_metric py_int py_float_ok self hv record).
Proof. unfold parse_metric. destruct hv as [h v]. repeat silent_step. Qed.

(** Building the record of a row leaves no trace when it succeeds. *)
Lemma silent_parse_row dhs mhs r :
  silent (parse_row py_int py_float_ok self dhs mhs r).
Proof.
  unfold parse_row. apply silent_bind.
  { apply silent_for_each. intros. apply silent_parse_dimension. }
  intros record. apply silent_bind.
  { apply silent_for_each. intros vs s. destruct (values vs).
    - apply silent_for_each. intros. apply silent_parse_metric.
    - apply silent_raise. }
  intros record'. apply silent_ret.
Qed.

(** The record of a row ends with the two report dates. *)
Lemma parse_row_dates dhs mhs r w w' record :
  parse_row py_int py_float_ok self dhs mhs r w = (w', Ok record) ->
  Dict.get "report_start_date" record = Some (start_date_json self)
  /\ Dict.get "report_end_date" record = Some (JStr (end_date self)).
Proof.
  unfold parse_row. rewrite bind_eq.
  destruct (for_each _ _ _ w) as [w1 [r1|e1]]; [|discriminate].
  rewrite bind_eq.
  destruct (for_each _ _ _ w1) as [w2 [r2|e2]]; [|discriminate].
  unfold ret. intros H. injection H as _ <-. split.
  - rewrite get_set_ne by discriminate. apply get_set_eq.
  - apply get_set_eq.
Qed.

(** The rows that are normalized without fail give one record each. *)
Lemma parse_rows_yield dhs mhs rows : forall w w',
  for_each rows
    (fun r _ =>
       let* record := parse_row py_int py_float_ok self dhs mhs r in
       yield record) tt w = (w', Ok tt) ->
  exists records,
    w' = World (w_log w) (w_sent w) (w_slept w) (w_yield w ++ records)
    /\ List.length records = List.length rows
    /\ Forall (fun record =>
                 Dict.get "report_start_date" record = Some (start_date_json self)
                 /\ Dict.get "report_end_date" record
                    = Some (JStr (end_date self)))
         records.
Proof.
  induction rows as [|r rows IH]; intros w w'; cbn [for_each].
  - intros H. injection H as <-. exists []. rewrite app_nil_r.
    destruct w. repeat split. constructor.
  - rewrite !bind_eq.
    destruct (parse_row py_int py_float_ok self dhs mhs r w) as [w1 [record|e]] eqn:E;
      [|discriminate].
    pose proof (silent_parse_row dhs mhs r w w1 record E) as ->.
    pose proof (parse_row_dates _ _ _ _ _ _ E) as Hd.
    cbn [yield]. intros H. apply IH in H as (records & -> & Hlen & Hall).
    cbn [w_log w_sent w_slept w_yield].
    exists (record :: records). repeat apply conj.
    + rewrite <- app_assoc. reflexivity.
    + cbn [List.length]. rewrite Hlen. reflexivity.
    + constructor; assumption.
Qed.
End records.

(** A page normalized without fail: what it leaves behind. *)
Lemma parse_response_records py_int py_float_ok self resp w w' :
  _parse_response py_int py_float_ok self resp w = (w', Ok tt) ->
  exists records,
    w' = World (w_log w) (w_sent w) (w_slept w) (w_yield w ++ records)
    /\ List.length records = List.length (response_rows resp)
    /\ Forall (fun record =>
                 Dict.get "report_start_date" record = Some (start_date_json self)
                 /\ Dict.get "report_end_date" record = Some (JStr (end_date self)))
         records.
Proof.
  unfold _parse_response, response_rows.
  destruct (default [] (reports resp)) as [|report rest]; [discriminate|].
  destruct (report_truthy report) eqn:Et.
  - apply parse_rows_yield.
  - intros H. injection H as <-. exists []. rewrite app_nil_r.
    destruct w. repeat apply conj; [reflexivity | | constructor].
    unfold report_truthy in Et. destruct (data report); [|reflexivity].
    destruct (columnHeader report); discriminate.
Qed.

(** ** The order of the records *)

Section stateless.
Lemma stateless_ret {A} (a : A) : stateless (ret a).
Proof. intros w w' a' H w0. injection H as _ <-. reflexivity. Qed.

Lemma stateless_raise {A} e : stateless (@raise A e).
Proof. intros w w' a H. discriminate H. Qed.

Lemma stateless_lift {A} (r : res A) : stateless (lift r).
Proof. intros w w' a H w0. injection H as _ ->. reflexivity. Qed.

Lemma stateless_bind {A B} (m : M A) (k : A -> M B) :
  stateless m -> (forall a, stateless (k a)) -> stateless (bind m k).
Proof.
  intros Hm Hk w w' b. rewrite bind_eq.
  destruct (m w) as [w1 [a|e]] eqn:E; [|discriminate].
  intros H w0. rewrite bind_eq, (Hm _ _ _ E w0). eapply Hk. exact H.
Qed.

Lemma stateless_for_each {A S} (l : list A) (body : A -> S -> M S) :
  (forall x s, stateless (body x s)) -> forall s, stateless (for_each l body s).
Proof.
  intros Hb. induction l as [|x l IH]; intros s; cbn [for_each].
  - apply stateless_ret.
  - apply stateless_bind; [apply Hb | exact IH].
Qed.

Lemma stateless_lookup type a dref mref :
  stateless (_lookup_data_type type a dref mref).
Proof.
  unfold stateless, _lookup_data_type, _parse_dimension_type, _parse_metric_type,
    sys_exit.
  repeat match goal with
         | |- context [if ?b then _ else _] => destruct b
         | |- context [match ?o with Some _ => _ | None => _ end] => destruct o
         end;
    cbv [ret bind logger raise]; intros w w' t H w0; congruence.
Qed.
End stateless.

Ltac stateless_step :=
  match goal with
  | |- stateless (if ?b then _ else _) => destruct b
  | |- stateless (match ?o with Some _ => _ | None => _ end) => destruct o
  | |- stateless (bind _ _) => apply stateless_bind; [|intros ?]
  | |- stateless (ret _) => apply stateless_ret
  | |- stateless (raise _) => apply stateless_raise
  | |- stateless (lift _) => apply stateless_lift
  | |- stateless (_lookup_data_type _ _ _ _) => apply stateless_lookup
  end.

Section row_order.
Context (py_int : string -> option Z) (py_float_ok : string -> bool).
Context (self : stream).

(** The record of a row depends on the row, the headers and the stream
    only. *)
Lemma stateless_parse_row dhs mhs r :
  stateless (parse_row py_int py_float_ok self dhs mhs r).
Proof.
  unfold parse_row. apply stateless_bind.
  { apply stateless_for_each. intros [header dimension] record.
    unfold parse_dimension. repeat stateless_step. }
  intros record. apply stateless_bind.
  { apply stateless_for_each. intros vs s. destruct (values vs).
    - apply stateless_for_each. intros [h v] record'.
      unfold parse_metric. repeat stateless_step.
    - apply stateless_raise. }
  intros record'. apply stateless_ret.
Qed.

(** The records are yielded in the order of the rows. *)
Lemma parse_rows_order dhs mhs rows : forall w w',
  for_each rows
    (fun r _ =>
       let* record := parse_row py_int py_float_ok self dhs mhs r in
       yield record) tt w = (w', Ok tt) ->
  exists records,
    w_yield w' = w_yield w ++ records
    /\ Forall2 (fun r record =>
                  forall w0,
                    parse_row py_int py_float_ok self dhs mhs r w0 = (w0, Ok record))
         rows records.
Proof.
  induction rows as [|r rows IH]; intros w w'; cbn [for_each].
  - intros H. injection H as <-. exists []. rewrite app_nil_r.
    split; [reflexivity | constructor].
  - rewrite !bind_eq.
    destruct (parse_row py_int py_float_ok self dhs mhs r w) as [w1 [record|e]] eqn:E;
      [|discriminate].
    pose proof (stateless_parse_row dhs mhs r w w1 record E) as Hr.
    pose proof (Hr w) as Ew. rewrite E in Ew. injection Ew as ->.
    cbn [yield]. intros H. apply IH in H as (records & Hy & Hall).
    cbn [w_yield] in Hy.
    exists (record :: records). split.
    + rewrite Hy, <- app_assoc. reflexivity.
    + constructor; [exact Hr | exact Hall].
Qed.
End row_order.

(** X13: when a page is normalized without fail, the records of the rows
    of its first report have been yielded after the records yielded before,
    one per row and in the order of the rows: each is the record its row
    is normalized to under the headers of the page, and carries the
    configured start date and the end date of the stream; nothing is
    logged, sent or waited for. *)
Theorem one_record_per_row
    (py_int : string -> option Z) (py_float_ok : string -> bool)
    (self : stream) (resp : response) (w w' : world) :
  _parse_response py_int py_float_ok self resp w = (w', Ok tt) ->
  exists records,
    w' = World (w_log w) (w_sent w) (w_slept w) (w_yield w ++ records)
    /\ List.length records = List.length (response_rows resp)
    /\ Forall2 (fun r record =>
                  forall w0,
                    parse_row py_int py_float_ok self
                      (response_dimension_headers resp)
                      (response_metric_headers resp) r w0
                    = (w0, Ok record))
         (response_rows resp) records
    /\ Forall (fun record =>
                 Dict.get "report_start_date" record = Some (start_date_json self)
                 /\ Dict.get "report_end_date" record = Some (JStr (end_date self)))
         records.
Proof.
  intros H.
  destruct (parse_response_records _ _ _ _ _ _ H) as (records & Hw & Hlen & Hd).
  exists records. repeat apply conj; [exact Hw | exact Hlen | | exact Hd].
  revert H Hlen. unfold _parse_response, response_rows, response_dimension_headers,
    response_metric_headers.
  destruct (default [] (reports resp)) as [|report rest]; [discriminate|].
  destruct (report_truthy report) eqn:Et.
  - intros H _. apply parse_rows_order in H as (records' & Hy & Hall).
    rewrite Hw in Hy. cbn [w_yield] in Hy. apply app_inv_head in Hy. subst records'.
    exact Hall.
  - intros _ Hlen. unfold report_truthy in Et.
    destruct (columnHeader report); [discriminate|].
    destruct (data report); [discriminate|].
    destruct records; [constructor | discriminate Hlen].
Qed.

Lemma one_record_per_row_witness :
  fst (_parse_response sample_int (fun _ => true)
         (sample_stream (sample_report None)) three_row_page world0)
  = World [] [] []
      [[("view_id", JStr "188392047"); ("stream", JStr "sessions");
        ("ga_date", JStr "20240105"); ("ga_date_dt", JStr "2024-01-05");
        ("ga_country", JStr "France"); ("ga_sessions", JInt 12);
        ("ga_sessions_per_user", JFloat10 "1.5");
        ("report_start_date", JStr "2024-01-01");
        ("report_end_date", JStr "2024-02-29")];
       [("view_id", JStr "188392047"); ("stream", JStr "sessions");
        ("ga_date", JStr "20240106"); ("ga_date_dt", JStr "2024-01-06");
        ("ga_country", JStr "Spain"); ("ga_sessions", JInt 7);
        ("ga_sessions_per_user", JFloat10 "2.25");
        ("report_start_date", JStr "2024-01-01");
        ("report_end_date", JStr "2024-02-29")];
       [("view_id", JStr "188392047"); ("stream", JStr "sessions");
        ("ga_date", JStr "20240107"); ("ga_date_dt", JStr "2024-01-07");
        ("ga_country", JStr "Italy"); ("ga_sessions", JInt 3);
        ("ga_sessions_per_user", JFloat10 "1.0");
        ("report_start_date", JStr "2024-01-01");
        ("report_end_date", JStr "2024-02-29")]].
Proof.
  destruct (one_record_per_row sample_int (fun _ => true)
              (sample_stream (sample_report None)) three_row_page world0
              (fst (_parse_response sample_int (fun _ => true)
                      (sample_stream (sample_report None)) three_row_page
                      world0)))
    as (records & E & _ & Hrows & _).
  - vm_compute. reflexivity.
  - rewrite E. cbn [w_log w_sent w_slept w_yield world0 app]. f_equal.
    inversion Hrows as [|r1 rec1 l1 l1' H1 Hrest1]; subst.
    inversion Hrest1 as [|r2 rec2 l2 l2' H2 Hrest2]; subst.
    inversion Hrest2 as [|r3 rec3 l3 l3' H3 Hrest3]; subst.
    inversion Hrest3; subst.
    specialize (H1 world0). specialize (H2 world0). specialize (H3 world0).
    vm_compute in H1, H2, H3.
    injection H1 as <-. injection H2 as <-. injection H3 as <-. reflexivity.
Defined.

(** * Further properties of the pagination engine *)

Lemma query_body_page_token self def sf tok body :
  query_body self def sf tok = Ok body ->
  Dict.get "pageToken" (report_request body) = Some (token_json tok).
Proof.
  unfold query_body.
  destruct (Dict.get "metrics" def); [|discriminate].
  destruct (Dict.get "dimensions" def); [|discriminate].
  intros H. injection H as <-. unfold report_request.
  cbn [Dict.get String.eqb Ascii.eqb Bool.eqb fold_left].
  rewrite !get_opt_set_ne by discriminate. reflexivity.
Qed.

Lemma cursors_sent_snoc w w' body n :
  w_sent w' = w_sent w ++ [repeat body (S n)] ->
  cursors_sent w'
  = cursors_sent w ++ [Dict.get "pageToken" (report_request body)].
Proof.
  intros H. unfold cursors_sent. rewrite H, map_app. reflexivity.
Qed.

Lemma cursors_sent_length w : List.length (cursors_sent w) = List.length (w_sent w).
Proof. apply length_map. Qed.

Section turns.
Context (analytics : nat -> nat -> json -> res response).
Context (py_int : string -> option Z) (py_float_ok : string -> bool).
Context (self : stream) (sf : string) (ps : Z) (max : option Z).

Local Notation def := (_generate_report_definition (report self)).
Local Notation body :=
  (loop_body analytics py_int py_float_ok self def sf ps max).

(** Whatever its outcome, a turn sends one page request, with the cursor
    in hand. *)
Lemma loop_body_cursor v w :
  cursors_sent (fst (body v w))
  = cursors_sent w ++ [Some (token_json (next_page_token v))].
Proof using Type.
  unfold loop_body. rewrite bind_eq.
  destruct (query_body_generated self (report self) sf (next_page_token v))
    as [b Hb].
  destruct (_request_data_spec analytics self _ sf (next_page_token v) b Hb w)
    as (_ & R2 & _).
  apply cursors_sent_snoc in R2.
  rewrite (query_body_page_token _ _ _ _ _ Hb) in R2.
  destruct (_request_data _ _ _ _ _ w) as [w1 [resp|e]]; cbn [fst] in *;
    [|exact R2].
  rewrite bind_eq.
  destruct (quiet_parse_response py_int py_float_ok self resp w1) as (Q1 & _).
  assert (C2 : cursors_sent (fst (_parse_response py_int py_float_ok self resp w1))
               = cursors_sent w1)
    by (unfold cursors_sent; rewrite Q1; reflexivity).
  destruct (_parse_response py_int py_float_ok self resp w1) as [w2 [[]|e]];
    cbn [fst] in *; [|congruence].
  destruct (truthy _ && token_eqb _ _);
    (transitivity (cursors_sent w2); [reflexivity | congruence]).
Qed.

(** A turn whose page is served and normalized yields one record per
    row of the page. *)
Lemma loop_body_records v w resp :
  page_outcome analytics self def sf (next_page_token v) (List.length (w_sent w))
  = Ok resp ->
  (forall w1, snd (_parse_response py_int py_float_ok self resp w1) = Ok tt) ->
  List.length (w_yield (fst (body v w)))
  = (List.length (w_yield w) + List.length (response_rows resp))%nat.
Proof using Type.
  intros Hpage Hparse. unfold loop_body. rewrite bind_eq.
  destruct (request_data_outcome analytics self sf (next_page_token v) w)
    as (H1 & _ & H3).
  destruct (_request_data analytics self def sf (next_page_token v) w) as [w1 r1].
  cbn [fst snd] in H1, H3. rewrite H1, Hpage, bind_eq.
  specialize (Hparse w1).
  destruct (_parse_response py_int py_float_ok self resp w1) as [w2 r2] eqn:E.
  cbn [snd] in Hparse. subst r2.
  apply parse_response_records in E as (records & Ew & Hlen & _).
  destruct (truthy _ && token_eqb _ _);
    (transitivity (List.length (w_yield w2));
     [reflexivity
     | rewrite Ew; cbn [w_yield]; rewrite length_app, H3, Hlen; reflexivity]).
Qed.

(** A turn whose page request fails ends with that failure, after the
    request and without a record. *)
Lemma loop_body_fails v w e :
  page_outcome analytics self def sf (next_page_token v) (List.length (w_sent w))
  = Raise e ->
  exists w1,
    body v w = (w1, Raise e)
    /\ List.length (w_sent w1) = S (List.length (w_sent w))
    /\ w_yield w1 = w_yield w.
Proof using Type.
  intros Hpage. unfold loop_body. rewrite bind_eq.
  destruct (request_data_outcome analytics self sf (next_page_token v) w)
    as (H1 & H2 & H3).
  destruct (_request_data analytics self def sf (next_page_token v) w) as [w1 r1].
  cbn [fst snd] in H1, H2, H3. rewrite H1, Hpage.
  exists w1. repeat apply conj; [reflexivity | exact H2 | exact H3].
Qed.

Context (pages : nat -> response) (n : nat).
Local Notation token k := (_get_next_page_token (pages k)).

Hypothesis served : forall j tok, (j < n)%nat ->
  page_outcome analytics self def sf tok j = Ok (pages j).
Hypothesis parsed : forall j w, (j < n)%nat ->
  snd (_parse_response py_int py_float_ok self (pages j) w) = Ok tt.

(** The turns before the one that ends the run. *)
Lemma run_turns k :
  (k <= n)%nat ->
  (forall j, (j < k)%nat ->
     _is_finished (token j) (Z.of_nat (S j) * ps)%Z max = false) ->
  (forall j, (S j < k)%nat -> token (S j) <> token j) ->
  exists wk,
    while_not_finished k body
      {| next_page_token := None; finished := false; total_records := 0 |} world0
    = (wk, Ok {| next_page_token := cursor_before pages k;
                 finished := false;
                 total_records := (Z.of_nat k * ps)%Z |})
    /\ cursors_sent wk
       = map (fun j => Some (token_json (cursor_before pages j))) (seq 0 k)
    /\ List.length (w_yield wk) = rows_upto pages k.
Proof using served parsed.
  induction k as [|k IH]; intros Hk Hrun Hfresh.
  - exists world0. repeat split; reflexivity.
  - destruct IH as (wk & Hwk & Hc & Hy).
    { lia. }
    { intros j Hj. apply Hrun. lia. }
    { intros j Hj. apply Hfresh. lia. }
    replace (S k) with (k + 1)%nat by lia.
    rewrite (while_split analytics py_int py_float_ok self sf ps max k 1 _ _ _ _ Hwk)
      by reflexivity.
    rewrite while_step by reflexivity.
    assert (Hlen : List.length (w_sent wk) = k).
    { rewrite <- cursors_sent_length, Hc, length_map, length_seq. reflexivity. }
    pose proof (loop_body_cursor
                  {| next_page_token := cursor_before pages k; finished := false;
                     total_records := (Z.of_nat k * ps)%Z |} wk) as Hcur.
    pose proof (loop_body_records
                  {| next_page_token := cursor_before pages k; finished := false;
                     total_records := (Z.of_nat k * ps)%Z |} wk (pages k)) as Hrec.
    destruct (loop_body_spec analytics py_int py_float_ok self sf ps max
                {| next_page_token := cursor_before pages k; finished := false;
                   total_records := (Z.of_nat k * ps)%Z |} wk (pages k))
      as (_ & L2).
    { rewrite Hlen. apply served. lia. }
    { intros w1. apply parsed. lia. }
    cbn [next_page_token total_records] in L2, Hcur, Hrec.
    rewrite Hlen in Hrec.
    specialize (Hrec (served k _ ltac:(lia)) (fun w1 => parsed k w1 ltac:(lia))).
    pose proof (Hrun k ltac:(lia)) as Hnf.
    assert (Hneq : token_eqb (token k) (cursor_before pages k) = false).
    { destruct (token_eqb (token k) (cursor_before pages k)) eqn:E; [|reflexivity].
      apply token_eqb_eq in E. destruct k as [|i]; cbn [cursor_before] in E.
      - apply not_finished_truthy in Hnf. rewrite E in Hnf. discriminate.
      - exfalso. apply (Hfresh i); [lia | exact E]. }
    rewrite Hneq, andb_false_r in L2.
    replace (Z.of_nat k * ps + ps)%Z with (Z.of_nat (S k) * ps)%Z in L2 by lia.
    rewrite Hnf in L2.
    destruct (loop_body _ _ _ _ _ _ _ _ _ wk) as [w1 r1]. cbn [fst snd] in *.
    subst r1. exists w1. repeat apply conj.
    + cbn [while_not_finished finished]. unfold ret.
      replace (k + 1)%nat with (S k) by lia. reflexivity.
    + rewrite Hcur, Hc. replace (k + 1)%nat with (S k) by lia.
      rewrite seq_S, map_app. reflexivity.
    + replace (k + 1)%nat with (S k) by lia. cbn [rows_upto].
      rewrite Hrec, Hy. reflexivity.
Qed.

(** The run up to, and including, the first turn that finishes. *)
Lemma run_to_finish k :
  (k < n)%nat ->
  (forall j, (j < k)%nat ->
     _is_finished (token j) (Z.of_nat (S j) * ps)%Z max = false) ->
  (forall j, (S j < k)%nat -> token (S j) <> token j) ->
  _is_finished (token k) (Z.of_nat (S k) * ps)%Z max = true ->
  (forall j, k = S j -> truthy (token k) = true -> token k <> token j) ->
  forall fuel, (k < fuel)%nat ->
  exists w',
    while_not_finished fuel body
      {| next_page_token := None; finished := false; total_records := 0 |} world0
    = (w', Ok {| next_page_token := token k;
                 finished := true;
                 total_records := (Z.of_nat (S k) * ps)%Z |})
    /\ cursors_sent w'
       = map (fun j => Some (token_json (cursor_before pages j))) (seq 0 (S k))
    /\ List.length (w_yield w') = rows_upto pages (S k).
Proof using served parsed.
  intros Hk Hrun Hfresh Hfin Hlast fuel Hfuel.
  destruct (run_turns k ltac:(lia) Hrun Hfresh) as (wk & Hwk & Hc & Hy).
  replace fuel with (k + S (fuel - S k))%nat by lia.
  rewrite (while_split analytics py_int py_float_ok self sf ps max k _ _ _ _ _ Hwk)
    by reflexivity.
  rewrite while_step by reflexivity.
  assert (Hlen : List.length (w_sent wk) = k).
  { rewrite <- cursors_sent_length, Hc, length_map, length_seq. reflexivity. }
  pose proof (loop_body_cursor
                {| next_page_token := cursor_before pages k; finished := false;
                   total_records := (Z.of_nat k * ps)%Z |} wk) as Hcur.
  pose proof (loop_body_records
                {| next_page_token := cursor_before pages k; finished := false;
                   total_records := (Z.of_nat k * ps)%Z |} wk (pages k)) as Hrec.
  destruct (loop_body_spec analytics py_int py_float_ok self sf ps max
              {| next_page_token := cursor_before pages k; finished := false;
                 total_records := (Z.of_nat k * ps)%Z |} wk (pages k))
    as (_ & L2).
  { rewrite Hlen. apply served. exact Hk. }
  { intros w1. apply parsed. exact Hk. }
  cbn [next_page_token total_records] in L2, Hcur, Hrec.
  rewrite Hlen in Hrec.
  specialize (Hrec (served k _ Hk) (fun w1 => parsed k w1 Hk)).
  assert (Hneq : truthy (token k) && token_eqb (token k) (cursor_before pages k)
                 = false).
  { destruct (truthy (token k)) eqn:Et; [|reflexivity]. cbn [andb].
    destruct (token_eqb (token k) (cursor_before pages k)) eqn:E; [|reflexivity].
    apply token_eqb_eq in E. destruct k as [|i]; cbn [cursor_before] in E.
    - rewrite E in Et. discriminate.
    - exfalso. apply (Hlast i eq_refl); [reflexivity | exact E]. }
  rewrite Hneq in L2.
  replace (Z.of_nat k * ps + ps)%Z with (Z.of_nat (S k) * ps)%Z in L2 by lia.
  rewrite Hfin in L2.
  destruct (loop_body _ _ _ _ _ _ _ _ _ wk) as [w1 r1]. cbn [fst snd] in *.
  subst r1. exists w1. repeat apply conj.
  + apply while_finished. reflexivity.
  + rewrite Hcur, Hc, seq_S, map_app. reflexivity.
  + cbn [rows_upto]. rewrite Hrec, Hy. reflexivity.
Qed.

(** The run up to a page request that fails. *)
Lemma run_to_failure k e :
  (k <= n)%nat ->
  (forall j, (j < k)%nat ->
     _is_finished (token j) (Z.of_nat (S j) * ps)%Z max = false) ->
  (forall j, (S j < k)%nat -> token (S j) <> token j) ->
  page_outcome analytics self def sf (cursor_before pages k) k = Raise e ->
  forall fuel, (k < fuel)%nat ->
  exists w',
    while_not_finished fuel body
      {| next_page_token := None; finished := false; total_records := 0 |} world0
    = (w', Raise e)
    /\ List.length (w_sent w') = S k
    /\ List.length (w_yield w') = rows_upto pages k.
Proof using served parsed.
  intros Hk Hrun Hfresh Hfail fuel Hfuel.
  destruct (run_turns k Hk Hrun Hfresh) as (wk & Hwk & Hc & Hy).
  replace fuel with (k + S (fuel - S k))%nat by lia.
  rewrite (while_split analytics py_int py_float_ok self sf ps max k _ _ _ _ _ Hwk)
    by reflexivity.
  rewrite while_step by reflexivity.
  assert (Hlen : List.length (w_sent wk) = k).
  { rewrite <- cursors_sent_length, Hc, length_map, length_seq. reflexivity. }
  destruct (loop_body_fails
              {| next_page_token := cursor_before pages k; finished := false;
                 total_records := (Z.of_nat k * ps)%Z |} wk e)
    as (w1 & E & H2 & H3).
  { cbn [next_page_token]. rewrite Hlen. exact Hfail. }
  rewrite E. exists w1. repeat apply conj.
  - reflexivity.
  - rewrite H2, Hlen. reflexivity.
  - rewrite H3. exact Hy.
Qed.
End turns.

(** X10: the extraction stops at the first page after which
    [_is_finished] holds, and not before: when every page is served and
    normalized and no true cursor repeats the one before it, and page [k]
    (counted from 0) is the first whose cursor and running count make
    [_is_finished] true, exactly [k + 1] page requests are made and the count
    ends at [k + 1] page sizes. *)
Theorem pagination_stops_when_finished
    (analytics : nat -> nat -> json -> res response)
    (py_int : string -> option Z) (py_float_ok : string -> bool)
    (self : stream) (rkv : option string) (sf : string)
    (pages : nat -> response) (k : nat) :
  _get_state_filter self rkv = Ok sf ->
  (forall j tok,
     page_outcome analytics self (_generate_report_definition (report self))
       sf tok j = Ok (pages j)) ->
  (forall j w, snd (_parse_response py_int py_float_ok self (pages j) w) = Ok tt) ->
  (forall j, (j < k)%nat ->
     _is_finished (_get_next_page_token (pages j))
       (Z.of_nat (S j) * report_page_size self)%Z (report_max_records self) = false) ->
  (forall j, (j < k)%nat ->
     truthy (_get_next_page_token (pages (S j))) = true ->
     _get_next_page_token (pages (S j)) <> _get_next_page_token (pages j)) ->
  _is_finished (_get_next_page_token (pages k))
    (Z.of_nat (S k) * report_page_size self)%Z (report_max_records self) = true ->
  forall fuel, (k < fuel)%nat ->
    let out := _request_records analytics py_int py_float_ok fuel self rkv world0 in
    snd out = Ok {| next_page_token := _get_next_page_token (pages k);
                    finished := true;
                    total_records := (Z.of_nat (S k) * report_page_size self)%Z |}
    /\ List.length (w_sent (fst out)) = S k.
Proof.
  intros Hsf Hserved Hparsed Hrun Hfresh Hfin fuel Hfuel. cbv zeta.
  rewrite (request_records_eq _ _ _ _ _ _ _ _ Hsf).
  destruct (run_to_finish analytics py_int py_float_ok self sf
              (report_page_size self) (report_max_records self) pages (S k)
              (fun j tok _ => Hserved j tok) (fun j w _ => Hparsed j w) k)
    with (fuel := fuel) as (w' & Hw & Hc & Hy).
  - lia.
  - exact Hrun.
  - intros j Hj. apply Hfresh; [lia|].
    apply (not_finished_truthy (report_max_records self) _
             (Z.of_nat (S (S j)) * report_page_size self)%Z).
    apply Hrun. exact Hj.
  - exact Hfin.
  - intros j -> Ht. apply Hfresh; [lia | exact Ht].
  - exact Hfuel.
  - rewrite Hw. cbn [fst snd]. split; [reflexivity|].
    rewrite <- cursors_sent_length, Hc, length_map, length_seq. reflexivity.
Qed.

Lemma ending_server_served last self sf tok j :
  page_outcome (ending_server last) self
    (_generate_report_definition (report self)) sf tok j
  = Ok (sample_page (if (j <? last)%nat then Some (cursor j) else None)).
Proof.
  apply served_at_once; [apply query_body_generated | reflexivity].
Qed.

Lemma pagination_stops_when_finished_witness :
  let out := _request_records (ending_server 2) sample_int (fun _ => true) 5
               (sample_stream (sample_report None)) None world0 in
  snd out = Ok {| next_page_token := None; finished := true; total_records := 3000 |}
  /\ List.length (w_sent (fst out)) = 3%nat.
Proof.
  cbv zeta.
  destruct (pagination_stops_when_finished (ending_server 2) sample_int
              (fun _ => true) (sample_stream (sample_report None)) None
              "2024-01-01"
              (fun j => sample_page (if (j <? 2)%nat then Some (cursor j) else None))
              2) with (fuel := 5%nat) as (H1 & H2).
  - reflexivity.
  - intros j tok. apply ending_server_served.
  - intros j w. apply sample_page_parsed.
  - intros j Hj. destruct j as [|[|j]]; [reflexivity | reflexivity | lia].
  - intros j Hj. destruct j as [|[|j]]; [discriminate | discriminate | lia].
  - reflexivity.
  - lia.
  - split; [exact H1 | exact H2].
Defined.

(** X11: without a maximum, and with a server that gives a new true
    cursor on every page, the extraction does not end: after any number of
    turns the loop is still running, with one page request per turn. *)
Theorem pagination_unbounded
    (analytics : nat -> nat -> json -> res response)
    (py_int : string -> option Z) (py_float_ok : string -> bool)
    (self : stream) (rkv : option string) (sf : string)
    (pages : nat -> response) :
  _get_state_filter self rkv = Ok sf ->
  report_max_records self = None ->
  (forall j tok,
     page_outcome analytics self (_generate_report_definition (report self))
       sf tok j = Ok (pages j)) ->
  (forall j w, snd (_parse_response py_int py_float_ok self (pages j) w) = Ok tt) ->
  (forall j, truthy (_get_next_page_token (pages j)) = true) ->
  (forall j, _get_next_page_token (pages (S j)) <> _get_next_page_token (pages j)) ->
  forall fuel,
    let out := _request_records analytics py_int py_float_ok fuel self rkv world0 in
    snd out = Ok {| next_page_token := cursor_before pages fuel;
                    finished := false;
                    total_records := (Z.of_nat fuel * report_page_size self)%Z |}
    /\ List.length (w_sent (fst out)) = fuel.
Proof.
  intros Hsf Hmax Hserved Hparsed Htrue Hfresh fuel. cbv zeta.
  rewrite (request_records_eq _ _ _ _ _ _ _ _ Hsf).
  destruct (run_turns analytics py_int py_float_ok self sf
              (report_page_size self) (report_max_records self) pages fuel
              (fun j tok _ => Hserved j tok) (fun j w _ => Hparsed j w) fuel)
    as (w' & Hw & Hc & Hy).
  - lia.
  - intros j _. rewrite Hmax. unfold _is_finished. rewrite Htrue. reflexivity.
  - intros j _. apply Hfresh.
  - rewrite Hw. cbn [fst snd]. split; [reflexivity|].
    rewrite <- cursors_sent_length, Hc, length_map, length_seq. reflexivity.
Qed.

Lemma pagination_unbounded_witness :
  let out := _request_records fresh_server sample_int (fun _ => true) 4
               (sample_stream (sample_report None)) None world0 in
  snd out = Ok {| next_page_token := Some "cccc"; finished := false;
                  total_records := 4000 |}
  /\ List.length (w_sent (fst out)) = 4%nat.
Proof.
  cbv zeta.
  apply (pagination_unbounded fresh_server sample_int (fun _ => true)
           (sample_stream (sample_report None)) None "2024-01-01"
           (fun k => sample_page (Some (cursor k)))).
  - reflexivity.
  - reflexivity.
  - intros j tok. apply fresh_server_served.
  - intros j w. apply sample_page_parsed.
  - intros j. apply cursor_truthy.
  - intros j. apply cursor_fresh.
Defined.

(** X12: the page requests of an extraction are chained by their cursors:
    the first goes out with a null [pageToken], and each one after it with
    the cursor of the response before. *)
Theorem page_requests_chained
    (analytics : nat -> nat -> json -> res response)
    (py_int : string -> option Z) (py_float_ok : string -> bool)
    (self : stream) (rkv : option string) (sf : string)
    (pages : nat -> response) (k : nat) :
  _get_state_filter self rkv = Ok sf ->
  (forall j tok,
     page_outcome analytics self (_generate_report_definition (report self))
       sf tok j = Ok (pages j)) ->
  (forall j w, snd (_parse_response py_int py_float_ok self (pages j) w) = Ok tt) ->
  (forall j, (j < k)%nat ->
     _is_finished (_get_next_page_token (pages j))
       (Z.of_nat (S j) * report_page_size self)%Z (report_max_records self) = false) ->
  (forall j, (j < k)%nat ->
     truthy (_get_next_page_token (pages (S j))) = true ->
     _get_next_page_token (pages (S j)) <> _get_next_page_token (pages j)) ->
  _is_finished (_get_next_page_token (pages k))
    (Z.of_nat (S k) * report_page_size self)%Z (report_max_records self) = true ->
  forall fuel, (k < fuel)%nat ->
    cursors_sent
      (fst (_request_records analytics py_int py_float_ok fuel self rkv world0))
    = Some JNone
      :: map (fun j => Some (token_json (_get_next_page_token (pages j)))) (seq 0 k).
Proof.
  intros Hsf Hserved Hparsed Hrun Hfresh Hfin fuel Hfuel.
  rewrite (request_records_eq _ _ _ _ _ _ _ _ Hsf).
  destruct (run_to_finish analytics py_int py_float_ok self sf
              (report_page_size self) (report_max_records self) pages (S k)
              (fun j tok _ => Hserved j tok) (fun j w _ => Hparsed j w) k)
    with (fuel := fuel) as (w' & Hw & Hc & Hy).
  - lia.
  - exact Hrun.
  - intros j Hj. apply Hfresh; [lia|].
    apply (not_finished_truthy (report_max_records self) _
             (Z.of_nat (S (S j)) * report_page_size self)%Z).
    apply Hrun. exact Hj.
  - exact Hfin.
  - intros j -> Ht. apply Hfresh; [lia | exact Ht].
  - exact Hfuel.
  - rewrite Hw. cbn [fst]. rewrite Hc. cbn [seq map cursor_before]. f_equal.
    rewrite <- seq_shift, map_map. reflexivity.
Qed.

Lemma page_requests_chained_witness :
  cursors_sent
    (fst (_request_records (ending_server 2) sample_int (fun _ => true) 5
            (sample_stream (sample_report None)) None world0))
  = [Some JNone; Some (JStr "c"); Some (JStr "cc")].
Proof.
  apply (page_requests_chained (ending_server 2) sample_int
           (fun _ => true) (sample_stream (sample_report None)) None
           "2024-01-01"
           (fun j => sample_page (if (j <? 2)%nat then Some (cursor j) else None))
           2).
  - reflexivity.
  - intros j tok. apply ending_server_served.
  - intros j w. apply sample_page_parsed.
  - intros j Hj. destruct j as [|[|j]]; [reflexivity | reflexivity | lia].
  - intros j Hj. destruct j as [|[|j]]; [discriminate | discriminate | lia].
  - reflexivity.
  - lia.
Defined.

(** X23: a page request that fails ends the extraction with its error:
    when the pages before page [k] are served and normalized and the loop is
    still running, and the request of page [k] fails with [e] (after the
    retries, and as [_request_data] raises it), [_request_records] raises
    [e]; [k + 1] page requests have been made, and the records of the [k]
    pages before have been yielded already. *)
Theorem page_failure_ends_extraction
    (analytics : nat -> nat -> json -> res response)
    (py_int : string -> option Z) (py_float_ok : string -> bool)
    (self : stream) (rkv : option string) (sf : string)
    (pages : nat -> response) (k : nat) (e : exn) :
  _get_state_filter self rkv = Ok sf ->
  (forall j tok, (j < k)%nat ->
     page_outcome analytics self (_generate_report_definition (report self))
       sf tok j = Ok (pages j)) ->
  (forall j w, (j < k)%nat ->
     snd (_parse_response py_int py_float_ok self (pages j) w) = Ok tt) ->
  (forall j, (j < k)%nat ->
     _is_finished (_get_next_page_token (pages j))
       (Z.of_nat (S j) * report_page_size self)%Z (report_max_records self) = false) ->
  (forall j, (S j < k)%nat ->
     _get_next_page_token (pages (S j)) <> _get_next_page_token (pages j)) ->
  page_outcome analytics self (_generate_report_definition (report self)) sf
    (cursor_before pages k) k = Raise e ->
  forall fuel, (k < fuel)%nat ->
    let out := _request_records analytics py_int py_float_ok fuel self rkv world0 in
    snd out = Raise e
    /\ List.length (w_sent (fst out)) = S k
    /\ List.length (w_yield (fst out)) = rows_upto pages k.
Proof.
  intros Hsf Hserved Hparsed Hrun Hfresh Hfail fuel Hfuel. cbv zeta.
  rewrite (request_records_eq _ _ _ _ _ _ _ _ Hsf).
  destruct (run_to_failure analytics py_int py_float_ok self sf
              (report_page_size self) (report_max_records self) pages k
              Hserved Hparsed k e) with (fuel := fuel) as (w' & Hw & Hs & Hy).
  - lia.
  - exact Hrun.
  - exact Hfresh.
  - exact Hfail.
  - exact Hfuel.
  - rewrite Hw. cbn [fst snd]. repeat apply conj; [reflexivity | exact Hs | exact Hy].
Qed.

Lemma failing_server_served last self sf tok j :
  (j < last)%nat ->
  page_outcome (failing_server last) self
    (_generate_report_definition (report self)) sf tok j
  = Ok (sample_page (Some (cursor j))).
Proof.
  intros Hj. apply served_at_once; [apply query_body_generated|].
  intros body. unfold failing_server.
  apply Nat.ltb_lt in Hj. rewrite Hj. reflexivity.
Qed.

Lemma page_failure_ends_extraction_witness :
  let out := _request_records (failing_server 2) sample_int (fun _ => true) 5
               (sample_stream (sample_report None)) None world0 in
  snd out = Raise (TapGaAuthenticationError "Unauthorized")
  /\ List.length (w_sent (fst out)) = 3%nat
  /\ List.length (w_yield (fst out)) = 2%nat.
Proof.
  cbv zeta.
  apply (page_failure_ends_extraction (failing_server 2) sample_int
           (fun _ => true) (sample_stream (sample_report None)) None
           "2024-01-01" (fun j => sample_page (Some (cursor j))) 2).
  - reflexivity.
  - intros j tok Hj. apply failing_server_served. exact Hj.
  - intros j w _. apply sample_page_parsed.
  - intros j Hj. destruct j as [|[|j]]; [reflexivity | reflexivity | lia].
  - intros j Hj. apply cursor_fresh.
  - vm_compute. reflexivity.
  - lia.
Defined.

(** X24: an extraction that runs to its end yields one record per row of
    every page it fetched: when page [k] is the first after which
    [_is_finished] holds, the records yielded are as many as the rows of the
    pages 0 to [k]. *)
Theorem records_of_all_pages
    (analytics : nat -> nat -> json -> res response)
    (py_int : string -> option Z) (py_float_ok : string -> bool)
    (self : stream) (rkv : option string) (sf : string)
    (pages : nat -> response) (k : nat) :
  _get_state_filter self rkv = Ok sf ->
  (forall j tok,
     page_outcome analytics self (_generate_report_definition (report self))
       sf tok j = Ok (pages j)) ->
  (forall j w, snd (_parse_response py_int py_float_ok self (pages j) w) = Ok tt) ->
  (forall j, (j < k)%nat ->
     _is_finished (_get_next_page_token (pages j))
       (Z.of_nat (S j) * report_page_size self)%Z (report_max_records self) = false) ->
  (forall j, (j < k)%nat ->
     truthy (_get_next_page_token (pages (S j))) = true ->
     _get_next_page_token (pages (S j)) <> _get_next_page_token (pages j)) ->
  _is_finished (_get_next_page_token (pages k))
    (Z.of_nat (S k) * report_page_size self)%Z (report_max_records self) = true ->
  forall fuel, (k < fuel)%nat ->
    List.length
      (w_yield (fst (_request_records analytics py_int py_float_ok fuel self rkv
                       world0)))
    = rows_upto pages (S k).
Proof.
  intros Hsf Hserved Hparsed Hrun Hfresh Hfin fuel Hfuel.
  rewrite (request_records_eq _ _ _ _ _ _ _ _ Hsf).
  destruct (run_to_finish analytics py_int py_float_ok self sf
              (report_page_size self) (report_max_records self) pages (S k)
              (fun j tok _ => Hserved j tok) (fun j w _ => Hparsed j w) k)
    with (fuel := fuel) as (w' & Hw & Hc & Hy).
  - lia.
  - exact Hrun.
  - intros j Hj. apply Hfresh; [lia|].
    apply (not_finished_truthy (report_max_records self) _
             (Z.of_nat (S (S j)) * report_page_size self)%Z).
    apply Hrun. exact Hj.
  - exact Hfin.
  - intros j -> Ht. apply Hfresh; [lia | exact Ht].
  - exact Hfuel.
  - rewrite Hw. exact Hy.
Qed.

Lemma records_of_all_pages_witness :
  List.length
    (w_yield (fst (_request_records (ending_server 2) sample_int (fun _ => true) 5
                     (sample_stream (sample_report None)) None world0)))
  = 3%nat.
Proof.
  apply (records_of_all_pages (ending_server 2) sample_int
           (fun _ => true) (sample_stream (sample_report None)) None
           "2024-01-01"
           (fun j => sample_page (if (j <? 2)%nat then Some (cursor j) else None))
           2).
  - reflexivity.
  - intros j tok. apply ending_server_served.
  - intros j w. apply sample_page_parsed.
  - intros j Hj. destruct j as [|[|j]]; [reflexivity | reflexivity | lia].
  - intros j Hj. destruct j as [|[|j]]; [discriminate | discriminate | lia].
  - reflexivity.
  - lia.
Defined.

(** * Further properties of the date handling *)

(** A year and a month written with four and two digits are read back by
    the format [%Y%m], as the first day of the month. *)
Lemma strptime_year_month y m :
  (1 <= y <= 9999)%Z -> (1 <= m <= 12)%Z ->
  Date.strptime (Date.pad4 y +:+ Date.pad2 m) Date.fmt_year_month
  = Ok (Date.Datetime y m 1).
Proof.
  intros Hy Hm.
  assert (Hv : Date.valid y m 1 = true).
  { unfold Date.valid. rewrite !andb_true_iff, !Z.leb_le.
    assert (28 <= Date.days_in_month y m)%Z.
    { unfold Date.days_in_month.
      repeat match goal with |- context [if ?b then _ else _] => destruct b end; lia. }
    lia. }
  apply strptime_head; [|exact Hv].
  unfold Date.fmt_year_month.
  change (Date.matches (Date.DY :: [Date.Dm]) (Date.Datetime 1900 1 1)
            (Date.pad4 y +:+ Date.pad2 m))
    with (match Date.four (Date.pad4 y +:+ Date.pad2 m) with
          | Some (v, rest) => Date.matches [Date.Dm] (Date.Datetime v 1 1) rest
          | None => []
          end ++ []).
  rewrite four_pad4 by lia. rewrite app_nil_r.
  pattern m. apply (Z_range_nat _ 1 12); [|lia].
  intros i Hi.
  do 12 (destruct i as [|i]; [vm_compute; reflexivity|]). lia.
Qed.

Section date_columns.
Context (py_int : string -> option Z) (py_float_ok : string -> bool).
Context (self : stream).

(** X14: for the dimension ["ga:date"], kept as a string, a value that
    is a date in compact form is stored as it is under [ga_date], and the
    same date in dashed form is added under [ga_date_dt]. *)
Theorem daily_date_column (t : Date.datetime) (record : pydict json) (w : world) :
  Date.valid (Date.year t) (Date.month t) (Date.day t) = true ->
  (1000 <= Date.year t)%Z ->
  _lookup_data_type "dimension" "ga:date" (dimensions_ref self) (metrics_ref self) w
  = (w, Ok "string") ->
  parse_dimension py_int py_float_ok self ("ga:date", Date.strftime_compact t)
    record w
  = (w, Ok (Dict.set "ga_date_dt" (JStr (Date.strftime_dashed t))
              (Dict.set "ga_date" (JStr (Date.strftime_compact t)) record))).
Proof using Type.
  intros Hv Hy Hlook. unfold parse_dimension. rewrite bind_eq, Hlook.
  change (_normalize_colname "ga:date") with "ga_date".
  change (coerce py_int py_float_ok "string" (Date.strftime_compact t))
    with (@Ok json (JStr (Date.strftime_compact t))).
  cbn [lift bind String.eqb Ascii.eqb Bool.eqb].
  rewrite (strptime_compact t Hv Hy). reflexivity.
Qed.

(** X15: for the dimension ["ga:yearMonth"], kept as a string, a value
    [YYYYMM] is stored as it is under [ga_year_month]; the first day of
    that month is added in compact form under [ga_date] and in dashed
    form under [ga_date_dt]. *)
Theorem monthly_date_columns (y m : Z) (record : pydict json) (w : world) :
  (1000 <= y <= 9999)%Z -> (1 <= m <= 12)%Z ->
  _lookup_data_type "dimension" "ga:yearMonth" (dimensions_ref self)
    (metrics_ref self) w = (w, Ok "string") ->
  parse_dimension py_int py_float_ok self
    ("ga:yearMonth", Date.pad4 y +:+ Date.pad2 m) record w
  = (w, Ok (Dict.set "ga_date_dt" (JStr (Date.pad4 y +:+ "-" +:+ Date.pad2 m +:+ "-01"))
              (Dict.set "ga_date" (JStr (Date.pad4 y +:+ Date.pad2 m +:+ "01"))
                 (Dict.set "ga_year_month" (JStr (Date.pad4 y +:+ Date.pad2 m))
                    record)))).
Proof using Type.
  intros Hy Hm Hlook. unfold parse_dimension. rewrite bind_eq, Hlook.
  change (_normalize_colname "ga:yearMonth") with "ga_year_month".
  change (coerce py_int py_float_ok "string" (Date.pad4 y +:+ Date.pad2 m))
    with (@Ok json (JStr (Date.pad4 y +:+ Date.pad2 m))).
  cbn [lift bind String.eqb Ascii.eqb Bool.eqb].
  rewrite (strptime_year_month y m) by lia.
  assert (Hv : Date.valid y m 1 = true).
  { unfold Date.valid. rewrite !andb_true_iff, !Z.leb_le.
    assert (28 <= Date.days_in_month y m)%Z.
    { unfold Date.days_in_month.
      repeat match goal with |- context [if ?b then _ else _] => destruct b end; lia. }
    lia. }
  pose proof (strptime_compact (Date.Datetime y m 1) Hv ltac:(cbn; lia)) as Hc.
  change (Date.strftime_compact (Date.Datetime y m 1))
    with (Date.strftime_month01 (Date.Datetime y m 1)) in Hc.
  cbn [bind ret lift]. rewrite Hc.
  unfold Date.strftime_month01, Date.strftime_dashed.
  cbn [Date.year Date.month Date.day]. rewrite year_digits_four by lia.
  reflexivity.
Qed.
End date_columns.

Lemma daily_date_column_witness :
  parse_dimension sample_int (fun _ => true) (sample_stream (sample_report None))
    ("ga:date", "20240105") [] world0
  = (world0, Ok [("ga_date", JStr "20240105"); ("ga_date_dt", JStr "2024-01-05")]).
Proof.
  apply (daily_date_column sample_int (fun _ => true)
           (sample_stream (sample_report None)) (Date.Datetime 2024 1 5) [] world0).
  - reflexivity.
  - cbn. lia.
  - vm_compute. reflexivity.
Defined.

Lemma monthly_date_columns_witness :
  parse_dimension sample_int (fun _ => true) (sample_stream monthly_report)
    ("ga:yearMonth", "202403") [] world0
  = (world0, Ok [("ga_year_month", JStr "202403"); ("ga_date", JStr "20240301");
                 ("ga_date_dt", JStr "2024-03-01")]).
Proof.
  apply (monthly_date_columns sample_int (fun _ => true)
           (sample_stream monthly_report) 2024 3 [] world0).
  - lia.
  - lia.
  - vm_compute. reflexivity.
Defined.

(** ** The start bookmark *)

Lemma strptime_valid s fmt t :
  Date.strptime s fmt = Ok t ->
  Date.valid (Date.year t) (Date.month t) (Date.day t) = true.
Proof.
  unfold Date.strptime. destruct (Date.matches fmt _ s) as [|[t' rest] l]; [discriminate|].
  destruct rest; [|discriminate].
  destruct (Date.valid _ _ _) eqn:E; [|discriminate].
  intros H. injection H as <-. exact E.
Qed.

(** What [strptime] raises is a [ValueError]. *)
Lemma strptime_raises s fmt e : Date.strptime s fmt = Raise e -> e = ValueError.
Proof.
  unfold Date.strptime. destruct (Date.matches fmt _ s) as [|[t' rest] l].
  - congruence.
  - destruct rest; [destruct (Date.valid _ _ _)|]; congruence.
Qed.

(** The bookmark [_get_state_filter] works on: the one of the state when
    it is true, the configured start date otherwise. *)
Lemma state_filter_parsed self rkv s :
  _get_state_filter self rkv = Ok s ->
  exists t,
    Date.valid (Date.year t) (Date.month t) (Date.day t) = true
    /\ s = Date.strftime_dashed t.
Proof.
  unfold _get_state_filter.
  destruct (if truthy rkv then _ else _) as [b|e]; [|discriminate].
  cbn [res_bind].
  destruct (Date.strptime b Date.fmt_compact) as [t|e] eqn:E1.
  - cbn [res_bind]. intros H. injection H as <-. exists t. split; [|reflexivity].
    eapply strptime_valid. exact E1.
  - apply strptime_raises in E1 as ->.
    destruct (Date.strptime b Date.fmt_dashed) as [t|e] eqn:E2; [|discriminate].
    cbn [res_bind]. intros H. injection H as <-. exists t. split; [|reflexivity].
    eapply strptime_valid. exact E2.
Qed.

Lemma year_digits_length y :
  (1 <= y <= 9999)%Z -> (4 <= String.length (Date.year_digits y))%nat ->
  (1000 <= y)%Z /\ String.length (Date.year_digits y) = 4%nat.
Proof.
  intros Hy. unfold Date.year_digits.
  destruct (Z.ltb_spec y 10); [cbn; lia|].
  destruct (Z.ltb_spec y 100); [cbn; lia|].
  destruct (Z.ltb_spec y 1000); [cbn; lia|].
  intros _. split; [lia | reflexivity].
Qed.

Lemma length_append (a b : string) :
  String.length (a +:+ b) = (String.length a + String.length b)%nat.
Proof.
  induction a as [|c a IH]; [reflexivity|].
  change (String c a +:+ b) with (String c (a +:+ b)).
  cbn [String.length Nat.add]. rewrite IH. reflexivity.
Qed.

(** X18: what [_get_state_filter] returns, when it has at least ten
    characters, is a bookmark it accepts and returns unchanged: a date of
    ten characters in dashed form, with a year of four digits.  (A year
    below 1000 is printed without padding, on fewer characters, and is not
    read back.) *)
Theorem state_filter_canonical
    (self : stream) (replication_key_value : option string) (s : string) :
  _get_state_filter self replication_key_value = Ok s ->
  (10 <= String.length s)%nat ->
  _get_state_filter self (Some s) = Ok s
  /\ String.length s = 10%nat.
Proof.
  intros H Hlen. apply state_filter_parsed in H as (t & Hv & ->).
  unfold Date.strftime_dashed in Hlen. rewrite length_append in Hlen.
  change (String.length
            ("-" +:+ Date.pad2 (Date.month t) +:+ "-" +:+ Date.pad2 (Date.day t)))
    with 6%nat in Hlen.
  destruct (year_digits_length (Date.year t)) as [Hy Hfour];
    [apply valid_bounds in Hv; lia | lia |].
  split.
  - apply state_filter_dashed; assumption.
  - unfold Date.strftime_dashed. rewrite length_append, Hfour. reflexivity.
Qed.

Lemma state_filter_canonical_witness :
  _get_state_filter (sample_stream (sample_report None)) (Some "2024-01-05")
  = Ok "2024-01-05"
  /\ String.length "2024-01-05" = 10%nat.
Proof.
  apply (state_filter_canonical (sample_stream (sample_report None))
           (Some "20240105") "2024-01-05"); [reflexivity | cbn; lia].
Defined.

(** A bookmark of the year 999 is printed on nine characters, which are
    not read back. *)
Lemma state_filter_short_year :
  _get_state_filter (sample_stream (sample_report None)) (Some "0999-12-31")
  = Ok "999-12-31"
  /\ _get_state_filter (sample_stream (sample_report None)) (Some "999-12-31")
     = Raise ValueError.
Proof. split; reflexivity. Qed.

Lemma two_width p1 p2 s v rest :
  Date.two p1 p2 s = Some (v, rest) -> String.length s = S (S (String.length rest)).
Proof.
  unfold Date.two. destruct s as [|c1 [|c2 s']]; try discriminate.
  destruct (Date.digit c1), (Date.digit c2); try discriminate.
  destruct (p1 _ && p2 _); [|discriminate].
  intros H. injection H as _ <-. reflexivity.
Qed.

Lemma one19_width s v rest :
  Date.one19 s = Some (v, rest) -> String.length s = S (String.length rest).
Proof.
  unfold Date.one19. destruct s as [|c s']; [discriminate|].
  destruct (Date.digit c); [|discriminate].
  destruct (1 <=? z)%Z; [|discriminate].
  intros H. injection H as _ <-. reflexivity.
Qed.

Lemma blank19_width s v rest :
  Date.blank19 s = Some (v, rest) -> String.length s = S (S (String.length rest)).
Proof.
  unfold Date.blank19. destruct s as [|c s']; [discriminate|].
  destruct (Ascii.eqb c " "); [|discriminate].
  intros H. apply one19_width in H. cbn [String.length]. rewrite H. reflexivity.
Qed.

Lemma four_width s v rest :
  Date.four s = Some (v, rest) ->
  String.length s = S (S (S (S (String.length rest)))).
Proof.
  unfold Date.four. destruct s as [|c1 [|c2 [|c3 [|c4 s']]]]; try discriminate.
  destruct (Date.digit c1), (Date.digit c2), (Date.digit c3), (Date.digit c4);
    try discriminate.
  intros H. injection H as _ <-. reflexivity.
Qed.

Lemma literal_width c s v rest :
  Date.literal c s = Some (v, rest) -> String.length s = S (String.length rest).
Proof.
  unfold Date.literal. destruct s as [|b s']; [discriminate|].
  destruct (Ascii.eqb b c); [|discriminate].
  intros H. injection H as _ <-. reflexivity.
Qed.

(** An alternative of a directive reads no more than its width. *)
Lemma alt_width d a s v rest :
  In a (Date.alts d) -> a s = Some (v, rest) ->
  (String.length s <= String.length rest + width d)%nat.
Proof.
  intros Ha H. destruct d; cbn [Date.alts In width] in *;
    repeat (destruct Ha as [<-|Ha]);
    try (destruct Ha);
    first [ apply two_width in H | apply one19_width in H
          | apply blank19_width in H | apply four_width in H
          | apply literal_width in H ];
    lia.
Qed.

(** A match of a format reads no more than the widths of its directives. *)
Lemma matches_width fmt : forall t s t' rest,
  In (t', rest) (Date.matches fmt t s) ->
  (String.length s <= String.length rest + max_width fmt)%nat.
Proof.
  induction fmt as [|d fmt IH]; intros t s t' rest; cbn [Date.matches max_width fold_right].
  - intros [H|[]]. injection H as _ <-. lia.
  - intros H. apply in_flat_map in H as (a & Ha & H).
    destruct (a s) as [[v r]|] eqn:E; [|destruct H].
    apply IH in H. pose proof (alt_width d a s v r Ha E). fold (max_width fmt). lia.
Qed.

Lemma strptime_too_long s fmt :
  (max_width fmt < String.length s)%nat -> Date.strptime s fmt = Raise ValueError.
Proof.
  intros Hlen. unfold Date.strptime.
  destruct (Date.matches fmt _ s) as [|[t rest] l] eqn:E; [reflexivity|].
  destruct rest; [|reflexivity]. exfalso.
  assert (H : In (t, "") (Date.matches fmt (Date.Datetime 1900 1 1) s))
    by (rewrite E; left; reflexivity).
  apply matches_width in H. cbn [String.length] in H. lia.
Qed.

(** X19: an ASCII bookmark of more than ten characters - a timestamp, say
    - is refused with [ValueError]: neither format reads that many. *)
Theorem state_filter_rejects_long_bookmark (self : stream) (bookmark : string) :
  Py.isascii bookmark = true ->
  (10 < String.length bookmark)%nat ->
  _get_state_filter self (Some bookmark) = Raise ValueError.
Proof.
  intros _ Hlen. unfold _get_state_filter.
  assert (Ht : truthy (Some bookmark) = true)
    by (destruct bookmark; [cbn in Hlen; lia | reflexivity]).
  rewrite Ht. cbn [res_bind default from_option id].
  rewrite (strptime_too_long bookmark Date.fmt_compact) by (cbn; lia).
  rewrite (strptime_too_long bookmark Date.fmt_dashed) by (cbn; lia).
  reflexivity.
Qed.

Lemma state_filter_rejects_long_bookmark_witness :
  _get_state_filter (sample_stream (sample_report None))
    (Some "2024-01-05T00:00:00Z") = Raise ValueError.
Proof.
  apply (state_filter_rejects_long_bookmark (sample_stream (sample_report None))
           "2024-01-05T00:00:00Z").
  - reflexivity.
  - cbn. lia.
Defined.

(** X20: an extraction needs a start: with no bookmark in the state, or
    an empty one, and no start date in the configuration,
    [_request_records] fails with [KeyError: 'start_date'] before any request
    is made; a bookmark that [_get_state_filter] refuses ends the extraction
    in the same way, with nothing sent, logged or yielded. *)
Theorem extraction_needs_start_date
    (analytics : nat -> nat -> json -> res response)
    (py_int : string -> option Z) (py_float_ok : string -> bool)
    (self : stream) (rkv : option string) (fuel : nat) (w : world) :
  (truthy rkv = false -> cfg_start_date (cfg self) = None ->
   _request_records analytics py_int py_float_ok fuel self rkv w
   = (w, Raise (KeyError "start_date")))
  /\ (forall e,
        _get_state_filter self rkv = Raise e ->
        _request_records analytics py_int py_float_ok fuel self rkv w
        = (w, Raise e)).
Proof.
  assert (H : forall e,
             _get_state_filter self rkv = Raise e ->
             _request_records analytics py_int py_float_ok fuel self rkv w
             = (w, Raise e)).
  { intros e He. unfold _request_records. rewrite bind_eq. unfold lift.
    rewrite He. reflexivity. }
  split; [|exact H].
  intros Ht Hc. apply H. unfold _get_state_filter. rewrite Ht, Hc. reflexivity.
Qed.

Lemma extraction_needs_start_date_witness :
  _request_records fresh_server sample_int (fun _ => true) 5
    (with_config (sample_stream (sample_report None)) undated_config) None world0
  = (world0, Raise (KeyError "start_date"))
  /\ _request_records fresh_server sample_int (fun _ => true) 5
       (sample_stream (sample_report None)) (Some "2024-01-05T00:00:00Z") world0
     = (world0, Raise ValueError).
Proof.
  split.
  - apply (proj1 (extraction_needs_start_date fresh_server sample_int (fun _ => true)
                    (with_config (sample_stream (sample_report None)) undated_config)
                    None 5 world0)); reflexivity.
  - apply (proj2 (extraction_needs_start_date fresh_server sample_int (fun _ => true)
                    (sample_stream (sample_report None))
                    (Some "2024-01-05T00:00:00Z") 5 world0)).
    reflexivity.
Defined.

(** ** The end date *)

Lemma all_digits_app a b :
  all_digits a = true -> all_digits b = true -> all_digits (a +:+ b) = true.
Proof.
  intros Ha Hb. induction a as [|c a IH]; [exact Hb|].
  change (String c a +:+ b) with (String c (a +:+ b)).
  cbn [all_digits] in *. destruct (Date.digit c); [auto | discriminate].
Qed.

Lemma all_digits_pad2 n : (0 <= n <= 99)%Z -> all_digits (Date.pad2 n) = true.
Proof.
  intros H. unfold Date.pad2. cbn [all_digits].
  rewrite !digit_of_digit_char by (Z.to_euclidean_division_equations; lia).
  reflexivity.
Qed.

Lemma all_digits_year y : (0 <= y <= 9999)%Z -> all_digits (Date.year_digits y) = true.
Proof.
  intros H. unfold Date.year_digits.
  destruct (Z.ltb_spec y 10).
  { cbn [all_digits]. rewrite digit_of_digit_char by lia. reflexivity. }
  destruct (Z.ltb_spec y 100); [apply all_digits_pad2; lia|].
  destruct (Z.ltb_spec y 1000).
  { cbn [all_digits].
    rewrite digit_of_digit_char by (Z.to_euclidean_division_equations; lia).
    apply all_digits_pad2. Z.to_euclidean_division_equations; lia. }
  unfold Date.pad4. cbn [all_digits].
  rewrite !digit_of_digit_char by (Z.to_euclidean_division_equations; lia).
  reflexivity.
Qed.

(** The dashed format reads no string of digits: after the year it wants
    a dash. *)
Lemma strptime_dashed_of_digits s :
  all_digits s = true -> Date.strptime s Date.fmt_dashed = Raise ValueError.
Proof.
  intros H. unfold Date.strptime, Date.fmt_dashed.
  change (Date.matches
            (Date.DY :: [Date.Lit "-"; Date.Dm; Date.Lit "-"; Date.Dd])
            (Date.Datetime 1900 1 1) s)
    with (match Date.four s with
          | Some (v, rest) =>
              match Date.literal "-" rest with
              | Some (v', rest') =>
                  Date.matches [Date.Dm; Date.Lit "-"; Date.Dd]
                    (Date.Datetime v 1 1) rest'
              | None => []
              end ++ []
          | None => []
          end ++ []).
  destruct s as [|c1 [|c2 [|c3 [|c4 rest]]]]; try reflexivity.
  cbn [all_digits] in H. unfold Date.four.
  destruct (Date.digit c1), (Date.digit c2), (Date.digit c3), (Date.digit c4);
    try discriminate H.
  destruct rest as [|b rest]; [reflexivity|].
  cbn [all_digits] in H. unfold Date.literal.
  destruct (Ascii.eqb_spec b "-") as [->|]; [discriminate H | reflexivity].
Qed.

(** The compact form does not match the dashed format. *)
Lemma strptime_dashed_of_compact t :
  Date.valid (Date.year t) (Date.month t) (Date.day t) = true ->
  Date.strptime (Date.strftime_compact t) Date.fmt_dashed = Raise ValueError.
Proof.
  intros Hv. destruct (valid_bounds _ _ _ Hv) as (Hy & Hm & Hd).
  apply strptime_dashed_of_digits. unfold Date.strftime_compact.
  repeat apply all_digits_app;
    [apply all_digits_year | apply all_digits_pad2 | apply all_digits_pad2]; lia.
Qed.

(** X21: the end date is read in dashed form only: a configured end date
    in the compact form [YYYYMMDD], which the start bookmark may have,
    makes the construction of the stream fail with [ValueError]. *)
Theorem end_date_rejects_compact
    (name tap_stream_id : string) (config : config) (ga_report : report_spec)
    (dref mref : gmap string string) (utcnow t : Date.datetime) :
  Date.valid (Date.year t) (Date.month t) (Date.day t) = true ->
  cfg_end_date config = Some (Date.strftime_compact t) ->
  _get_end_date config utcnow = Raise ValueError
  /\ init name tap_stream_id config ga_report dref mref utcnow = Raise ValueError.
Proof.
  intros Hv Hc.
  assert (E : _get_end_date config utcnow = Raise ValueError).
  { unfold _get_end_date. rewrite Hc. cbn [default from_option id].
    rewrite strptime_dashed_of_compact by exact Hv. reflexivity. }
  split; [exact E|]. unfold init. rewrite E. reflexivity.
Qed.

(** X22: without a configured end date the stream ends the day before the
    current UTC date.  (Stated for the years written with four digits.) *)
Theorem end_date_defaults_to_yesterday
    (name tap_stream_id : string) (config : config) (ga_report : report_spec)
    (dref mref : gmap string string) (utcnow : Date.datetime) :
  Date.valid (Date.year utcnow) (Date.month utcnow) (Date.day utcnow) = true ->
  (1000 < Date.year utcnow)%Z ->
  cfg_end_date config = None ->
  exists self yesterday,
    init name tap_stream_id config ga_report dref mref utcnow = Ok self
    /\ Date.minus_one_day utcnow = Ok yesterday
    /\ Date.toordinal yesterday = (Date.toordinal utcnow - 1)%Z
    /\ end_date self = Date.strftime_dashed yesterday.
Proof.
  intros Hv Hy Hc.
  destruct (minus_one_day_spec utcnow Hv ltac:(lia)) as (t' & H1 & _ & H3 & _).
  assert (E : _get_end_date config utcnow = Ok (Date.strftime_dashed t')).
  { unfold _get_end_date. rewrite Hc. cbn [default from_option id].
    rewrite strptime_dashed by (assumption || lia). cbn [res_bind]. rewrite H1.
    reflexivity. }
  unfold init. rewrite E. cbn [res_bind]. eexists. exists t'.
  repeat apply conj; [reflexivity | exact H1 | exact H3 | reflexivity].
Qed.

Lemma end_date_rejects_compact_witness :
  init "sessions" "sessions" compact_end_config (sample_report None)
    sample_dimensions_ref sample_metrics_ref (Date.Datetime 2024 3 9)
  = Raise ValueError.
Proof.
  apply (end_date_rejects_compact "sessions" "sessions" compact_end_config
           (sample_report None) sample_dimensions_ref sample_metrics_ref
           (Date.Datetime 2024 3 9) (Date.Datetime 2024 3 1));
    reflexivity.
Defined.

Lemma end_date_defaults_to_yesterday_witness :
  exists self,
    init "sessions" "sessions" undated_config (sample_report None)
      sample_dimensions_ref sample_metrics_ref (Date.Datetime 2024 3 1) = Ok self
    /\ end_date self = "2024-02-29".
Proof.
  destruct (end_date_defaults_to_yesterday "sessions" "sessions" undated_config
              (sample_report None) sample_dimensions_ref sample_metrics_ref
              (Date.Datetime 2024 3 1))
    as (self & yesterday & H1 & H2 & _ & H4).
  - reflexivity.
  - cbn. lia.
  - reflexivity.
  - exists self. split; [exact H1|]. rewrite H4.
    cbn in H2. injection H2 as <-. reflexivity.
Defined.

(** * Further properties of the schema synthesizer *)

Lemma required_in_app_l props props' k :
  required_in props k -> required_in (props ++ props') k.
Proof.
  intros (p & Hin & Hp). exists p. split; [|exact Hp].
  apply in_or_app. left. exact Hin.
Qed.

Lemma required_in_last props k t :
  required_in (props ++ [Property k t true]) k.
Proof.
  exists (Property k t true). split; [|split; reflexivity].
  apply in_or_app. right. left. reflexivity.
Qed.

Lemma for_each_invariant {A S} (P : S -> Prop) (l : list A) (body : A -> S -> M S) :
  (forall x s w w' s', body x s w = (w', Ok s') -> P s -> P s') ->
  forall s w w' s', for_each l body s w = (w', Ok s') -> P s -> P s'.
Proof.
  intros Hb. induction l as [|x l IH]; intros s w w' s'; cbn [for_each].
  - unfold ret. intros H. injection H as _ <-. trivial.
  - rewrite bind_eq. destruct (body x s w) as [w1 [s1|e]] eqn:E; [|discriminate].
    intros H Hs. eapply IH; [exact H|]. eapply Hb; eassumption.
Qed.

Section schema_keys.
Context (self : stream).

(** A turn of the loop over the dimensions keeps the keys declared. *)
Lemma schema_dimension_declared d v w w' v' :
  schema_dimension self d v w = (w', Ok v') ->
  keys_declared v -> keys_declared v'.
Proof.
  unfold schema_dimension. rewrite bind_eq.
  destruct (_lookup_data_type _ _ _ _ w) as [w1 [t|e]]; [|discriminate].
  unfold ret. intros H. injection H as _ <-. intros [Hpk Hrk].
  destruct (String.eqb d "ga:date") eqn:Ed, (String.eqb d "ga:yearMonth") eqn:Em;
    cbn [properties primary_keys replication_key]; split.
  - apply String.eqb_eq in Ed, Em. subst d. discriminate Em.
  - apply String.eqb_eq in Ed, Em. subst d. discriminate Em.
  - apply String.eqb_eq in Ed. subst d.
    intros k Hk. apply in_app_or in Hk as [Hk|[<-|[]]].
    + do 2 apply required_in_app_l. apply Hpk, Hk.
    + apply required_in_last.
  - apply String.eqb_eq in Ed. subst d.
    intros k Hk. injection Hk as <-. apply required_in_last.
  - intros k Hk. apply in_app_or in Hk as [Hk|[<-|[]]].
    + apply in_app_or in Hk as [Hk|[<-|[]]].
      * do 2 apply required_in_app_l. apply Hpk, Hk.
      * apply required_in_app_l.
        exists (Property "ga_date" StringType true). split; [|split; reflexivity].
        apply in_or_app. right. left. reflexivity.
    + apply required_in_last.
  - intros k Hk. injection Hk as <-. apply required_in_app_l.
    exists (Property "ga_date" StringType true). split; [|split; reflexivity].
    apply in_or_app. right. left. reflexivity.
  - intros k Hk. apply in_app_or in Hk as [Hk|[<-|[]]].
    + apply required_in_app_l. apply Hpk, Hk.
    + apply required_in_last.
  - intros k Hk. apply required_in_app_l. apply Hrk, Hk.
Qed.

Lemma schema_metric_declared m v w w' v' :
  schema_metric self m v w = (w', Ok v') ->
  keys_declared v -> keys_declared v'.
Proof.
  unfold schema_metric. rewrite bind_eq.
  destruct (_lookup_data_type _ _ _ _ w) as [w1 [t|e]]; [|discriminate].
  unfold ret. intros H. injection H as _ <-. intros [Hpk Hrk].
  cbn [properties primary_keys replication_key]. split.
  - intros k Hk. apply required_in_app_l. apply Hpk, Hk.
  - intros k Hk. apply required_in_app_l. apply Hrk, Hk.
Qed.

(** X16: in every schema that is synthesized, each primary key - the
    view, the dimension columns, the extra [ga_date] of a monthly report,
    the report dates of a report without date dimension - and the
    replication key, when one is set, is the name of a required property
    of the schema. *)
Theorem schema_keys_are_properties (w w' : world) (v : schema_vars) :
  schema self w = (w', Ok v) ->
  (forall k, In k (primary_keys v) -> required_in (properties v) k)
  /\ (forall k, replication_key v = Some k -> required_in (properties v) k).
Proof using Type.
  unfold schema. rewrite bind_eq.
  destruct (for_each (r_dimensions (report self)) _ _ w) as [w1 [v1|e]] eqn:E1;
    [|discriminate].
  rewrite bind_eq.
  destruct (for_each (r_metrics (report self)) _ _ w1) as [w2 [v2|e]] eqn:E2;
    [|discriminate].
  assert (D1 : keys_declared v1).
  { eapply (for_each_invariant keys_declared); [|exact E1|].
    - intros x s w0 w0' s'. apply schema_dimension_declared.
    - split.
      + intros k [<-|[]]. exists (Property "view_id" StringType true).
        split; [left; reflexivity | split; reflexivity].
      + intros k Hk. discriminate Hk. }
  assert (D2 : keys_declared v2).
  { eapply (for_each_invariant keys_declared); [|exact E2|exact D1].
    intros x s w0 w0' s'. apply schema_metric_declared. }
  destruct D2 as [Hpk Hrk].
  cbn [date_dimension_included properties primary_keys replication_key].
  destruct (date_dimension_included v2); cbn [negb].
  - unfold ret. intros H. injection H as _ <-.
    cbn [properties primary_keys replication_key]. split.
    + intros k Hk. apply required_in_app_l. apply Hpk, Hk.
    + intros k Hk. apply required_in_app_l. apply Hrk, Hk.
  - rewrite bind_eq. cbn [logger]. unfold ret. intros H. injection H as _ <-.
    cbn [properties primary_keys replication_key]. split.
    + intros k Hk. apply in_app_or in Hk as [Hk|[<-|[<-|[]]]].
      * apply required_in_app_l. apply Hpk, Hk.
      * exists (Property "report_start_date" DateType true).
        split; [|split; reflexivity]. apply in_or_app. right. left. reflexivity.
      * exists (Property "report_end_date" DateType true).
        split; [|split; reflexivity].
        apply in_or_app. right. right. left. reflexivity.
    + intros k Hk. apply required_in_app_l. apply Hrk, Hk.
Qed.
End schema_keys.

Lemma schema_keys_are_properties_witness :
  exists w' v,
    schema (sample_stream monthly_report) world0 = (w', Ok v)
    /\ primary_keys v = ["view_id"; "ga_date"; "ga_year_month"]
    /\ (forall k, In k (primary_keys v) -> required_in (properties v) k)
    /\ required_in (properties v) "ga_date".
Proof.
  eexists. eexists. split; [vm_compute; reflexivity|].
  split; [reflexivity|].
  match goal with
  | |- (forall k, In k (primary_keys ?v) -> _) /\ _ =>
      destruct (schema_keys_are_properties (sample_stream monthly_report)
                  world0 world0 v) as [Hpk Hrk]
  end.
  - vm_compute. reflexivity.
  - split; [exact Hpk | apply Hrk; reflexivity].
Defined.

Lemma returns_or_exits_dimension a dref mref :
  returns_or_exits (_lookup_data_type "dimension" a dref mref).
Proof.
  intros w.
  change (_lookup_data_type "dimension" a dref mref w)
    with (_parse_dimension_type a dref w).
  rewrite dimension_type_spec.
  destruct (dimension_pattern a); [left; eexists; reflexivity|].
  destruct (dref !! a); [left; eexists; reflexivity | right; reflexivity].
Qed.

Lemma returns_or_exits_metric a dref mref :
  returns_or_exits (_lookup_data_type "metric" a dref mref).
Proof.
  intros w.
  change (_lookup_data_type "metric" a dref mref w)
    with (_parse_metric_type a mref w).
  rewrite metric_type_spec.
  destruct (metric_pattern a); [left; eexists; reflexivity|].
  destruct (mref !! a); [left; eexists; reflexivity | right; reflexivity].
Qed.

Lemma returns_or_exits_for_each {A S} (l : list A) (body : A -> S -> M S) :
  (forall x s, returns_or_exits (body x s)) ->
  forall s, returns_or_exits (for_each l body s).
Proof.
  intros Hb. induction l as [|x l IH]; intros s w; cbn [for_each].
  - left. eexists. reflexivity.
  - rewrite bind_eq. destruct (Hb x s w) as [[s1 ->]| ->]; [apply IH | right; reflexivity].
Qed.

(** A loop one of whose turns exits, exits. *)
Lemma for_each_exits {A S} (l : list A) (body : A -> S -> M S) x :
  (forall y s, returns_or_exits (body y s)) ->
  In x l ->
  (forall s w, body x s w = (fatal_world w, Raise (SystemExit 1))) ->
  forall s w, for_each l body s w = (fatal_world w, Raise (SystemExit 1)).
Proof.
  intros Hb Hin Hx. induction l as [|y l IH]; intros s w; [destruct Hin|].
  cbn [for_each]. rewrite bind_eq. destruct Hin as [->|Hin].
  - rewrite Hx. reflexivity.
  - destruct (Hb y s w) as [[s1 ->]| ->]; [apply IH, Hin | reflexivity].
Qed.

Section schema_exit.
Context (self : stream).

Lemma returns_or_exits_schema_dimension d v :
  returns_or_exits (schema_dimension self d v).
Proof.
  intros w. unfold schema_dimension. rewrite bind_eq.
  destruct (returns_or_exits_dimension d (dimensions_ref self) (metrics_ref self) w)
    as [[t ->]| ->]; [left; eexists; reflexivity | right; reflexivity].
Qed.

Lemma returns_or_exits_schema_metric m v :
  returns_or_exits (schema_metric self m v).
Proof.
  intros w. unfold schema_metric. rewrite bind_eq.
  destruct (returns_or_exits_metric m (dimensions_ref self) (metrics_ref self) w)
    as [[t ->]| ->]; [left; eexists; reflexivity | right; reflexivity].
Qed.

Lemma schema_dimension_untyped d v w :
  untyped_dimension self d ->
  schema_dimension self d v w = (fatal_world w, Raise (SystemExit 1)).
Proof.
  intros [Hp Hc]. unfold schema_dimension. rewrite bind_eq.
  change (_lookup_data_type "dimension" d (dimensions_ref self) (metrics_ref self) w)
    with (_parse_dimension_type d (dimensions_ref self) w).
  rewrite dimension_type_spec, Hp, Hc. reflexivity.
Qed.

Lemma schema_metric_untyped m v w :
  untyped_metric self m ->
  schema_metric self m v w = (fatal_world w, Raise (SystemExit 1)).
Proof.
  intros [Hp Hc]. unfold schema_metric. rewrite bind_eq.
  change (_lookup_data_type "metric" m (dimensions_ref self) (metrics_ref self) w)
    with (_parse_metric_type m (metrics_ref self) w).
  rewrite metric_type_spec, Hp, Hc. reflexivity.
Qed.

(** X17: a report with a dimension or a metric that no pattern rule and
    no catalog entry gives a type has no schema: the synthesis ends the
    process with exit code 1, after one critical log line and nothing
    else. *)
Theorem schema_of_untyped_name_exits (w : world) :
  (exists d, In d (r_dimensions (report self)) /\ untyped_dimension self d)
  \/ (exists m, In m (r_metrics (report self)) /\ untyped_metric self m) ->
  schema self w = (fatal_world w, Raise (SystemExit 1)).
Proof using Type.
  intros H. unfold schema. rewrite bind_eq.
  destruct H as [(d & Hin & Hd)|(m & Hin & Hm)].
  - rewrite (for_each_exits _ (schema_dimension self) d).
    + reflexivity.
    + intros y s. apply returns_or_exits_schema_dimension.
    + exact Hin.
    + intros s w0. apply schema_dimension_untyped, Hd.
  - destruct (returns_or_exits_for_each (r_dimensions (report self))
                (schema_dimension self)
                (fun x s => returns_or_exits_schema_dimension x s)
                {| properties := [Property "view_id" StringType true;
                                  Property "stream" StringType true];
                   primary_keys := ["view_id"];
                   date_dimension_included := false;
                   replication_key := None |} w) as [[v1 ->]| ->];
      [|reflexivity].
    rewrite bind_eq.
    rewrite (for_each_exits _ (schema_metric self) m).
    + reflexivity.
    + intros y s. apply returns_or_exits_schema_metric.
    + exact Hin.
    + intros s w0. apply schema_metric_untyped, Hm.
Qed.
End schema_exit.

Lemma schema_of_untyped_name_exits_witness :
  schema (sample_stream unknown_dimension_report) world0
  = (World [(CRITICAL, "Unsuported GA type: <class 'type'>")] [] [] [],
     Raise (SystemExit 1)).
Proof.
  apply (schema_of_untyped_name_exits (sample_stream unknown_dimension_report) world0).
  left. exists "ga:flavour". split.
  - right. left. reflexivity.
  - split; reflexivity.
Defined.

(** ** The properties of the schema and the keys of the records *)

Section schema_names.
Context (self : stream).

Lemma schema_dimension_names d v w w' v' :
  schema_dimension self d v w = (w', Ok v') ->
  map prop_name (properties v')
  = map prop_name (properties v) ++ schema_columns d.
Proof.
  unfold schema_dimension, schema_columns. rewrite bind_eq.
  destruct (_lookup_data_type _ _ _ _ w) as [w1 [t|e]]; [|discriminate].
  unfold ret. intros H. injection H as _ <-.
  destruct (String.eqb d "ga:date"), (String.eqb d "ga:yearMonth");
    cbn [properties]; rewrite !map_app; cbn [map prop_name app];
    rewrite <- ?app_assoc; reflexivity.
Qed.

Lemma schema_dimensions_names dims : forall v w w' v',
  for_each dims (schema_dimension self) v w = (w', Ok v') ->
  map prop_name (properties v')
  = map prop_name (properties v) ++ flat_map schema_columns dims.
Proof.
  induction dims as [|d dims IH]; intros v w w' v'; cbn [for_each flat_map].
  - unfold ret. intros H. injection H as _ <-. rewrite app_nil_r. reflexivity.
  - rewrite bind_eq.
    destruct (schema_dimension self d v w) as [w1 [v1|e]] eqn:E; [|discriminate].
    intros H. apply IH in H. apply schema_dimension_names in E.
    rewrite H, E, <- app_assoc. reflexivity.
Qed.

Lemma schema_metrics_names mets : forall v w w' v',
  for_each mets (schema_metric self) v w = (w', Ok v') ->
  map prop_name (properties v')
  = map prop_name (properties v) ++ map _normalize_colname mets.
Proof.
  induction mets as [|m mets IH]; intros v w w' v'; cbn [for_each map].
  - unfold ret. intros H. injection H as _ <-. rewrite app_nil_r. reflexivity.
  - rewrite bind_eq. unfold schema_metric at 1. rewrite bind_eq.
    destruct (_lookup_data_type _ _ _ _ w) as [w1 [t|e]]; [|discriminate].
    unfold ret at 1. intros H. apply IH in H. rewrite H. cbn [properties].
    rewrite map_app, <- app_assoc. reflexivity.
Qed.

(** The names of the properties of a synthesized schema. *)
Lemma schema_names w w' v :
  schema self w = (w', Ok v) ->
  map prop_name (properties v)
  = ["view_id"; "stream"]
    ++ flat_map schema_columns (r_dimensions (report self))
    ++ map _normalize_colname (r_metrics (report self))
    ++ ["report_start_date"; "report_end_date"].
Proof.
  unfold schema. rewrite bind_eq.
  destruct (for_each (r_dimensions (report self)) _ _ w) as [w1 [v1|e]] eqn:E1;
    [|discriminate].
  rewrite bind_eq.
  destruct (for_each (r_metrics (report self)) _ _ w1) as [w2 [v2|e]] eqn:E2;
    [|discriminate].
  apply schema_dimensions_names in E1. apply schema_metrics_names in E2.
  cbn [properties map prop_name] in E1.
  cbn [date_dimension_included properties].
  destruct (date_dimension_included v2); cbn [negb].
  - unfold ret. intros H. injection H as _ <-. cbn [properties].
    rewrite map_app, E2, E1. cbn [map prop_name]. rewrite <- !app_assoc. reflexivity.
  - rewrite bind_eq. cbn [logger]. unfold ret. intros H. injection H as _ <-.
    cbn [properties].
    rewrite map_app, E2, E1. cbn [map prop_name]. rewrite <- !app_assoc. reflexivity.
Qed.
End schema_names.

(** The columns the schema declares for the dimensions, as a set. *)
Lemma in_schema_columns dims name :
  In name (flat_map schema_columns dims)
  <-> In name (map _normalize_colname dims)
      \/ (name = "ga_date_dt" /\ existsb is_date_dimension dims = true)
      \/ (name = "ga_date" /\ In "ga:yearMonth" dims).
Proof.
  induction dims as [|d dims IH]; cbn [flat_map map In existsb].
  - split; [intros [] | intros [[]|[[_ H]|[_ []]]]; discriminate H].
  - rewrite in_app_iff, IH. unfold schema_columns.
    change (is_date_dimension d)
      with (String.eqb d "ga:date" || String.eqb d "ga:yearMonth").
    destruct (String.eqb_spec d "ga:date") as [Hd|Hd];
      destruct (String.eqb_spec d "ga:yearMonth") as [Hm|Hm];
      cbn [app In orb]; intuition congruence.
Qed.

(** X25: the names of the properties of a synthesized schema.  A name is
    among the properties handed to [th.PropertiesList] - the properties of
    the schema returned, which is keyed by name - exactly when it is
    [view_id], [stream], a report date, the column of a dimension or of a
    metric, [ga_date_dt] when ["ga:date"] or ["ga:yearMonth"] is a
    dimension, or [ga_date] when ["ga:yearMonth"] is one - whatever the
    types the catalogs give. *)
Theorem schema_property_names (self : stream) (w w' : world) (v : schema_vars) :
  schema self w = (w', Ok v) ->
  forall name,
    In name (map prop_name (properties v))
    <-> In name ["view_id"; "stream"; "report_start_date"; "report_end_date"]
        \/ In name (map _normalize_colname (r_dimensions (report self)))
        \/ In name (map _normalize_colname (r_metrics (report self)))
        \/ (name = "ga_date_dt"
            /\ existsb is_date_dimension (r_dimensions (report self)) = true)
        \/ (name = "ga_date" /\ In "ga:yearMonth" (r_dimensions (report self))).
Proof.
  intros H name. rewrite (schema_names self w w' v H).
  rewrite !in_app_iff, in_schema_columns. cbn [In]. tauto.
Qed.

Lemma schema_property_names_witness :
  exists w' v,
    schema (sample_stream (plain_report ["ga:yearMonth"; "ga:date"] ["ga:sessions"]))
      world0 = (w', Ok v)
    /\ In "ga_date" (map prop_name (properties v))
    /\ In "ga_date_dt" (map prop_name (properties v))
    /\ ~ In "ga_country" (map prop_name (properties v)).
Proof.
  eexists. eexists. split; [vm_compute; reflexivity|].
  match goal with
  | |- In _ (map prop_name (properties ?v)) /\ _ =>
      pose proof (schema_property_names
                    (sample_stream
                       (plain_report ["ga:yearMonth"; "ga:date"] ["ga:sessions"]))
                    world0 world0 v ltac:(vm_compute; reflexivity)) as H
  end.
  repeat apply conj.
  - apply H. right. left. cbn. tauto.
  - apply H. do 3 right. left. split; reflexivity.
  - intros Hin. apply H in Hin. cbn in Hin.
    repeat match goal with
           | H : _ \/ _ |- _ => destruct H
           | H : _ /\ _ |- _ => destruct H
           | H : False |- _ => destruct H
           end; discriminate.
Defined.

Lemma keys_set {V} k (v : V) d x :
  In x (Dict.keys (Dict.set k v d)) -> x = k \/ In x (Dict.keys d).
Proof.
  induction d as [|[k' v'] d IH]; cbn [Dict.set Dict.keys map fst In].
  - intros [<-|[]]. left. reflexivity.
  - destruct (String.eqb k' k); cbn [Dict.keys map fst In].
    + intros [<-|H]; [left; reflexivity | right; right; exact H].
    + intros [<-|H]; [right; left; reflexivity|].
      destruct (IH H) as [->|H']; [left; reflexivity | right; right; exact H'].
Qed.

Lemma for_each_invariant_in {A S} (P : S -> Prop) (l : list A) (body : A -> S -> M S) :
  (forall x s w w' s', In x l -> body x s w = (w', Ok s') -> P s -> P s') ->
  forall s w w' s', for_each l body s w = (w', Ok s') -> P s -> P s'.
Proof.
  induction l as [|x l IH]; intros Hb s w w' s'; cbn [for_each].
  - unfold ret. intros H. injection H as _ <-. trivial.
  - rewrite bind_eq. destruct (body x s w) as [w1 [s1|e]] eqn:E; [|discriminate].
    intros H Hs. eapply IH; [|exact H|].
    + intros y s0 w0 w0' s0' Hy. apply Hb. right. exact Hy.
    + eapply Hb; [left; reflexivity | exact E | exact Hs].
Qed.

Section record_keys.
Context (py_int : string -> option Z) (py_float_ok : string -> bool).
Context (self : stream).

(** The keys one dimension adds to a record. *)
Lemma parse_dimension_keys h d record w w' record' :
  parse_dimension py_int py_float_ok self (h, d) record w = (w', Ok record') ->
  forall x, In x (Dict.keys record') ->
    In x (Dict.keys record) \/ In x (record_columns h).
Proof.
  unfold parse_dimension, record_columns. rewrite bind_eq.
  destruct (_lookup_data_type _ _ _ _ w) as [w1 [t|e]]; [|discriminate].
  rewrite bind_eq. unfold lift at 1.
  destruct (coerce py_int py_float_ok t d) as [value|e]; [|discriminate].
  rewrite bind_eq.
  destruct (String.eqb (_normalize_colname h) "ga_date").
  - rewrite bind_eq. unfold lift at 1.
    destruct (Date.strptime d Date.fmt_compact) as [t1|e]; [|discriminate].
    unfold ret at 1.
    destruct (String.eqb (_normalize_colname h) "ga_year_month").
    + rewrite bind_eq. unfold lift at 1.
      destruct (Date.strptime d Date.fmt_year_month) as [t2|e]; [|discriminate].
      rewrite bind_eq. unfold lift at 1.
      destruct (Date.strptime _ Date.fmt_compact) as [t3|e]; [|discriminate].
      unfold ret. intros H. injection H as _ <-. intros x Hx.
      repeat (apply keys_set in Hx as [->|Hx]); cbn [In app]; auto 10.
    + unfold ret. intros H. injection H as _ <-. intros x Hx.
      repeat (apply keys_set in Hx as [->|Hx]); cbn [In app]; auto 10.
  - unfold ret at 1.
    destruct (String.eqb (_normalize_colname h) "ga_year_month").
    + rewrite bind_eq. unfold lift at 1.
      destruct (Date.strptime d Date.fmt_year_month) as [t2|e]; [|discriminate].
      rewrite bind_eq. unfold lift at 1.
      destruct (Date.strptime _ Date.fmt_compact) as [t3|e]; [|discriminate].
      unfold ret. intros H. injection H as _ <-. intros x Hx.
      repeat (apply keys_set in Hx as [->|Hx]); cbn [In app]; auto 10.
    + unfold ret. intros H. injection H as _ <-. intros x Hx.
      repeat (apply keys_set in Hx as [->|Hx]); cbn [In app]; auto 10.
Qed.

(** The key one metric adds to a record. *)
Lemma parse_metric_keys mh value record w w' record' :
  parse_metric py_int py_float_ok self (mh, value) record w = (w', Ok record') ->
  exists m,
    mh_name mh = Some m
    /\ forall x, In x (Dict.keys record') ->
         In x (Dict.keys record) \/ x = _normalize_colname m.
Proof.
  unfold parse_metric. destruct (mh_name mh) as [m|]; [|discriminate].
  rewrite bind_eq.
  destruct (_lookup_data_type _ _ _ _ w) as [w1 [t|e]]; [|discriminate].
  rewrite bind_eq. unfold lift at 1.
  destruct (coerce py_int py_float_ok t value) as [v|e]; [|discriminate].
  unfold ret. intros H. injection H as _ <-. exists m. split; [reflexivity|].
  intros x Hx. apply keys_set in Hx as [->|Hx]; auto.
Qed.

(** The keys of the record of a row. *)
Lemma parse_row_keys (cols : list string) dhs mhs r w w' record :
  In "view_id" cols -> In "stream" cols ->
  In "report_start_date" cols -> In "report_end_date" cols ->
  (forall h x, In h dhs -> In x (record_columns h) -> In x cols) ->
  (forall mh m, In mh mhs -> mh_name mh = Some m -> In (_normalize_colname m) cols) ->
  parse_row py_int py_float_ok self dhs mhs r w = (w', Ok record) ->
  forall x, In x (Dict.keys record) -> In x cols.
Proof.
  intros C1 C2 C3 C4 Hd Hm. unfold parse_row. rewrite bind_eq.
  destruct (for_each (combine dhs _) _ _ w) as [w1 [r1|e1]] eqn:E1; [|discriminate].
  rewrite bind_eq.
  destruct (for_each (default [] (row_metrics r)) _ r1 w1) as [w2 [r2|e2]] eqn:E2;
    [|discriminate].
  unfold ret. intros H. injection H as _ <-.
  assert (P1 : forall x, In x (Dict.keys r1) -> In x cols).
  { eapply (for_each_invariant_in (fun s => forall x, In x (Dict.keys s) -> In x cols));
      [|exact E1|].
    - intros [h d] s w0 w0' s' Hin Hstep Hs x Hx.
      destruct (parse_dimension_keys _ _ _ _ _ _ Hstep x Hx) as [Hk|Hk].
      + apply Hs, Hk.
      + apply (Hd h); [|exact Hk]. eapply in_combine_l. exact Hin.
    - intros x [<-|[<-|[]]]; assumption. }
  assert (P2 : forall x, In x (Dict.keys r2) -> In x cols).
  { eapply (for_each_invariant_in (fun s => forall x, In x (Dict.keys s) -> In x cols));
      [|exact E2|exact P1].
    intros vs s w0 w0' s' _. cbv beta. destruct (values vs) as [vals|];
      [|intros H; cbv [raise] in H; discriminate H].
    apply (for_each_invariant_in
             (fun s => forall x, In x (Dict.keys s) -> In x cols)).
    intros [mh value] s0 w3 w3' s0' Hin Hstep Hs x Hx.
    destruct (parse_metric_keys _ _ _ _ _ _ Hstep) as (m & Hname & Hk).
    destruct (Hk x Hx) as [Hx'| ->].
    - apply Hs, Hx'.
    - apply (Hm mh m); [|exact Hname]. eapply in_combine_l. exact Hin. }
  intros x Hx.
  apply keys_set in Hx as [->|Hx]; [exact C4|].
  apply keys_set in Hx as [->|Hx]; [exact C3|].
  apply P2, Hx.
Qed.
End record_keys.

(** X26: the records conform to the schema in their keys: when the
    dimension headers of a page are dimensions of the report and its metric
    headers name metrics of the report, and ["ga:date"] and
    ["ga:yearMonth"] are the only dimensions with the columns [ga_date] and
    [ga_year_month], every key of a record built from a row is the name of a
    property of the schema. *)
Theorem records_conform_to_schema
    (py_int : string -> option Z) (py_float_ok : string -> bool)
    (self : stream) (dimensionHeaders : list string)
    (metricHeaders : list metric_header_entry) (r : row)
    (w w' w0 w1 : world) (v : schema_vars) (record : pydict json) :
  schema self w = (w', Ok v) ->
  (forall h, In h dimensionHeaders -> In h (r_dimensions (report self))) ->
  (forall mh m, In mh metricHeaders -> mh_name mh = Some m ->
     In m (r_metrics (report self))) ->
  (forall d, In d (r_dimensions (report self)) ->
     _normalize_colname d = "ga_date" -> d = "ga:date") ->
  (forall d, In d (r_dimensions (report self)) ->
     _normalize_colname d = "ga_year_month" -> d = "ga:yearMonth") ->
  parse_row py_int py_float_ok self dimensionHeaders metricHeaders r w0
  = (w1, Ok record) ->
  forall key, In key (Dict.keys record) -> In key (map prop_name (properties v)).
Proof.
  intros Hs Hdh Hmh Hdate Hmonth Hrow.
  rewrite (schema_names self w w' v Hs).
  apply (parse_row_keys py_int py_float_ok self _ dimensionHeaders metricHeaders
           r w0 w1 record); [| | | | | |exact Hrow].
  - left. reflexivity.
  - right. left. reflexivity.
  - apply in_or_app. right. apply in_or_app. right. apply in_or_app. right.
    left. reflexivity.
  - apply in_or_app. right. apply in_or_app. right. apply in_or_app. right.
    right. left. reflexivity.
  - intros h x Hh Hx. apply in_or_app. right. apply in_or_app. left.
    apply in_flat_map. exists h. split; [apply Hdh, Hh|].
    unfold record_columns in Hx. unfold schema_columns.
    destruct Hx as [<-|Hx].
    { apply in_or_app. right. apply in_or_app. right. left. reflexivity. }
    apply in_app_or in Hx as [Hx|Hx].
    + destruct (String.eqb_spec (_normalize_colname h) "ga_date") as [E|]; [|destruct Hx].
      rewrite (Hdate h (Hdh h Hh) E). cbn [String.eqb Ascii.eqb Bool.eqb].
      destruct Hx as [<-|[]]. left. reflexivity.
    + destruct (String.eqb_spec (_normalize_colname h) "ga_year_month") as [E|];
        [|destruct Hx].
      rewrite (Hmonth h (Hdh h Hh) E). cbn [String.eqb Ascii.eqb Bool.eqb app].
      destruct Hx as [<-|[<-|[]]]; [left; reflexivity | right; left; reflexivity].
  - intros mh m Hin Hname. apply in_or_app. right. apply in_or_app. right.
    apply in_or_app. left. apply in_map. eapply Hmh; eassumption.
Qed.

Lemma records_conform_to_schema_witness :
  exists v record,
    schema (sample_stream (sample_report None)) world0 = (world0, Ok v)
    /\ parse_row sample_int (fun _ => true) (sample_stream (sample_report None))
         ["ga:date"; "ga:country"] sample_metric_headers sample_row world0
       = (world0, Ok record)
    /\ Dict.keys record
       = ["view_id"; "stream"; "ga_date"; "ga_date_dt"; "ga_country"; "ga_sessions";
          "ga_sessions_per_user"; "report_start_date"; "report_end_date"]
    /\ forall key, In key (Dict.keys record) -> In key (map prop_name (properties v)).
Proof.
  eexists. eexists. split; [vm_compute; reflexivity|].
  split; [vm_compute; reflexivity|]. split; [reflexivity|].
  apply (records_conform_to_schema sample_int (fun _ => true)
           (sample_stream (sample_report None)) ["ga:date"; "ga:country"]
           sample_metric_headers sample_row world0 world0 world0 world0).
  - vm_compute. reflexivity.
  - intros h H. exact H.
  - intros mh m [<-|[<-|[]]] H; injection H as <-; cbn; auto.
  - intros d [<-|[<-|[]]] H; [reflexivity | vm_compute in H; discriminate H].
  - intros d [<-|[<-|[]]] H; vm_compute in H; discriminate H.
  - vm_compute. reflexivity.
Defined.

(** * The records of an extraction *)

Section yields.
Context (analytics : nat -> nat -> json -> res response).
Context (py_int : string -> option Z) (py_float_ok : string -> bool).
Context (self : stream).
Context (Y : pydict json -> Prop).
Hypothesis row_records : forall dhs mhs r w w' record,
  parse_row py_int py_float_ok self dhs mhs r w = (w', Ok record) -> Y record.

Lemma quiet_parse_response_records resp :
  quiet Y (_parse_response py_int py_float_ok self resp).
Proof using row_records.
  unfold _parse_response. destruct (default [] (reports resp)) as [|report _].
  - apply quiet_raise.
  - destruct (report_truthy report); [|apply quiet_ret].
    apply quiet_for_each. intros r [] _. apply quiet_bind.
    + apply quiet_parse_row.
    + intros record w w' H. apply quiet_yield. eapply row_records. exact H.
Qed.

Context (sf : string) (page_size : Z) (max_records : option Z).

(** A turn of the loop yields records of rows only. *)
Lemma loop_body_yields v w :
  Forall Y (w_yield w) ->
  Forall Y
    (w_yield (fst (loop_body analytics py_int py_float_ok self
                     (_generate_report_definition (report self)) sf page_size
                     max_records v w))).
Proof using row_records.
  intros Hy. unfold loop_body. rewrite bind_eq.
  destruct (query_body_generated self (report self) sf (next_page_token v))
    as [b Hb].
  destruct (_request_data_spec analytics self _ sf (next_page_token v) b Hb w)
    as (_ & _ & _ & R4 & _).
  destruct (_request_data _ _ _ _ _ w) as [w1 [resp|e]]; cbn [fst] in *;
    [|rewrite R4; exact Hy].
  rewrite bind_eq.
  destruct (quiet_parse_response_records resp w1) as (_ & _ & new & Q3 & Q4).
  assert (D2 : Forall Y
                 (w_yield (fst (_parse_response py_int py_float_ok self resp w1)))).
  { rewrite Q3, R4. apply Forall_app. auto. }
  destruct (_parse_response py_int py_float_ok self resp w1) as [w2 [[]|e]];
    cbn [fst] in *; [|exact D2].
  destruct (truthy _ && token_eqb _ _); exact D2.
Qed.

Lemma while_yields fuel : forall v w,
  Forall Y (w_yield w) ->
  Forall Y
    (w_yield (fst (while_not_finished fuel
                     (loop_body analytics py_int py_float_ok self
                        (_generate_report_definition (report self)) sf page_size
                        max_records)
                     v w))).
Proof using row_records.
  induction fuel as [|fuel IH]; intros v w Hw; cbn [while_not_finished].
  - destruct (finished v); exact Hw.
  - destruct (finished v); [exact Hw|]. rewrite bind_eq.
    pose proof (loop_body_yields v w Hw) as Hb.
    destruct (loop_body _ _ _ _ _ _ _ _ v w) as [w' [v'|e]]; cbn [fst] in Hb.
    + apply IH. exact Hb.
    + exact Hb.
Qed.
End yields.

(** X27: the start date the records carry is the configured one, as it
    is written in the configuration, while the requests ask for the range
    that starts at the bookmark: whatever the server answers and however the
    extraction ends, every record yielded has the configured [start_date]
    (or [None]) under [report_start_date], and every request sent has the
    normalized bookmark as its [startDate]. *)
Theorem records_carry_configured_start_date
    (analytics : nat -> nat -> json -> res response)
    (py_int : string -> option Z) (py_float_ok : string -> bool)
    (self : stream) (rkv : option string) (fuel : nat) :
  let out := fst (_request_records analytics py_int py_float_ok fuel self rkv world0) in
  Forall (fun record =>
            Dict.get "report_start_date" record = Some (start_date_json self))
    (w_yield out)
  /\ forall sf,
       _get_state_filter self rkv = Ok sf ->
       Forall (Forall (fun body => date_ranges body = one_range sf (end_date self)))
         (w_sent out).
Proof.
  cbv zeta. destruct (_get_state_filter self rkv) as [sf|e] eqn:Hsf.
  - rewrite (request_records_eq _ _ _ _ _ _ _ _ Hsf). split.
    + apply while_yields; [|constructor].
      intros dhs mhs r w w' record H.
      eapply parse_row_dates. exact H.
    + intros sf' E. injection E as <-.
      apply (while_dated analytics py_int py_float_ok self sf). split; constructor.
  - unfold _request_records. rewrite bind_eq. unfold lift. rewrite Hsf. cbn [fst].
    split; [constructor | discriminate].
Qed.

Lemma records_carry_configured_start_date_witness :
  let out := fst (_request_records (ending_server 0) sample_int (fun _ => true) 3
                    (sample_stream (sample_report None)) (Some "20240105") world0) in
  Forall (fun record => Dict.get "report_start_date" record = Some (JStr "2024-01-01"))
    (w_yield out)
  /\ Forall (Forall (fun body =>
                       date_ranges body = one_range "2024-01-05" "2024-02-29"))
       (w_sent out)
  /\ List.length (w_yield out) = 1%nat
  /\ List.length (w_sent out) = 1%nat.
Proof.
  cbv zeta.
  destruct (records_carry_configured_start_date (ending_server 0) sample_int
              (fun _ => true) (sample_stream (sample_report None))
              (Some "20240105") 3) as [H1 H2].
  split; [exact H1|]. split; [apply H2; reflexivity|].
  split; vm_compute; reflexivity.
Defined.
(** * The date range of an extraction *)

(** A page request whose cursor is on record was sent at least once. *)
Lemma cursors_sent_attempts w (f : nat -> json) (l : list nat) :
  cursors_sent w = map (fun j => Some (f j)) l ->
  Forall (fun attempts => attempts <> []) (w_sent w).
Proof.
  unfold cursors_sent. generalize (w_sent w). intros gs. revert l.
  induction gs as [|g gs IH]; intros l H; [constructor|].
  destruct l as [|j l]; [discriminate|]. cbn [map] in H.
  injection H as Hg H. constructor; [|exact (IH l H)].
  destruct g; [discriminate | discriminate].
Qed.

(** C7: the stream's end date is the configured end date minus one day; the
    start bookmark comes from the sync state, or from the configured start
    date when the state has none, and is accepted in compact and in dashed
    form; every request of the extraction asks for the range from the
    bookmark in dashed form to that end date, and every record yielded
    carries that end date in [report_end_date].  An extraction that runs to
    its end at page [k] has sent [k + 1] page requests, each at least once,
    and yielded one record per row of these pages.  (Stated for dates whose
    year has four digits, the day before the end date included.) *)
Theorem date_range_resolution
    (analytics : nat -> nat -> json -> res response)
    (py_int : string -> option Z) (py_float_ok : string -> bool)
    (name tap_stream_id : string) (config : config) (ga_report : report_spec)
    (dref mref : gmap string string) (utcnow t_start t_end : Date.datetime) :
  Date.valid (Date.year t_start) (Date.month t_start) (Date.day t_start) = true ->
  (1000 <= Date.year t_start)%Z ->
  Date.valid (Date.year t_end) (Date.month t_end) (Date.day t_end) = true ->
  (1000 < Date.year t_end)%Z ->
  cfg_end_date config = Some (Date.strftime_dashed t_end) ->
  exists self t_prev,
    init name tap_stream_id config ga_report dref mref utcnow = Ok self
    /\ Date.minus_one_day t_end = Ok t_prev
    /\ Date.toordinal t_prev = (Date.toordinal t_end - 1)%Z
    /\ end_date self = Date.strftime_dashed t_prev
    /\ forall bookmark,
         bookmark = Date.strftime_compact t_start
         \/ bookmark = Date.strftime_dashed t_start ->
         _get_state_filter self (Some bookmark) = Ok (Date.strftime_dashed t_start)
         /\ (cfg_start_date config = Some bookmark ->
             _get_state_filter self None = Ok (Date.strftime_dashed t_start))
         /\ forall rkv,
              rkv = Some bookmark
              \/ rkv = None /\ cfg_start_date config = Some bookmark ->
              (forall fuel,
                 dated self (Date.strftime_dashed t_start)
                   (fst (_request_records analytics py_int py_float_ok fuel self rkv
                           world0)))
              /\ forall (pages : nat -> response) (k : nat),
                   (forall j tok,
                      page_outcome analytics self
                        (_generate_report_definition (report self))
                        (Date.strftime_dashed t_start) tok j = Ok (pages j)) ->
                   (forall j w,
                      snd (_parse_response py_int py_float_ok self (pages j) w)
                      = Ok tt) ->
                   (forall j, (j < k)%nat ->
                      _is_finished (_get_next_page_token (pages j))
                        (Z.of_nat (S j) * report_page_size self)%Z
                        (report_max_records self) = false) ->
                   (forall j, (j < k)%nat ->
                      truthy (_get_next_page_token (pages (S j))) = true ->
                      _get_next_page_token (pages (S j))
                      <> _get_next_page_token (pages j)) ->
                   _is_finished (_get_next_page_token (pages k))
                     (Z.of_nat (S k) * report_page_size self)%Z
                     (report_max_records self) = true ->
                   forall fuel, (k < fuel)%nat ->
                     let out :=
                       fst (_request_records analytics py_int py_float_ok fuel self
                              rkv world0) in
                     List.length (w_sent out) = S k
                     /\ Forall (fun attempts => attempts <> []) (w_sent out)
                     /\ List.length (w_yield out) = rows_upto pages (S k).
Proof.
  intros Hvs Hys Hve Hye Hend.
  destruct (get_end_date_spec config utcnow t_end Hve ltac:(lia) Hend)
    as (t_prev & Hm & Ho & He).
  unfold init. rewrite He. cbn [res_bind]. eexists. exists t_prev.
  split; [reflexivity|]. split; [exact Hm|]. split; [exact Ho|].
  split; [reflexivity|].
  intros bookmark Hb.
  match goal with |- _get_state_filter ?s _ = _ /\ _ => set (self := s) end.
  assert (H1 : _get_state_filter self (Some bookmark)
               = Ok (Date.strftime_dashed t_start)).
  { destruct Hb as [->| ->];
      [apply state_filter_compact | apply state_filter_dashed]; assumption. }
  assert (H2 : cfg_start_date config = Some bookmark ->
               _get_state_filter self None = Ok (Date.strftime_dashed t_start)).
  { intros Hc. rewrite (state_filter_fallback self bookmark Hc). exact H1. }
  split; [exact H1|]. split; [exact H2|].
  intros rkv Hr.
  assert (Hsf : _get_state_filter self rkv = Ok (Date.strftime_dashed t_start)).
  { destruct Hr as [->|[-> Hc]]; [exact H1 | exact (H2 Hc)]. }
  split.
  - intros fuel. rewrite (request_records_eq _ _ _ _ _ _ _ _ Hsf).
    apply while_dated. split; constructor.
  - intros pages k Hserved Hparsed Hrun Hfresh Hfin fuel Hfuel. cbv zeta.
    rewrite (request_records_eq _ _ _ _ _ _ _ _ Hsf).
    destruct (run_to_finish analytics py_int py_float_ok self
                (Date.strftime_dashed t_start)
                (report_page_size self) (report_max_records self) pages (S k)
                (fun j tok _ => Hserved j tok) (fun j w _ => Hparsed j w) k)
      with (fuel := fuel) as (w' & Hw & Hc & Hy).
    + lia.
    + exact Hrun.
    + intros j Hj. apply Hfresh; [lia|].
      apply (not_finished_truthy (report_max_records self) _
               (Z.of_nat (S (S j)) * report_page_size self)%Z).
      apply Hrun. exact Hj.
    + exact Hfin.
    + intros j -> Ht. apply Hfresh; [lia | exact Ht].
    + exact Hfuel.
    + rewrite Hw. cbn [fst]. repeat apply conj.
      * rewrite <- cursors_sent_length, Hc, length_map, length_seq. reflexivity.
      * eapply cursors_sent_attempts. exact Hc.
      * exact Hy.
Qed.

Lemma date_range_resolution_witness :
  exists self,
    init "sessions" "sessions" sample_config (sample_report None)
      sample_dimensions_ref sample_metrics_ref (Date.Datetime 2024 3 9) = Ok self
    /\ end_date self = "2024-02-29"
    /\ _get_state_filter self (Some "20240105") = Ok "2024-01-05"
    /\ _get_state_filter self (Some "2024-01-05") = Ok "2024-01-05"
    /\ let out :=
         fst (_request_records (ending_server 2) sample_int (fun _ => true) 5 self
                (Some "20240105") world0) in
       Forall (Forall (fun body =>
                         date_ranges body = one_range "2024-01-05" "2024-02-29"))
         (w_sent out)
       /\ Forall (fun record =>
                    Dict.get "report_end_date" record = Some (JStr "2024-02-29"))
            (w_yield out)
       /\ List.length (w_sent out) = 3%nat
       /\ Forall (fun attempts => attempts <> []) (w_sent out)
       /\ List.length (w_yield out) = 3%nat.
Proof.
  destruct (date_range_resolution (ending_server 2) sample_int (fun _ => true)
              "sessions" "sessions" sample_config (sample_report None)
              sample_dimensions_ref sample_metrics_ref (Date.Datetime 2024 3 9)
              (Date.Datetime 2024 1 5) (Date.Datetime 2024 3 1)
              eq_refl ltac:(cbn; lia) eq_refl ltac:(cbn; lia) eq_refl)
    as (self & t_prev & Hinit & Hm & _ & He & Hb).
  exists self. split; [exact Hinit|].
  vm_compute in Hm. injection Hm as <-. split; [exact He|].
  destruct (Hb "20240105" (or_introl eq_refl)) as (H1 & _ & H3).
  destruct (Hb "2024-01-05" (or_intror eq_refl)) as (H2 & _).
  split; [exact H1|]. split; [exact H2|].
  destruct (H3 (Some "20240105") (or_introl eq_refl)) as [Hdated Hrun].
  destruct (Hdated 5%nat) as [Hsent Hyield].
  assert (Hself : self = sample_stream (sample_report None))
    by (vm_compute in Hinit; injection Hinit as <-; reflexivity).
  subst self.
  destruct (Hrun (fun j => sample_page (if (j <? 2)%nat then Some (cursor j) else None))
              2%nat) with (fuel := 5%nat) as (C1 & C2 & C3).
  - intros j tok. apply ending_server_served.
  - intros j w. apply sample_page_parsed.
  - intros j Hj. destruct j as [|[|j]]; [reflexivity | reflexivity | lia].
  - intros j Hj. destruct j as [|[|j]]; [discriminate | discriminate | lia].
  - reflexivity.
  - lia.
  - cbv zeta.
    split; [exact Hsent|]. split; [exact Hyield|].
    split; [exact C1|]. split; [exact C2 | exact C3].
Defined.

(** The day before 1000-01-01 is printed ["999-12-31"]. *)
Lemma end_date_before_year_1000 :
  _get_end_date
    {| cfg_view_id := "188392047"; cfg_start_date := Some "0990-01-01";
       cfg_end_date := Some "1000-01-01"; cfg_page_size := None;
       cfg_max_records := None; cfg_quota_user := None |}
    (Date.Datetime 2024 3 9)
  = Ok "999-12-31".
Proof. reflexivity. Qed.
